(** * Salesforce / SFTP synchronisation engine: a shallow embedding

    The development follows [salesforceintegrationcode.py] and
    [sftpintegrationcode.py].  Pure helpers become functions; code that
    talks to Salesforce, to the Quorum side helper or to the file store is
    run against an explicit world: a record of scripted answers, with every
    request and every log line appended to a trace. *)

From Stdlib Require Import ZArith Lia Bool Ascii String List DecimalString.
From stdpp Require Import base decidable option list sorting strings gmap.

Local Open Scope string_scope.
Local Open Scope list_scope.
Local Open Scope nat_scope.

#[local] Set Warnings "-register-all".

(** ** Python values *)

Module Py.

(** A date or datetime object.  [strftime] is a library routine: the value
    carries its rendering under the two format strings the module uses
    ([SF_DATE_FORMAT], [SF_DATETIME_FORMAT]) and under [unicode()]. *)
Record pydate : Type := mk_pydate {
  strftime_date : string;
  strftime_datetime : string;
  date_unicode : string
}.

(** The objects found in data frame cells, in records and in Salesforce
    answers.  [VNaN] is the float not-a-number that pandas uses for a missing
    cell; other floats and [pd.NaT] are outside the model.  [VExn] is a caught
    exception object stored as a value. *)
Inductive pyval : Type :=
| VNone
| VBool (b : bool)
| VInt (n : Z)
| VNaN
| VStr (s : string)
| VDate (d : pydate)
| VList (l : list pyval)
| VDict (d : gmap string pyval)
| VExn (name : string).

Abbreviation pydict := (gmap string pyval).

(** Exceptions that the modelled code raises, catches or lets through. *)
Inductive exn : Type :=
| ValueError
| TypeError
| KeyError
| IndexError
| AttributeError
| UnboundLocalError
| SalesforceMalformedRequest
| SalesforceRefusedRequest (error_code : option string)
| ConnectionError
| ZeroDivisionError
| OtherError (name : string).

Definition exn_name (e : exn) : string :=
  match e with
  | ValueError => "ValueError"
  | TypeError => "TypeError"
  | KeyError => "KeyError"
  | IndexError => "IndexError"
  | AttributeError => "AttributeError"
  | UnboundLocalError => "UnboundLocalError"
  | SalesforceMalformedRequest => "SalesforceMalformedRequest"
  | SalesforceRefusedRequest _ => "SalesforceRefusedRequest"
  | ConnectionError => "ConnectionError"
  | ZeroDivisionError => "ZeroDivisionError"
  | OtherError name => name
  end.

(** The outcome of a call: a returned value or a raised exception. *)
Inductive result (A : Type) : Type :=
| Ok (a : A)
| Raise (e : exn).
Arguments Ok {A} a.
Arguments Raise {A} e.

(** [bool(v)] *)
Definition truthy (v : pyval) : bool :=
  match v with
  | VNone => false
  | VBool b => b
  | VInt n => negb (n =? 0)%Z
  | VNaN => true
  | VStr s => negb (String.eqb s EmptyString)
  | VDate _ => true
  | VList l => negb (Nat.eqb (length l) 0)
  | VDict d => negb (Nat.eqb (size d) 0)
  | VExn _ => true
  end.

(** [len(v)] for the values with a [__len__] attribute, [None] for the
    others ([hasattr(v, "__len__")] is [is_Some (py_len v)]). *)
Definition py_len (v : pyval) : option nat :=
  match v with
  | VStr s => Some (String.length s)
  | VList l => Some (length l)
  | VDict d => Some (size d)
  | _ => None
  end.

Definition is_none (v : pyval) : bool :=
  match v with VNone => true | _ => false end.

(** [pd.isna] on a scalar cell. *)
Definition isna (v : pyval) : bool :=
  match v with VNone | VNaN => true | _ => false end.

Definition is_list (v : pyval) : bool :=
  match v with VList _ => true | _ => false end.

(** [isinstance(v, (datetime, date))] *)
Definition is_date (v : pyval) : bool :=
  match v with VDate _ => true | _ => false end.

Definition str_of_Z (n : Z) : string := NilZero.string_of_int (Z.to_int n).

(** [unicode(v)].  The text of a list, of a dict or of an exception object is
    computed by the interpreter; it is a parameter of the model. *)
Definition unicode (container_repr : pyval -> string) (v : pyval) : string :=
  match v with
  | VNone => "None"
  | VBool true => "True"
  | VBool false => "False"
  | VInt n => str_of_Z n
  | VNaN => "nan"
  | VStr s => s
  | VDate d => date_unicode d
  | VList _ | VDict _ | VExn _ => container_repr v
  end.

Definition backslash : ascii := ascii_of_nat 92.

(** [s.replace(quote, backslash + quote)]: a backslash is put before every
    single quote. *)
Fixpoint escape_quotes (s : string) : string :=
  match s with
  | EmptyString => EmptyString
  | String c rest =>
      if Ascii.eqb c "'"%char
      then String backslash (String "'"%char (escape_quotes rest))
      else String c (escape_quotes rest)
  end.

(** [d.pop(key, None)]: the value removed and the dict without the key. *)
Definition dict_pop_default (key : string) (d : pydict) : pyval * pydict :=
  (default VNone (d !! key), delete key d).

(** [d.pop(key)]: raises [KeyError] when the key is missing. *)
Definition dict_pop (key : string) (d : pydict) : result (pyval * pydict) :=
  match d !! key with
  | Some v => Ok (v, delete key d)
  | None => Raise KeyError
  end.

(** [d.get(key)] *)
Definition dict_get (key : string) (d : pydict) : pyval :=
  default VNone (d !! key).

End Py.
Import Py.

(** ** Predicate / query builder: [SalesforceAPIWrapper._sf_build_where_clauses] *)

Module WhereClauses.

(** [MAX_WHERE_CLAUSE = 3500], the class attribute read as
    [self.MAX_WHERE_CLAUSE]. *)
Definition MAX_WHERE_CLAUSE : nat := 35 * 100.

(** Python's order on the [(value_key, sf_name)] tuples that
    [sorted(listitems(field_mapping))] compares: the first components
    decide, the second ones break a tie. *)
Definition item_le (a b : string * string) : Prop :=
  String.le a.1 b.1 ∧ (a.1 = b.1 → String.le a.2 b.2).

#[global] Instance item_le_dec : RelDecision item_le.
Proof. intros a b. unfold item_le. apply _. Defined.

(** [sorted(listitems(field_mapping))]; the mapping is the list of its items
    in the order the dict yields them. *)
Definition sorted_items (field_mapping : list (string * string)) : list (string * string) :=
  merge_sort item_le field_mapping.

(** The items of the mapping that give a comparison term for [record]:
    [record.get(value_key)] must not be [None] (a key that the record lacks
    reads as [None]). *)
Definition kept_items (record : pydict) (field_mapping : list (string * string))
  : list (string * string) :=
  filter (fun item => is_none (dict_get item.1 record) = false) (sorted_items field_mapping).

(** The comparison terms of one predicate, in the order in which the inner
    loop appends them: the Salesforce field name and the value searched
    for. *)
Definition where_terms (record : pydict) (field_mapping : list (string * string))
  : list (string * pyval) :=
  (fun item => (item.2, dict_get item.1 record)) <$> kept_items record field_mapping.

(** The record keys ([value_key]) and the Salesforce field names
    ([sf_name]) of a predicate's terms, in the order in which they are
    written. *)
Definition predicate_keys (record : pydict) (field_mapping : list (string * string))
  : list string :=
  fst <$> kept_items record field_mapping.

Definition predicate_fields (record : pydict) (field_mapping : list (string * string))
  : list string :=
  snd <$> kept_items record field_mapping.

Section Render.
Variable container_repr : pyval -> string.

(** The text appended to [where_items] for one term: the [if]/[elif] chain
    on the type of the value. *)
Definition where_item (term : string * pyval) : string :=
  let sf_name := term.1 in
  match term.2 with
  | VBool b => sf_name +:+ " = " +:+ (if b then "TRUE" else "FALSE")
  | VDate d =>
      let formatted_date := strftime_datetime d in
      if String.eqb sf_name "LastModifiedDate"
      then sf_name +:+ " >= " +:+ formatted_date
      else sf_name +:+ " = '" +:+ formatted_date +:+ "'"
  | VInt _ | VNaN => sf_name +:+ " = " +:+ unicode container_repr term.2
  | v => sf_name +:+ " = '" +:+ escape_quotes (unicode container_repr v) +:+ "'"
  end.

Definition where_items (record : pydict) (field_mapping : list (string * string)) : list string :=
  where_item <$> where_terms record field_mapping.

(** [u"({})".format(" AND ".join(where_items))] *)
Definition current_clause (record : pydict) (field_mapping : list (string * string)) : string :=
  "(" +:+ String.concat " AND " (where_items record field_mapping) +:+ ")".

(** The two locals that the loop updates. *)
Record builder : Type := mk_builder {
  current_where : string;
  sf_where_clauses : list string
}.

(** [sf_where_clauses.append(current_where); current_where = u''] *)
Definition flush (st : builder) : builder :=
  {| current_where := EmptyString;
     sf_where_clauses := sf_where_clauses st ++ [current_where st] |}.

(** One iteration of [for idx, record in enumerate(search_values)], with
    [total = len(search_values)]. *)
Definition build_step (max_where total : nat) (field_mapping : list (string * string))
    (idx : nat) (record : pydict) (st : builder) : builder :=
  let st := if max_where <? String.length (current_where st) then flush st else st in
  match where_items record field_mapping with
  | [] => st (* continue *)
  | _ :: _ =>
      let clause := current_clause record field_mapping in
      let joined :=
        if String.eqb (current_where st) EmptyString then clause
        else String.concat " OR " [current_where st; clause] in
      let st := {| current_where := joined; sf_where_clauses := sf_where_clauses st |} in
      if (max_where <? String.length joined) || (idx =? total - 1)
      then flush st else st
  end.

Fixpoint build_loop (max_where total : nat) (field_mapping : list (string * string))
    (idx : nat) (search_values : list pydict) (st : builder) : builder :=
  match search_values with
  | [] => st
  | record :: rest =>
      build_loop max_where total field_mapping (S idx) rest
        (build_step max_where total field_mapping idx record st)
  end.

Definition _sf_build_where_clauses (max_where : nat) (search_values : list pydict)
    (field_mapping : list (string * string)) : list string :=
  sf_where_clauses
    (build_loop max_where (length search_values) field_mapping 0 search_values
       {| current_where := EmptyString; sf_where_clauses := [] |}).

(** Closing a chunk: what [current_where] becomes when [clause] is joined to
    [prefix]. *)
Definition or_join (prefix clause : string) : string :=
  if String.eqb prefix EmptyString then clause else String.concat " OR " [prefix; clause].

(** What the loop maintains: the open chunk is within the limit, and every
    closed chunk was within the limit before its last predicate was joined
    to it. *)
Definition closed_ok (max_where : nat) (search_values : list pydict)
    (field_mapping : list (string * string)) (chunk : string) : Prop :=
  ∃ prefix record,
    record ∈ search_values ∧
    where_items record field_mapping ≠ [] ∧
    chunk = or_join prefix (current_clause record field_mapping) ∧
    String.length prefix ≤ max_where.

Definition builder_ok (max_where : nat) (search_values : list pydict)
    (field_mapping : list (string * string)) (st : builder) : Prop :=
  String.length (current_where st) ≤ max_where ∧
  Forall (closed_ok max_where search_values field_mapping) (sf_where_clauses st).

End Render.

End WhereClauses.

(** ** The outside world

    Salesforce is reached through the calls of [simple_salesforce]; the
    Quorum side helper and the refresh of the identifier dictionary are two
    more collaborators.  A world answers each call from the history of the
    run so far, so it may behave differently on the second chunk than on the
    first.  [log.error] lines and notifications to
    the services channel are events of the same trace; [log.info] and
    [log.debug] lines are not modelled. *)

Module World.

Inductive request : Type :=
| BulkUpsert (salesforce_model : string) (records : list pydict) (match_on : string)
| Update (salesforce_model : string) (record_path : string) (record : pydict)
| ContentNoteCreate (record : pydict)
| QueryAll (query : string) (include_deleted : bool)
| Describe (salesforce_model : string)
| SendExtIdsToQuorum (task_name : string) (id_df : list (pyval * pyval))
| UpdateExternalIdDict (quorum_model : string).

(** One entry of [description["fields"]], as [describe()] returns it; a
    picklist value comes with its [active] flag. *)
Record model_field : Type := mk_model_field {
  mf_externalId : bool;
  mf_label : string;
  mf_name : string;
  mf_nillable : bool;
  mf_type : string;
  mf_length : nat;
  mf_picklistValues : list (string * bool)
}.

(** The entries of [error_messages] in [normalize_sf_field_types], by the
    branch that appends them. *)
Inductive validation_error : Type :=
| ColumnNotValid (field_name salesforce_model : string)
| NotDates (field_name : string) (nondates : list pyval)
| PicklistInvalid (field_name : string) (values_not_in_picklist : list pyval)
| PicklistUndefined (field_name : string)
| IdLength (field_name : string) (wrong_length_rows : list pyval)
| NotBoolean (field_name : string) (non_bool_values : list pyval)
| NotStrings (field_name : string) (count : nat) (not_stringable : list pyval)
| TooLong (field_name : string) (count max_length : nat) (strings_over_length : list pyval)
| UnrecognizedType (field_name field_datatype : string).

(** The texts of the error lines and notifications, by the place that
    writes them, with the values that the format string receives. *)
Inductive message : Type :=
| CouldNotUpsert (salesforce_model : string) (e : exn)
| CountMismatch (n_results : nat) (salesforce_model : string) (n_ids : nat)
| UnableToUpsert (salesforce_model : string) (quorum_id sf_id error_message : pyval)
| UnableToRecordResult (e : exn)
| NowhereToStoreIds (task_name : string) (id_update_df : list (pyval * pyval))
| UpsertFailedEntirely (task_name : string) (results : list (bool * pyval * pyval))
| ExpiredPassword
| RefusedRequest (e : exn)
| UnhashableType (field_name : string)
| ErrorsOnTheRun (error_messages : list validation_error).

Inductive event : Type :=
| Called (r : request)
| LogError (m : message)
| NotifyProfSvcs (m : message).

Definition trace := list event.

Record world : Type := mk_world {
  bulk_upsert : trace -> string -> list pydict -> string -> result (list pyval);
  sf_update : trace -> string -> string -> pydict -> result pyval;
  content_note_create : trace -> pydict -> result pyval;
  query_all : trace -> string -> bool -> result (list pydict);
  describe : trace -> string -> result (list model_field);
  send_ext_ids_to_quorum : trace -> string -> list (pyval * pyval) -> result unit;
  update_external_id_dict : trace -> string -> result unit
}.

(** Computations that extend a trace of events [E] and return or raise. *)
Definition Run (E A : Type) : Type := list E -> list E * result A.

Definition ret {E A} (a : A) : Run E A := fun t => (t, Ok a).

Definition raise {E A} (e : exn) : Run E A := fun t => (t, Raise e).

Definition bind {E A B} (m : Run E A) (k : A -> Run E B) : Run E B :=
  fun t =>
    match m t with
    | (t', Ok a) => k a t'
    | (t', Raise e) => (t', Raise e)
    end.

(** [try: m except Exception as e: handler(e)] *)
Definition try_except {E A} (m : Run E A) (handler : exn -> Run E A) : Run E A :=
  fun t =>
    match m t with
    | (t', Ok a) => (t', Ok a)
    | (t', Raise e) => handler e t'
    end.

Definition emit {E} (ev : E) : Run E unit := fun t => (t ++ [ev], Ok tt).

Definition lift {E A} (r : result A) : Run E A := fun t => (t, r).

Definition M (A : Type) : Type := Run event A.

(** A call: the request enters the trace, then the world answers. *)
Definition call {A} (r : request) (answer : trace -> result A) : M A :=
  fun t => (t ++ [Called r], answer t).

(** [m] only appends to the trace, and what it appends satisfies [P]. *)
Definition appends {E A} (P : E -> Prop) (m : Run E A) : Prop :=
  ∀ t, ∃ new, (m t).1 = t ++ new ∧ Forall P new.

(** [m] starts by appending [ev]. *)
Definition starts_with {E A} (ev : E) (m : Run E A) : Prop :=
  ∀ t, ∃ new, (m t).1 = t ++ ev :: new.

Definition calls (t : trace) : list request :=
  omap (fun ev => match ev with Called r => Some r | _ => None end) t.

End World.
Import World.

Declare Scope py_scope.
Delimit Scope py_scope with py.
Notation "'let*' x ':=' m 'in' k" := (bind m (fun x => k))
  (at level 10, x pattern, m at level 100, k at level 200, only parsing) : py_scope.

(** ** Batch upsert engine: [run_upsert_to_sf], [_run_upsert_chunk],
    [_send_records_one_at_a_time] *)

Module Upsert.

Local Open Scope py_scope.

Definition SF_API_MAX_BATCH_SIZE : nat := 100 * 100.

(** The dict [{"success": .., "quorum_id": .., "sf_id": ..}] of one record. *)
Record upsert_outcome : Type := mk_outcome {
  success : bool;
  quorum_id : pyval;
  sf_id : pyval
}.

(** [d[key]] *)
Definition dict_item (key : string) (d : pydict) : result pyval :=
  match d !! key with
  | Some v => Ok v
  | None => Raise KeyError
  end.

(** [_should_ignore_error]: [response["errors"][0].get("statusCode", empty)]
    is read for a CampaignMember only, and each step of it can raise. *)
Definition _should_ignore_error (salesforce_model : string) (response : pydict) : result bool :=
  if String.eqb salesforce_model "CampaignMember" then
    match response !! "errors" with
    | None => Raise KeyError
    | Some (VList []) => Raise IndexError
    | Some (VList (VDict first :: _)) =>
        match default (VStr EmptyString) (first !! "statusCode") with
        | VStr code => Ok (String.eqb code "INVALID_FIELD_FOR_INSERT_UPDATE")
        | _ => Ok false
        end
    | Some (VList (_ :: _)) => Raise AttributeError
    | Some (VStr s) => if String.eqb s EmptyString then Raise IndexError else Raise AttributeError
    | Some (VDict _) => Raise KeyError
    | Some _ => Raise TypeError
    end
  else Ok false.

(** [a or b] *)
Definition py_or (a b : pyval) : pyval := if truthy a then a else b.

Definition failed (quorum_id : pyval) : upsert_outcome :=
  {| success := false; quorum_id := quorum_id; sf_id := VNone |}.

(** The body of [for one_result in zip(quorum_id_list, upsert_result_list)]:
    the [try] block and its [except Exception].  Every path through it ends
    in exactly one [output_results.append(result)]; the function returns
    that [result]. *)
Definition record_result (salesforce_model : string) (quorum_id obj_upsert_result : pyval)
  : M upsert_outcome :=
  try_except
    (match obj_upsert_result with
     | VDict obj =>
         let sf_id := dict_get "id" obj in
         let* ok := lift (dict_item "success" obj) in
         let* both := (if truthy ok
                       then let* i := lift (dict_item "id" obj) in ret (truthy i)
                       else ret false) in
         if (both : bool) then
           let* i := lift (dict_item "id" obj) in
           ret {| success := true; quorum_id := quorum_id; sf_id := i |}
         else
           let* ignore := lift (_should_ignore_error salesforce_model obj) in
           let* _ :=
             (if (ignore : bool) then ret tt
              else
                let error_message := py_or (dict_get "message" obj) (dict_get "errors" obj) in
                emit (LogError (UnableToUpsert salesforce_model quorum_id sf_id error_message))) in
           ret (failed quorum_id)
     | _ => raise AttributeError
     end)
    (fun e =>
       let* _ := emit (LogError (UnableToRecordResult e)) in
       ret (failed quorum_id)).

Fixpoint record_results (salesforce_model : string) (pairs : list (pyval * pyval))
    (output_results : list upsert_outcome) : M (list upsert_outcome) :=
  match pairs with
  | [] => ret output_results
  | one_result :: rest =>
      let* r := record_result salesforce_model one_result.1 one_result.2 in
      record_results salesforce_model rest (output_results ++ [r])
  end.

(** The records that a request carries to Salesforce. *)
Definition request_records (r : request) : list pydict :=
  match r with
  | BulkUpsert _ records _ => records
  | Update _ _ record => [record]
  | ContentNoteCreate record => [record]
  | _ => []
  end.

(** The records transmitted along a trace. *)
Definition transmitted (t : trace) : list pydict :=
  calls t ≫= request_records.

(** An event is stripped when the records it carries to Salesforce, if any,
    lack the bookkeeping key. *)
Definition stripped_event (ev : event) : Prop :=
  match ev with
  | Called r => Forall (fun record => record !! "quorum_side_primary_key" = None)
                       (request_records r)
  | _ => True
  end.

Section Engine.
Variable w : world.
Variable container_repr : pyval -> string.
(** [str(type(v))] *)
Variable type_text : pyval -> string.
(** [chunked_list(lst, size, total)], imported from the platform's
    utilities: the chunks, in the order in which the generator yields them. *)
Variable chunked_list : list pydict -> nat -> nat -> list (list pydict).

Definition result_item (id success errors : pyval) (created : bool) : pyval :=
  VDict {[ "id" := id; "success" := success; "errors" := errors; "created" := VBool created ]}.

(** What follows [if match_value:] in the loop body; [outcome] is the local
    of that name as the previous iterations left it ([None]: still unbound).
    The pair returned is the item appended and [outcome] afterwards. *)
Definition send_matched (salesforce_model match_on : string) (sf_id match_value : pyval)
    (record : pydict) (outcome : option pyval) : M (pyval * option pyval) :=
  let* (outcome, created) :=
    (if truthy match_value then
       let path := match_on +:+ "/" +:+ unicode container_repr match_value in
       let* response_code := call (Update salesforce_model path record)
                                  (fun t => sf_update w t salesforce_model path record) in
       ret (match response_code with
            | VInt 204 => Some (result_item sf_id (VBool true) (VList []) false)
            | _ => outcome
            end, true)
     else
       let* o := call (ContentNoteCreate record) (fun t => content_note_create w t record) in
       ret (Some o, false)) in
  match outcome with
  | None => raise UnboundLocalError
  | Some (VDict d) =>
      ret (result_item (dict_get "id" d) (dict_get "success" d) (VList []) created, outcome)
  | Some o =>
      ret (result_item VNone (VBool false)
             (VList [VStr ("Returned a nondictionary result of type " +:+ type_text o
                           +:+ ", being " +:+ unicode container_repr o)])
             created, outcome)
  end.

(** One iteration of [for record in external_list] with its [try] and
    [except Exception]. *)
Definition send_one (salesforce_model match_on : string) (record : pydict)
    (outcome : option pyval) : M (pyval * option pyval) :=
  try_except
    (let* (sf_id, record) := lift (dict_pop "Id" record) in
     if negb (String.eqb match_on "Id") then
       let* (match_value, record) := lift (dict_pop match_on record) in
       if negb (truthy match_value) then
         ret (result_item sf_id (VBool false)
                (VList [VStr ("No match_on value provided for record "
                              +:+ container_repr (VDict record) +:+ ".")])
                false, outcome)
       else send_matched salesforce_model match_on sf_id match_value record outcome
     else send_matched salesforce_model match_on sf_id sf_id record outcome)
    (fun e =>
       ret (result_item (VStr "None") (VBool false) (VExn (exn_name e)) false, outcome)).

Fixpoint send_loop (salesforce_model match_on : string) (external_list : list pydict)
    (outcome : option pyval) (upsert_result_list : list pyval) : M (list pyval) :=
  match external_list with
  | [] => ret upsert_result_list
  | record :: rest =>
      let* (item, outcome) := send_one salesforce_model match_on record outcome in
      send_loop salesforce_model match_on rest outcome (upsert_result_list ++ [item])
  end.

Definition _send_records_one_at_a_time (salesforce_model : string)
    (external_list : list pydict) (match_on : string) : M (list pyval) :=
  send_loop salesforce_model match_on external_list None [].

Definition _upsert_bulk_wrapper (salesforce_model : string)
    (to_upsert_chunked : list pydict) (match_on : string) : M (list pyval) :=
  call (BulkUpsert salesforce_model to_upsert_chunked match_on)
       (fun t => bulk_upsert w t salesforce_model to_upsert_chunked match_on).

(** [record.pop("quorum_side_primary_key", None)] on every record: the ids
    collected and the records as the pops leave them. *)
Definition split_quorum_ids (to_upsert_chunked : list pydict) : list pyval * list pydict :=
  let popped := dict_pop_default "quorum_side_primary_key" <$> to_upsert_chunked in
  (fst <$> popped, snd <$> popped).

Definition _run_upsert_chunk (salesforce_model : string) (to_upsert_chunked : list pydict)
    (match_on : string) : M (list upsert_outcome) :=
  let quorum_id_list := (split_quorum_ids to_upsert_chunked).1 in
  let to_upsert_chunked := (split_quorum_ids to_upsert_chunked).2 in
  let* upsert_result_list :=
    (if String.eqb salesforce_model "ContentNote"
     then _send_records_one_at_a_time salesforce_model to_upsert_chunked match_on
     else _upsert_bulk_wrapper salesforce_model to_upsert_chunked match_on) in
  let* _ :=
    (if negb (length quorum_id_list =? length upsert_result_list)
     then emit (LogError (CountMismatch (length upsert_result_list) salesforce_model
                            (length quorum_id_list)))
     else ret tt) in
  record_results salesforce_model (zip quorum_id_list upsert_result_list) [].

(** The [for] loop of [run_upsert_to_sf].  [total_results] is extended after
    each chunk and survives an exception, so the loop hands back the list
    together with the exception that ended it, if any. *)
Fixpoint upsert_loop (salesforce_model match_on : string) (chunks : list (list pydict))
    (total_results : list upsert_outcome) (t : trace)
  : trace * (list upsert_outcome * option exn) :=
  match chunks with
  | [] => (t, (total_results, None))
  | to_upsert_chunked :: rest =>
      match _run_upsert_chunk salesforce_model to_upsert_chunked match_on t with
      | (t', Ok rs) => upsert_loop salesforce_model match_on rest (total_results ++ rs) t'
      | (t', Raise e) => (t', (total_results, Some e))
      end
  end.

(** [chunks_completed chunks t rs t']: from the trace [t], each chunk in
    turn is processed by [_run_upsert_chunk] without an exception; [rs] are
    the outcomes in order and [t'] is the trace afterwards. *)
Inductive chunks_completed (salesforce_model match_on : string)
  : list (list pydict) -> trace -> list upsert_outcome -> trace -> Prop :=
| completed_nil t : chunks_completed salesforce_model match_on [] t [] t
| completed_cons chunk rest t t1 t2 rs rs' :
    _run_upsert_chunk salesforce_model chunk match_on t = (t1, Ok rs) ->
    chunks_completed salesforce_model match_on rest t1 rs' t2 ->
    chunks_completed salesforce_model match_on (chunk :: rest) t (rs ++ rs') t2.

(** The exceptions named by the [except] clause of [run_upsert_to_sf]. *)
Definition is_transport_fault (e : exn) : bool :=
  match e with
  | SalesforceMalformedRequest | ConnectionError => true
  | _ => false
  end.

(** [match_on] is [None], or a string; [if not match_on: match_on = "Id"]. *)
Definition effective_match_on (match_on : option string) : string :=
  match match_on with
  | None => "Id"
  | Some s => if String.eqb s EmptyString then "Id" else s
  end.

Definition run_upsert_to_sf (salesforce_model : string) (external_list : list pydict)
    (max_batch_size : nat) (match_on : option string) : M (bool * list upsert_outcome) :=
  fun t =>
    let match_on := effective_match_on match_on in
    if max_batch_size =? 0 then
      (* len(external_list) / max_batch_size *)
      (t, Raise ZeroDivisionError)
    else
      match upsert_loop salesforce_model match_on
              (chunked_list external_list max_batch_size (length external_list)) [] t with
      | (t', (total_results, None)) => (t', Ok (true, total_results))
      | (t', (total_results, Some e)) =>
          if is_transport_fault e then
            (t' ++ [NotifyProfSvcs (CouldNotUpsert salesforce_model e);
                    LogError (CouldNotUpsert salesforce_model e)],
             Ok (false, total_results))
          else (t', Raise e)
      end.

End Engine.

(** Modelled from the spec: [chunked_list] is not among the sources; the
    spec has the records partitioned, in order, into chunks of at most
    [maxChunkSize] records.  Used for the scenarios only. *)
Fixpoint chunks_of (fuel size : nat) (lst : list pydict) : list (list pydict) :=
  match fuel with
  | 0 => []
  | S fuel' =>
      match lst with
      | [] => []
      | _ :: _ => take size lst :: chunks_of fuel' size (drop size lst)
      end
  end.

Definition chunked_list_spec (lst : list pydict) (size total : nat) : list (list pydict) :=
  chunks_of total size lst.

End Upsert.

(** ** Type normalizer / validator: [get_sf_field_definition_dict] and
    [normalize_sf_field_types] *)

Module Normalizer.

Local Open Scope py_scope.

(** One value of the dict that [get_sf_field_definition_dict] builds. *)
Record field_definition : Type := mk_field_definition {
  fd_Is_External_ID : bool;
  fd_Label : string;
  fd_Name : string;
  fd_Required : bool;
  fd_Type : string;
  fd_Length : nat;
  fd_Pick_List : option (list string)
}.

Definition field_definition_of (model_field : model_field) : field_definition :=
  {| fd_Is_External_ID := mf_externalId model_field;
     fd_Label := mf_label model_field;
     fd_Name := mf_name model_field;
     fd_Required := negb (mf_nillable model_field);
     fd_Type := mf_type model_field;
     fd_Length := mf_length model_field;
     fd_Pick_List :=
       if String.eqb (mf_type model_field) "picklist"
       then Some (fst <$> filter (fun pv => pv.2 = true) (mf_picklistValues model_field))
       else None |}.

Definition field_def_dict_of (description : list model_field) : gmap string field_definition :=
  foldl (fun field_def_dict model_field =>
           <[mf_name model_field := field_definition_of model_field]> field_def_dict)
        ∅ description.

Definition get_sf_field_definition_dict (w : world) (salesforce_model : string)
  : M (gmap string field_definition) :=
  let* description := call (Describe salesforce_model)
                           (fun t => describe w t salesforce_model) in
  ret (field_def_dict_of description).

(** A data frame with object cells: the column names in order and the cells
    of each column. *)
Record DataFrame : Type := mk_DataFrame {
  columns : list string;
  cells : gmap string (list pyval)
}.

(** [dataframe[field_name]] *)
Definition column (dataframe : DataFrame) (field_name : string) : list pyval :=
  default [] (cells dataframe !! field_name).

(** [dataframe[field_name] = series] *)
Definition set_column (dataframe : DataFrame) (field_name : string) (series : list pyval)
  : DataFrame :=
  {| columns := columns dataframe; cells := <[field_name := series]> (cells dataframe) |}.

(** What a hash table tells apart among the hashable cells: [True] and [1]
    share a slot, as do [False] and [0]. *)
Inductive hash_key : Type :=
| KNone
| KInt (n : Z)
| KNaN
| KStr (s : string)
| KDate (date_text datetime_text text : string)
| KExn (name : string).

#[global] Instance hash_key_eq_dec : EqDecision hash_key.
Proof. solve_decision. Defined.

(** [None] for the unhashable lists and dicts. *)
Definition key_of (v : pyval) : option hash_key :=
  match v with
  | VNone => Some KNone
  | VBool b => Some (KInt (if b then 1 else 0))
  | VInt n => Some (KInt n)
  | VNaN => Some KNaN
  | VStr s => Some (KStr s)
  | VDate d => Some (KDate (strftime_date d) (strftime_datetime d) (date_unicode d))
  | VExn name => Some (KExn name)
  | VList _ | VDict _ => None
  end.

Definition hashable (v : pyval) : bool :=
  match key_of v with Some _ => true | None => false end.

Fixpoint first_occurrences (series : list pyval) : list pyval :=
  match series with
  | [] => []
  | v :: rest => v :: filter (fun u => key_of u ≠ key_of v) (first_occurrences rest)
  end.

(** [series.unique()]: the distinct values in order of first appearance;
    [TypeError] on an unhashable value. *)
Definition unique (series : list pyval) : result (list pyval) :=
  if forallb hashable series then Ok (first_occurrences series) else Raise TypeError.

(** [series.dropna()] *)
Definition dropna (series : list pyval) : list pyval :=
  filter (fun v => isna v = false) series.

(** The lambda of the first [map]: a sized value without elements becomes
    [None]. *)
Definition empty_to_none (value : pyval) : pyval :=
  match py_len value with
  | None => value
  | Some 0 => VNone
  | Some (S _) => value
  end.

(** [value and isinstance(value, (datetime, date))] *)
Definition is_date_value (value : pyval) : bool := truthy value && is_date value.

(** The values that the date branch of [normalize_sf_field_types] reports
    for a column: the first occurrences of the cells that are not dates,
    empty sized values having become [None] before. *)
Definition reported_nondates (series : list pyval) : list pyval :=
  first_occurrences (filter (fun v => is_date_value v = false) (empty_to_none <$> series)).

Definition format_date (datetime_format : bool) (value : pyval) : pyval :=
  match value with
  | VDate d => VStr (if datetime_format then strftime_datetime d else strftime_date d)
  | _ => VNone
  end.

(** [value in picklist], the picklist holding strings. *)
Definition in_picklist (value : pyval) (picklist : list string) : bool :=
  match value with
  | VStr s => bool_decide (s ∈ picklist)
  | _ => false
  end.

Section WithRepr.
Variable container_repr : pyval -> string.

(** [_check_picklist_values].  No list reaches it: the column has been
    checked for lists before. *)
Definition _check_picklist_values (picklist : list string) (value : pyval) : pyval :=
  if isna value then VNone
  else
    match value with
    | VList items =>
        VStr (String.concat ","
                (unicode container_repr <$>
                   filter (fun item => is_none item = false ∧ in_picklist item picklist = false)
                          items))
    | VStr EmptyString => VNone
    | _ => if in_picklist value picklist then VNone else value
    end.

(** [values.pop(values.index(None))] when [None in values] *)
Fixpoint drop_first_none (values : list pyval) : list pyval :=
  match values with
  | [] => []
  | VNone :: rest => rest
  | v :: rest => v :: drop_first_none rest
  end.

(** [len(unicode(x)) not in [0, 15, 18] if x else False] *)
Definition wrong_length (x : pyval) : bool :=
  if truthy x
  then negb (bool_decide (String.length (unicode container_repr x) ∈ [0; 15; 18]))
  else false.

(** [x not in [True, False, None, "0", " "]] *)
Definition not_bool_literal (x : pyval) : bool :=
  match x with
  | VBool _ | VNone => false
  | VInt n => negb ((n =? 0)%Z || (n =? 1)%Z)
  | VStr s => negb (String.eqb s "0" || String.eqb s " ")
  | _ => true
  end.

(** [not isinstance(x, (str, unicode, int, float))] on the series after
    [fillna] with the empty string *)
Definition not_stringable (x : pyval) : bool :=
  match (if isna x then VStr EmptyString else x) with
  | VStr _ | VInt _ | VBool _ | VNaN => false
  | _ => true
  end.

(** [_str_too_long] *)
Definition _str_too_long (max_length : nat) (value : pyval) : bool :=
  max_length <? String.length (unicode container_repr value).

Definition numeric_types : list string :=
  ["int"; "float"; "currency"; "decimal"; "double"; "percent"].

(** The locals that the column loop updates. *)
Record norm_state : Type := mk_norm_state {
  dataframe : DataFrame;
  error_messages : list validation_error;
  error_fatal : bool
}.

Definition add_error (st : norm_state) (e : validation_error) : norm_state :=
  {| dataframe := dataframe st;
     error_messages := error_messages st ++ [e];
     error_fatal := error_fatal st |}.

Definition add_error_if (cond : bool) (st : norm_state) (e : validation_error) : norm_state :=
  if cond then add_error st e else st.

Definition set_fatal (st : norm_state) : norm_state :=
  {| dataframe := dataframe st;
     error_messages := error_messages st;
     error_fatal := true |}.

Definition assign (st : norm_state) (field_name : string) (series : list pyval) : norm_state :=
  {| dataframe := set_column (dataframe st) field_name series;
     error_messages := error_messages st;
     error_fatal := error_fatal st |}.

Definition nonempty {A} (l : list A) : bool :=
  match l with [] => false | _ :: _ => true end.

(** The frame has no rows: the columns of a frame have one cell for each
    row, so none of them has a cell. *)
Definition no_rows (dataframe : DataFrame) : bool :=
  forallb (fun field_name => negb (nonempty (column dataframe field_name))) (columns dataframe).

(** [dataframe[dataframe[field_name].map(test)][field_name]]: [selected] are
    the cells of the column for which the test holds.  On a frame without
    rows the mapped series is empty and has no boolean type; the frame then
    takes it for a list of column names, selects no column, and the lookup
    of [field_name] raises [KeyError]. *)
Definition masked (dataframe : DataFrame) (selected : list pyval) : result (list pyval) :=
  if no_rows dataframe then Raise KeyError else Ok selected.

(** The [if]/[elif] chain on [field_datatype]. *)
Definition check_field (field_name : string) (fd : field_definition) (st : norm_state)
  : result norm_state :=
  let field_datatype := fd_Type fd in
  let series := column (dataframe st) field_name in
  if bool_decide (field_datatype ∈ ["date"; "datetime"]) then
    match masked (dataframe st) (filter (fun v => is_date_value v = false) series) with
    | Raise e => Raise e
    | Ok selected =>
        match unique selected with
        | Raise e => Raise e
        | Ok nondates =>
            let st := add_error_if (nonempty nondates) st (NotDates field_name nondates) in
            Ok (assign st field_name
                  (format_date (negb (String.eqb field_datatype "date")) <$> series))
        end
    end
  else if String.eqb field_datatype "picklist" then
    match fd_Pick_List fd with
    | Some picklist =>
        match unique (_check_picklist_values picklist <$> series) with
        | Raise e => Raise e
        | Ok values =>
            let values_not_in_picklist := drop_first_none values in
            Ok (add_error_if (nonempty values_not_in_picklist) st
                  (PicklistInvalid field_name values_not_in_picklist))
        end
    | None => Ok (add_error st (PicklistUndefined field_name))
    end
  else if bool_decide (field_datatype ∈ ["id"; "reference"]) then
    match masked (dataframe st) (filter (fun x => wrong_length x = true) series) with
    | Raise e => Raise e
    | Ok selected =>
        match unique selected with
        | Raise e => Raise e
        | Ok wrong_length_rows =>
            let st :=
              if nonempty wrong_length_rows then
                let st := add_error st (IdLength field_name wrong_length_rows) in
                if String.eqb field_datatype "id" then set_fatal st else st
              else st in
            Ok (assign st field_name
                  ((fun value => if truthy value then value else VNone) <$> series))
        end
    end
  else if String.eqb field_datatype "boolean" then
    match masked (dataframe st) (filter (fun x => not_bool_literal x = true) series) with
    | Raise e => Raise e
    | Ok selected =>
        match unique selected with
        | Raise e => Raise e
        | Ok non_bool_values =>
            Ok (add_error_if (nonempty non_bool_values) st
                  (NotBoolean field_name non_bool_values))
        end
    end
  else if bool_decide (field_datatype ∈ numeric_types) then Ok st
  else if negb (fd_Length fd =? 0) then
    match masked (dataframe st) (filter (fun x => not_stringable x = true) series) with
    | Raise e => Raise e
    | Ok unstringable =>
        let st := add_error_if (nonempty unstringable) st
                    (NotStrings field_name (length unstringable) unstringable) in
        match masked (dataframe st)
                (filter (fun v => _str_too_long (fd_Length fd) v = true) series) with
        | Raise e => Raise e
        | Ok strings_over_length =>
            Ok (add_error_if (nonempty strings_over_length) st
                  (TooLong field_name (length strings_over_length) (fd_Length fd)
                     strings_over_length))
        end
    end
  else if String.eqb field_datatype "address" then Ok st
  else if String.eqb field_datatype "base64" then Ok st
  else Ok (add_error st (UnrecognizedType field_name field_datatype)).

(** The body of [for field_name in dataframe.columns]. *)
Definition normalize_field (field_definitions : gmap string field_definition)
    (salesforce_model field_name : string) (st : norm_state) : M norm_state :=
  match field_definitions !! field_name with
  | None =>
      if String.eqb field_name "quorum_side_primary_key" then ret st
      else ret (set_fatal (add_error st (ColumnNotValid field_name salesforce_model)))
  | Some fd =>
      let st :=
        if negb (String.eqb (fd_Type fd) "bool")
        then assign st field_name (empty_to_none <$> column (dataframe st) field_name)
        else st in
      if existsb is_list (dropna (column (dataframe st) field_name)) then
        let* _ := emit (LogError (UnhashableType field_name)) in
        raise TypeError
      else lift (check_field field_name fd st)
  end.

Fixpoint normalize_fields (field_definitions : gmap string field_definition)
    (salesforce_model : string) (field_names : list string) (st : norm_state) : M norm_state :=
  match field_names with
  | [] => ret st
  | field_name :: rest =>
      let* st := normalize_field field_definitions salesforce_model field_name st in
      normalize_fields field_definitions salesforce_model rest st
  end.

(** The two causes of [error_fatal]: a column that the schema lacks, other
    than the bookkeeping key, and a cell of wrong length in a column of type
    [id]. *)
Definition fatal_field (field_definitions : gmap string field_definition) (df : DataFrame)
    (field_name : string) : bool :=
  match field_definitions !! field_name with
  | None => negb (String.eqb field_name "quorum_side_primary_key")
  | Some fd => String.eqb (fd_Type fd) "id" && existsb wrong_length (column df field_name)
  end.

Definition normalize_sf_field_types (w : world) (df : DataFrame) (salesforce_model : string)
  : M DataFrame :=
  let* field_definitions := get_sf_field_definition_dict w salesforce_model in
  let* st := normalize_fields field_definitions salesforce_model (columns df)
               {| dataframe := df; error_messages := []; error_fatal := false |} in
  let* _ :=
    (if nonempty (error_messages st) then
       let* _ := emit (LogError (ErrorsOnTheRun (error_messages st))) in
       if error_fatal st then raise ValueError else ret tt
     else ret tt) in
  ret (dataframe st).

End WithRepr.

End Normalizer.

(** ** Reading from Salesforce: [query_sf] and [_run_sf_query] *)

Module Query.

Local Open Scope py_scope.

(** The frame that [query_sf] returns: the columns and one row of cells per
    record. *)
Record QueryFrame : Type := mk_QueryFrame {
  q_columns : list string;
  q_rows : list (list pyval)
}.

Definition empty_frame : QueryFrame := {| q_columns := []; q_rows := [] |}.

(** The SOQL text of [_run_sf_query]. *)
Definition soql (where_clause object_type : string) (select_fields : list string) : string :=
  if negb (String.eqb where_clause EmptyString)
  then "SELECT " +:+ String.concat "," select_fields +:+ " FROM " +:+ object_type
       +:+ " WHERE " +:+ where_clause +:+ " ORDER BY Id"
  else "SELECT " +:+ String.concat "," select_fields +:+ " FROM " +:+ object_type
       +:+ " ORDER BY Id".

(** [pd.DataFrame.from_records(all_records)[select_fields]]: [KeyError] for
    a selected field that no record has.  pandas builds one array of objects
    for each key, with NaN where a record lacks the key, and then infers the
    type of the array: [convert_objects] is that inference, which for
    instance turns a column of integers and [None] into floats and NaN and
    keeps a column of strings and [None] as it is.  The rows of the frame
    are read from the converted columns. *)
Definition from_records_select (convert_objects : list pyval -> list pyval)
    (all_records : list pydict) (select_fields : list string)
  : result (list (list pyval)) :=
  if forallb (fun f => existsb (fun r => bool_decide (is_Some (r !! f))) all_records)
             select_fields
  then
    let stored := fun f => convert_objects ((fun r => default VNaN (r !! f)) <$> all_records) in
    Ok (imap (fun i _ => (fun f => default VNaN (stored f !! i)) <$> select_fields) all_records)
  else Raise KeyError.

(** [rename(columns={value: key for key, value in field_mapping.items()})]:
    of two keys with one value the later one wins. *)
Definition rename_column (field_mapping : list (string * string)) (c : string) : string :=
  match List.find (fun kv => String.eqb kv.2 c) (reverse field_mapping) with
  | Some kv => kv.1
  | None => c
  end.

Section Reader.
Variable w : world.
Variable container_repr : pyval -> string.
(** [settings.TESTS_IN_PROGRESS] *)
Variable tests_in_progress : bool.
(** The order in which [as_completed] hands back the futures. *)
Variable as_completed : list (string * result (list pydict)) -> list (string * result (list pydict)).
(** The type inference of pandas on a column of objects. *)
Variable convert_objects : list pyval -> list pyval.

(** The handler of [except SalesforceRefusedRequest as e]: the inner
    [raise e] is itself caught by [except Exception as second_e], so a
    refusal whose error code can be read is notified twice. *)
Definition refused_handler (e : exn) : M (list pydict) :=
  match e with
  | SalesforceRefusedRequest (Some error_code) =>
      let* _ :=
        emit (NotifyProfSvcs
                (if String.eqb error_code "INVALID_OPERATION_WITH_EXPIRED_PASSWORD"
                 then ExpiredPassword else RefusedRequest e)) in
      let* _ := emit (NotifyProfSvcs (RefusedRequest e)) in
      raise e
  | SalesforceRefusedRequest None =>
      let* _ := emit (NotifyProfSvcs (RefusedRequest e)) in
      raise e
  | _ => raise e
  end.

Definition _run_sf_query (where_clause object_type : string) (select_fields : list string)
    (include_deleted : bool) : M (list pydict) :=
  let query := soql where_clause object_type select_fields in
  if tests_in_progress then ret []
  else
    try_except
      (call (QueryAll query include_deleted) (fun t => query_all w t query include_deleted))
      refused_handler.

(** The synchronous loop over [where_clauses]. *)
Fixpoint query_loop (object_type : string) (select_fields : list string)
    (include_deleted : bool) (where_clauses : list string) (all_records : list pydict)
  : M (list pydict) :=
  match where_clauses with
  | [] => ret all_records
  | sf_where :: rest =>
      let* records := _run_sf_query sf_where object_type select_fields include_deleted in
      query_loop object_type select_fields include_deleted rest (all_records ++ records)
  end.

(** The futures submitted to the pool, run here one after the other: each
    keeps its result or its exception. *)
Fixpoint submit_all (object_type : string) (select_fields : list string)
    (include_deleted : bool) (where_clauses : list string)
  : M (list (string * result (list pydict))) :=
  match where_clauses with
  | [] => ret []
  | sf_where :: rest =>
      let* r := (fun t =>
                   let out := _run_sf_query sf_where object_type select_fields include_deleted t in
                   (out.1, Ok out.2)) in
      let* rs := submit_all object_type select_fields include_deleted rest in
      ret ((sf_where, r) :: rs)
  end.

(** [for future in as_completed(..)]: a failed future is logged at debug
    level and left out. *)
Definition gather (futures : list (string * result (list pydict))) : list pydict :=
  mjoin ((fun f => match f.2 with Ok records => records | Raise _ => [] end)
           <$> as_completed futures).

(** [if x:] for an optional list argument *)
Definition supplied {A} (x : option (list A)) : bool :=
  match x with
  | Some (_ :: _) => true
  | _ => false
  end.

Definition query_sf (object_type : string) (select_fields : list string)
    (search_values : option (list pydict)) (field_mapping : option (list (string * string)))
    (where_clauses : option (list string)) (include_deleted async_queries : bool)
  : M QueryFrame :=
  if bool_decide (where_clauses = None) && negb (supplied search_values && supplied field_mapping)
  then raise ValueError
  else
    let where_clauses :=
      match where_clauses with
      | Some wc => wc
      | None =>
          WhereClauses._sf_build_where_clauses container_repr WhereClauses.MAX_WHERE_CLAUSE
            (default [] search_values) (default [] field_mapping)
      end in
    let* all_records :=
      (if async_queries then
         let* futures := submit_all object_type select_fields include_deleted where_clauses in
         ret (gather futures)
       else query_loop object_type select_fields include_deleted where_clauses []) in
    match all_records with
    | [] => ret empty_frame
    | _ :: _ =>
        let* rows := lift (from_records_select convert_objects all_records select_fields) in
        ret {| q_columns :=
                 (if supplied field_mapping
                  then rename_column (default [] field_mapping) <$> select_fields
                  else select_fields);
               q_rows := rows |}
    end.

End Reader.

End Query.

(** ** Identifier reconciler: [send_external_df_to_external] *)

Module Reconciler.

Local Open Scope py_scope.

(** The fields of a task configuration that the method reads. *)
Record task : Type := mk_task {
  external_model : string;
  sf_max_batch_size : option nat;
  sf_store_ids_in_quorum : bool;
  sf_match_on : option string;
  (** [quorum_model._meta.object_name] *)
  quorum_model : string
}.

(** The attributes of the NewSalesforceIntegration object that the method reads. *)
Record NewSalesforceIntegration : Type := mk_NewSalesforceIntegration {
  all_tasks : gmap string task;
  external_id_custom_slugs_dict : gmap string string;
  external_id_dictionary : gmap string (list (pyval * pyval))
}.

(** [external_df.where(pd.notnull(external_df), None)] on one record *)
Definition nan_to_none (record : pydict) : pydict :=
  (fun v => if isna v then VNone else v) <$> record.

(** [results_df[results_df["quorum_id"].notna() & results_df["sf_id"].notna()]]
    reduced to its two columns. *)
Definition id_update_df (results : list Upsert.upsert_outcome) : list (pyval * pyval) :=
  (fun r => (Upsert.quorum_id r, Upsert.sf_id r))
    <$> filter (fun r => isna (Upsert.quorum_id r) = false ∧ isna (Upsert.sf_id r) = false)
               results.

(** [self.external_id_custom_slugs_dict.get(name)] as a condition *)
Definition has_custom_slug (self : NewSalesforceIntegration) (name : string) : bool :=
  match external_id_custom_slugs_dict self !! name with
  | Some slug => negb (String.eqb slug EmptyString)
  | None => false
  end.

(** [task.sf_max_batch_size or self.sf_api.SF_API_MAX_BATCH_SIZE] *)
Definition batch_size_of (task : task) : nat :=
  match sf_max_batch_size task with
  | Some (S n) => S n
  | _ => Upsert.SF_API_MAX_BATCH_SIZE
  end.

Section Sender.
Variable w : world.
Variable container_repr : pyval -> string.
Variable type_text : pyval -> string.
Variable chunked_list : list pydict -> nat -> nat -> list (list pydict).

Definition send_external_df_to_external (self : NewSalesforceIntegration) (task_name : string)
    (external_df : list pydict) : M bool :=
  match all_tasks self !! task_name with
  | None => raise KeyError
  | Some task =>
      let max_batch_size := batch_size_of task in
      let store_sf_ids_in_quourm := sf_store_ids_in_quorum task in
      let send_df := nan_to_none <$> external_df in
      let* (success, results) :=
        Upsert.run_upsert_to_sf w container_repr type_text chunked_list
          (external_model task) send_df max_batch_size (sf_match_on task) in
      if (success : bool) then
        if negb store_sf_ids_in_quourm then ret true
        else
          match results with
          | [] => raise KeyError (* results_df["quorum_id"] on a frame without columns *)
          | _ :: _ =>
              let id_update_df := id_update_df results in
              match id_update_df with
              | [] => ret true
              | _ :: _ =>
                  if has_custom_slug self (quorum_model task) then
                    let* _ := call (SendExtIdsToQuorum task_name id_update_df)
                                   (fun t => send_ext_ids_to_quorum w t task_name id_update_df) in
                    ret true
                  else if bool_decide (is_Some (external_id_dictionary self !! quorum_model task)) then
                    let* _ := call (UpdateExternalIdDict (quorum_model task))
                                   (fun t => update_external_id_dict w t (quorum_model task)) in
                    ret true
                  else
                    let* _ := emit (NotifyProfSvcs (NowhereToStoreIds task_name id_update_df)) in
                    raise ValueError
              end
          end
      else
        let* _ := emit (NotifyProfSvcs
                          (UpsertFailedEntirely task_name
                             ((fun r => (Upsert.success r, Upsert.quorum_id r, Upsert.sf_id r))
                                <$> results))) in
        ret false
  end.

End Sender.

End Reconciler.

(** ** File import: [NewSFTPIntegration.run_task_from_external_crm_to_quorum]
    and [_get_sftp_filepaths_with_change] *)

Module Sftp.

Local Open Scope py_scope.

Inductive FlatFileSourceType : Type :=
| quorum_sftp
| s3_bucket
| external_sftp
| other_source.

(** What the run does to its collaborators, in order.  [SaveFile] is
    [FileManager.save_file], which stores the checksum of the file;
    [SendDfToQuorum] carries what the helper answered. *)
Inductive step : Type :=
| DownloadAndCheckForUpdate (source : FlatFileSourceType) (save_new_checksum : bool)
| DownloadFilesFromFtp
| CheckFilesForUpdates (file_paths : list string) (save_new_checksum : bool)
| SlackNotifyInvalidCredentials
| GetExternalDf (local_filepath : string)
| ConvertExtDf (local_filepath : string)
| MakeQuorumHeaders
| SendDfToQuorum (local_filepath : string) (answer : result bool)
| SaveFile (local_filepath : string)
| LogWarningNotChanged
| OsRemove (filepath : string).

Definition frame := list pydict.

Record collaborators : Type := mk_collaborators {
  (** [isinstance(get_ssm_param_by_path(ssm_path), dict)] *)
  credentials_are_dict : bool;
  download_and_check_for_update : list step -> result (list (string * bool));
  download_files_from_ftp : list step -> result (list string);
  check_files_for_updates : list step -> list string -> result (list (string * bool));
  get_external_df_from_external : list step -> string -> result frame;
  convert_ext_df_to_quorum_df : list step -> frame -> result frame;
  send_df_to_quorum : list step -> frame -> result bool;
  save_file : list step -> string -> result unit
}.

(** The attributes of the NewSFTPIntegration object that the run reads. *)
Record NewSFTPIntegration : Type := mk_NewSFTPIntegration {
  server_type : FlatFileSourceType;
  force : bool;
  dry_run : bool
}.

(** An element of [results]. *)
Inductive entry : Type :=
| Sent (answer : bool)
| DryRun (converted_df : frame).

(** What the run returns: [[]], the list of a dry run, or a boolean. *)
Inductive run_result : Type :=
| NoFiles
| DryRunResults (results : list entry)
| Finished (ok : bool).

Definition step_with {A} (ev : step) (answer : list step -> result A) : Run step A :=
  fun t => (t ++ [ev], answer t).

Section Pipeline.
Variable c : collaborators.
Variable self : NewSFTPIntegration.

Definition _get_sftp_filepaths_with_change : Run step (list (string * bool)) :=
  match server_type self with
  | quorum_sftp =>
      step_with (DownloadAndCheckForUpdate quorum_sftp false) (download_and_check_for_update c)
  | source =>
      if negb (credentials_are_dict c) then
        let* _ := emit SlackNotifyInvalidCredentials in
        raise ValueError
      else
        match source with
        | s3_bucket =>
            step_with (DownloadAndCheckForUpdate s3_bucket false)
                      (download_and_check_for_update c)
        | external_sftp =>
            let* file_paths := step_with DownloadFilesFromFtp (download_files_from_ftp c) in
            step_with (CheckFilesForUpdates file_paths false)
                      (fun t => check_files_for_updates c t file_paths)
        | _ => raise ValueError
        end
  end.

(** The body of [for local_filepath, has_changed in filepaths_with_change];
    the state is [results] and [some_change]. *)
Definition process_file (file : string * bool) (st : list entry * bool)
  : Run step (list entry * bool) :=
  let local_filepath := file.1 in
  let has_changed := file.2 in
  let results := st.1 in
  if has_changed || force self || dry_run self then
    let* external_df := step_with (GetExternalDf local_filepath)
                          (fun t => get_external_df_from_external c t local_filepath) in
    let* converted_df := step_with (ConvertExtDf local_filepath)
                           (fun t => convert_ext_df_to_quorum_df c t external_df) in
    let* results :=
      (if dry_run self then
         let* _ := emit MakeQuorumHeaders in
         ret (results ++ [DryRun converted_df])
       else
         let* answer :=
           (fun t =>
              let a := send_df_to_quorum c t converted_df in
              (t ++ [SendDfToQuorum local_filepath a], a)) in
         let results := results ++ [Sent answer] in
         let* _ :=
           (if has_changed
            then step_with (SaveFile local_filepath) (fun t => save_file c t local_filepath)
            else ret tt) in
         ret results) in
    ret (results, true)
  else ret st.

Fixpoint process_files (files : list (string * bool)) (st : list entry * bool)
  : Run step (list entry * bool) :=
  match files with
  | [] => ret st
  | file :: rest =>
      let* st := process_file file st in
      process_files rest st
  end.

Fixpoint remove_files (files : list (string * bool)) : Run step unit :=
  match files with
  | [] => ret tt
  | file :: rest =>
      let* _ := emit (OsRemove file.1) in
      remove_files rest
  end.

(** [False in results] *)
Definition has_failure (results : list entry) : bool :=
  existsb (fun r => match r with Sent false => true | _ => false end) results.

Definition run_task_from_external_crm_to_quorum : Run step run_result :=
  let* filepaths_with_change := _get_sftp_filepaths_with_change in
  match filepaths_with_change with
  | [] => ret NoFiles
  | _ :: _ =>
      let* (results, some_change) := process_files filepaths_with_change ([], false) in
      let* _ := (if negb some_change then emit LogWarningNotChanged else ret tt) in
      let* _ := remove_files filepaths_with_change in
      if dry_run self then ret (DryRunResults results)
      else if has_failure results then ret (Finished false)
      else ret (Finished true)
  end.

End Pipeline.

(** Every [SaveFile] comes right after the delivery of the same file, and
    that delivery returned. *)
Fixpoint saves_follow_delivery (previous : option step) (t : list step) : Prop :=
  match t with
  | [] => True
  | ev :: rest =>
      match ev with
      | SaveFile f => ∃ answer, previous = Some (SendDfToQuorum f (Ok answer))
      | _ => True
      end ∧ saves_follow_delivery (Some ev) rest
  end.

(** [m] appends a part in which every save follows its delivery. *)
Definition delivers_first {A} (m : Run step A) : Prop :=
  ∀ t, ∃ new, (m t).1 = t ++ new ∧ saves_follow_delivery None new.

(** No download or change check is asked to store a checksum. *)
Definition no_checksum_stored (ev : step) : Prop :=
  match ev with
  | DownloadAndCheckForUpdate _ save_new_checksum => save_new_checksum = false
  | CheckFilesForUpdates _ save_new_checksum => save_new_checksum = false
  | _ => True
  end.

End Sftp.

(** ** Scenarios: concrete worlds and inputs *)

Module Scenarios.

(** The text given to every container; also used for the type texts. *)
Definition plain_repr (v : pyval) : string := EmptyString.

Fixpoint repeat_char (c : ascii) (n : nat) : string :=
  match n with
  | 0 => EmptyString
  | S n' => String c (repeat_char c n')
  end.

(** A mapping whose keys and Salesforce names sort differently. *)
Definition crossed_mapping : list (string * string) := [("a", "Zeta"); ("b", "Alpha")].
Definition crossed_record : pydict := {[ "a" := VInt 1; "b" := VInt 2 ]}.

(** Two candidates whose predicates are 1798 characters each. *)
Definition long_record : pydict := {[ "k" := VStr (repeat_char "a" 1790) ]}.
Definition long_mapping : list (string * string) := [("k", "F")].
Definition long_clause : string := "(F = '" +:+ repeat_char "a" 1790 +:+ "')".

(** A world in which every call succeeds with an empty answer. *)
Definition quiet : world :=
  {| bulk_upsert := fun _ _ _ _ => Ok [];
     sf_update := fun _ _ _ _ => Ok (VInt 204);
     content_note_create := fun _ _ => Ok (VDict ∅);
     query_all := fun _ _ _ => Ok [];
     describe := fun _ _ => Ok [];
     send_ext_ids_to_quorum := fun _ _ _ => Ok tt;
     update_external_id_dict := fun _ _ => Ok tt |}.

Definition with_bulk
    (answer : trace -> string -> list pydict -> string -> result (list pyval)) : world :=
  {| bulk_upsert := answer;
     sf_update := sf_update quiet;
     content_note_create := content_note_create quiet;
     query_all := query_all quiet;
     describe := describe quiet;
     send_ext_ids_to_quorum := send_ext_ids_to_quorum quiet;
     update_external_id_dict := update_external_id_dict quiet |}.

(** The answer of Salesforce for a record that it accepted. *)
Definition accepted : pyval :=
  VDict {[ "id" := VStr "001"; "success" := VBool true; "created" := VBool false;
           "errors" := VList [] ]}.

(** Salesforce accepts every record. *)
Definition accepting : world :=
  with_bulk (fun _ _ records _ => Ok ((fun _ => accepted) <$> records)).

(** Salesforce accepts the first bulk call; the connection is lost on every
    later one. *)
Definition second_call_fails : world :=
  with_bulk (fun t _ records _ =>
               if existsb (fun r => match r with BulkUpsert _ _ _ => true | _ => false end)
                          (calls t)
               then Raise ConnectionError
               else Ok ((fun _ => accepted) <$> records)).

(** Salesforce answers a bulk call with an empty list. *)
Definition short_answer : world := with_bulk (fun _ _ _ _ => Ok []).

(** Salesforce refuses the bulk call: the session has expired. *)
Definition refusing : world :=
  with_bulk (fun _ _ _ _ => Raise (SalesforceRefusedRequest (Some "INVALID_SESSION_ID"))).

(** The connection is lost on every call that updates one record. *)
Definition unreachable_update : world :=
  {| bulk_upsert := bulk_upsert quiet;
     sf_update := fun _ _ _ _ => Raise ConnectionError;
     content_note_create := content_note_create quiet;
     query_all := query_all quiet;
     describe := describe quiet;
     send_ext_ids_to_quorum := send_ext_ids_to_quorum quiet;
     update_external_id_dict := update_external_id_dict quiet |}.

Definition contact (quorum_id : Z) : pydict :=
  {[ "Name" := VStr "A"; "quorum_side_primary_key" := VInt quorum_id ]}.

(** A contact as [_run_upsert_chunk] sends it. *)
Definition stripped_contact : pydict := {[ "Name" := VStr "A" ]}.

Definition content_note : pydict :=
  {[ "Id" := VStr "069"; "quorum_side_primary_key" := VInt 7 ]}.

(** A schema with an id, a reference and a boolean field. *)
Definition plain_field (name type : string) (length : nat) : model_field :=
  {| mf_externalId := false; mf_label := name; mf_name := name; mf_nillable := true;
     mf_type := type; mf_length := length; mf_picklistValues := [] |}.

Definition contact_description : list model_field :=
  [plain_field "Id" "id" 18; plain_field "AccountId" "reference" 18;
   plain_field "IsActive" "boolean" 0].

Definition schema : world :=
  {| bulk_upsert := bulk_upsert quiet;
     sf_update := sf_update quiet;
     content_note_create := content_note_create quiet;
     query_all := query_all quiet;
     describe := fun _ _ => Ok contact_description;
     send_ext_ids_to_quorum := send_ext_ids_to_quorum quiet;
     update_external_id_dict := update_external_id_dict quiet |}.

Definition one_column (name : string) (series : list pyval) : Normalizer.DataFrame :=
  {| Normalizer.columns := [name]; Normalizer.cells := {[ name := series ]} |}.

(** A task for contacts, with no place configured for the Salesforce ids. *)
Definition contact_task (store_ids : bool) : Reconciler.task :=
  {| Reconciler.external_model := "Contact";
     Reconciler.sf_max_batch_size := None;
     Reconciler.sf_store_ids_in_quorum := store_ids;
     Reconciler.sf_match_on := None;
     Reconciler.quorum_model := "Supporter" |}.

Definition homeless (store_ids : bool) : Reconciler.NewSalesforceIntegration :=
  {| Reconciler.all_tasks := {[ "contacts" := contact_task store_ids ]};
     Reconciler.external_id_custom_slugs_dict := ∅;
     Reconciler.external_id_dictionary := ∅ |}.

(** One changed file whose delivery to Quorum answers [False]. *)
Definition failing_delivery : Sftp.collaborators :=
  {| Sftp.credentials_are_dict := true;
     Sftp.download_and_check_for_update := fun _ => Ok [("f.csv", true)];
     Sftp.download_files_from_ftp := fun _ => Ok [];
     Sftp.check_files_for_updates := fun _ _ => Ok [];
     Sftp.get_external_df_from_external := fun _ _ => Ok [];
     Sftp.convert_ext_df_to_quorum_df := fun _ df => Ok df;
     Sftp.send_df_to_quorum := fun _ _ => Ok false;
     Sftp.save_file := fun _ _ => Ok tt |}.

Definition live_import : Sftp.NewSFTPIntegration :=
  {| Sftp.server_type := Sftp.quorum_sftp; Sftp.force := false; Sftp.dry_run := false |}.

End Scenarios.

(** ** String methods and comprehensions *)

Module PyStr.

(** [s.endswith(suffix)]: read backwards, the string starts with the
    suffix. *)
Definition endswith (s suffix : string) : bool :=
  String.prefix (String.rev suffix) (String.rev s).

(** [s[:-n]] for a positive [n] *)
Definition drop_last (n : nat) (s : string) : string :=
  String.substring 0 (String.length s - n) s.

(** [needle in s] *)
Fixpoint contains (needle s : string) : bool :=
  String.prefix needle s
  || match s with
     | EmptyString => false
     | String _ rest => contains needle rest
     end.

(** [s.replace(old, new)] for a non-empty [old]: the occurrences are taken
    from left to right and do not overlap.  [skip] counts the characters of
    an occurrence that are still to be passed over. *)
Fixpoint replace_from (old new : string) (skip : nat) (s : string) : string :=
  match s with
  | EmptyString => EmptyString
  | String c rest =>
      match skip with
      | S k => replace_from old new k rest
      | 0 =>
          if String.prefix old s
          then new +:+ replace_from old new (String.length old - 1) rest
          else String c (replace_from old new 0 rest)
      end
  end.

Definition replace (old new s : string) : string := replace_from old new 0 s.

(** [posixpath.join(a, b)] *)
Definition posixpath_join (a b : string) : string :=
  if String.prefix "/" b then b
  else if String.eqb a EmptyString || endswith a "/" then a +:+ b
  else a +:+ "/" +:+ b.

(** [value == text] for a cell and a string literal *)
Definition is_text (text : string) (value : pyval) : bool :=
  match value with
  | VStr s => String.eqb s text
  | _ => false
  end.

(** [seq[i]] *)
Definition item_at {A} (i : nat) (seq : list A) : result A :=
  match seq !! i with
  | Some x => Ok x
  | None => Raise IndexError
  end.

Definition and_then {A B} (r : result A) (k : A -> result B) : result B :=
  match r with
  | Ok a => k a
  | Raise e => Raise e
  end.

(** [[f(x) for x in l]] where [f] may raise *)
Fixpoint collect {A B} (f : A -> result B) (l : list A) : result (list B) :=
  match l with
  | [] => Ok []
  | x :: rest =>
      and_then (f x) (fun y => and_then (collect f rest) (fun ys => Ok (y :: ys)))
  end.

End PyStr.

(** ** Collaborators that are asked, and runs inside runs *)

Module Ask.

(** A collaborator is asked: the event enters the trace, and the answer
    depends on the trace before it. *)
Definition ask {E A} (ev : E) (answer : list E -> result A) : Run E A :=
  fun t => (t ++ [ev], answer t).

(** A collaborator is asked and the event records what it answered. *)
Definition ask_recorded {E A} (ev : result A -> E) (answer : list E -> result A) : Run E A :=
  fun t => (t ++ [ev (answer t)], answer t).

(** A run over the events [E] inside a run over the events [F]: it sees
    its own part of the history, and what it appends is appended. *)
Definition within {E F A} (inj : E -> F) (proj : F -> option E) (m : Run E A) : Run F A :=
  fun t =>
    let past := omap proj t in
    let out := m past in
    (t ++ (inj <$> drop (length past) out.1), out.2).

End Ask.

(** ** The preprocessors of an imported frame: the loop that both
    [convert_ext_df_to_quorum_df] methods run *)

Module Preprocess.

Import Query Ask.
Local Open Scope py_scope.

Inductive pipeline_event : Type :=
| ApplyLiteralFields (task_name : string) (dataframe : QueryFrame)
| ApplyPreprocessor (preprocessor_name : string) (external_df : QueryFrame) (argument : pyval)
| CleanDfColumns (dataframe : QueryFrame).

(** The methods of the base class and the registry of preprocessors, none
    of them among the sources.  The registry gives, for a registered name,
    the function that instantiates the class and applies it. *)
Record helpers : Type := mk_helpers {
  apply_literal_fields : list pipeline_event -> string -> QueryFrame -> result QueryFrame;
  get_external_preprocessor :
    string -> option (list pipeline_event -> QueryFrame -> pyval -> result QueryFrame);
  clean_df_columns :
    list pipeline_event -> QueryFrame -> list (string * list string) -> result QueryFrame
}.

(** [df.empty]: no row or no column *)
Definition empty (df : QueryFrame) : bool :=
  match q_columns df, q_rows df with
  | _ :: _, _ :: _ => false
  | _, _ => true
  end.

(** [for preprocessor_name, argument in preprocessors_list]: [inl] when a
    pass left the frame empty and the method returned it, [inr] when the
    loop ended. *)
Fixpoint apply_preprocessors (h : helpers) (preprocessors_list : list (string * pyval))
    (external_df : QueryFrame) : Run pipeline_event (QueryFrame + QueryFrame) :=
  match preprocessors_list with
  | [] => ret (inr external_df)
  | (preprocessor_name, argument) :: rest =>
      let* external_df :=
        match get_external_preprocessor h preprocessor_name with
        | Some apply =>
            ask (ApplyPreprocessor preprocessor_name external_df argument)
                (fun t => apply t external_df argument)
        | None => ret external_df
        end in
      if empty external_df then ret (inl external_df)
      else apply_preprocessors h rest external_df
  end.

End Preprocess.

(** ** Reading whole object types and importing a task from Salesforce:
    [get_all_objects_of_type], [get_external_df_from_external],
    [convert_field_mapping_to_query], [_get_salesforce_queries_for_task],
    [convert_ext_df_to_quorum_df], [run_task_from_external_crm_to_quorum] *)

Module Importer.

Import PyStr Query Ask Preprocess.
Local Open Scope py_scope.

(** The fields of a task configuration that the import reads.  The dicts
    are the lists of their items, in the order in which they are yielded. *)
Record task_config : Type := mk_task_config {
  external_model : string;
  (** each value is a sequence; entries 0 and 1 are read *)
  fields_mapping : list (string * list string);
  external_filter : list (string * pyval);
  external_processors : option (list (string * pyval))
}.

(** The attributes of the NewSalesforceIntegration object that the import
    reads; the date is [self.config.date_of_last_successful_run]. *)
Record NewSalesforceIntegration : Type := mk_NewSalesforceIntegration {
  all_tasks : gmap string task_config;
  date_of_last_successful_run : option pydate;
  dry_run : bool
}.

(** [d.get(key)] and [key in d] on the items of a dict *)
Definition filter_get (key : string) (d : list (string * pyval)) : option pyval :=
  snd <$> List.find (fun item => String.eqb item.1 key) d.

(** The comparison operator that a key of the filter carries, and the key
    without it. *)
Definition modifier (key : string) : string * string :=
  if endswith key "__gte" then (">=", drop_last 5 key)
  else if endswith key "__gt" then (">", drop_last 4 key)
  else if endswith key "__lte" then ("<=", drop_last 5 key)
  else if endswith key "__lt" then ("<", drop_last 4 key)
  else ("=", key).

Section Reader.
Variable w : world.
Variable container_repr : pyval -> string.
Variable tests_in_progress : bool.
Variable as_completed : list (string * result (list pydict)) -> list (string * result (list pydict)).
Variable convert_objects : list pyval -> list pyval.
(** [self.get_how_far_to_go_back()], defined by the base class *)
Variable get_how_far_to_go_back : result pyval.

Definition get_all_objects_of_type (sf_object_type : string) (select_fields : list string)
    (updated_after : option pydate) (filter_criteria : string) (include_deleted : bool)
  : M QueryFrame :=
  let date_criteria :=
    match updated_after with
    | Some d => "LastModifiedDate >= " +:+ strftime_datetime d
    | None => EmptyString
    end in
  let where_clauses :=
    if bool_decide (is_Some updated_after) || negb (String.eqb filter_criteria EmptyString)
    then [String.concat " AND "
            (filter (fun _f => _f ≠ EmptyString) [date_criteria; filter_criteria])]
    else [] in
  query_sf w container_repr tests_in_progress as_completed convert_objects sf_object_type
    select_fields None None (Some where_clauses) include_deleted false.

(** One pass of [for filter_key, filter_value in filters.items()]; the
    state is [search_values] and [filter_mapping]. *)
Definition add_filter (acc : pydict * gmap string string) (item : string * pyval)
  : result (pydict * gmap string string) :=
  and_then
    (if String.eqb item.1 "updated_after" && is_text "Last Successful Run" item.2
     then and_then get_how_far_to_go_back (fun d => Ok ("LastModifiedDate", d))
     else Ok item)
    (fun renamed =>
       Ok (<[renamed.1 := renamed.2]> acc.1, <[renamed.1 := renamed.1]> acc.2)).

Fixpoint add_filters (filters : list (string * pyval)) (acc : pydict * gmap string string)
  : result (pydict * gmap string string) :=
  match filters with
  | [] => Ok acc
  | item :: rest => and_then (add_filter acc item) (add_filters rest)
  end.

Definition get_external_df_from_external (self : NewSalesforceIntegration) (task_name : string)
  : M QueryFrame :=
  match all_tasks self !! task_name with
  | None => raise ValueError
  | Some task_config =>
      let current_object_type := external_model task_config in
      let* current_select_fields :=
        lift (collect (item_at 0) (snd <$> fields_mapping task_config)) in
      let* filtered := lift (add_filters (external_filter task_config) (∅, ∅)) in
      let search_values := filtered.1 in
      let filter_mapping := map_to_list filtered.2 in
      let where_clauses :=
        WhereClauses._sf_build_where_clauses container_repr WhereClauses.MAX_WHERE_CLAUSE
          [search_values] filter_mapping in
      let* names := lift (collect (item_at 1) (snd <$> fields_mapping task_config)) in
      (* the items of {value[1]: value[1] ...}, a repeated name given once
         per repetition: neither the emptiness test nor the renaming of
         the columns sees the difference *)
      let current_field_mapping := (fun name => (name, name)) <$> names in
      query_sf w container_repr tests_in_progress as_completed convert_objects
        current_object_type current_select_fields None (Some current_field_mapping)
        (Some where_clauses) false true
  end.

(** ["{}{}'{}'".format(key, operator, value)] *)
Definition filter_condition (item : string * pyval) : string :=
  (modifier item.1).2 +:+ (modifier item.1).1 +:+ "'" +:+ unicode container_repr item.2 +:+ "'".

(** The condition on [LastModifiedDate] that the key [updated_after]
    gives. *)
Definition date_condition (self : NewSalesforceIntegration) (task_config : task_config)
  : list string :=
  match filter_get "updated_after" (external_filter task_config) with
  | Some updated_after =>
      match (if is_text "Last Successful Run" updated_after
             then date_of_last_successful_run self else None) with
      | Some last_successful_run_date =>
          ["LastModifiedDate >= '" +:+ strftime_datetime last_successful_run_date +:+ "'"]
      | None => ["LastModifiedDate >= '" +:+ unicode container_repr updated_after +:+ "'"]
      end
  | None => []
  end.

(** The tuple returned: query, object type, select fields, where clause
    list. *)
Definition convert_field_mapping_to_query (self : NewSalesforceIntegration) (task_name : string)
  : result (string * string * list string * list string) :=
  match all_tasks self !! task_name with
  | None => Raise ValueError
  | Some task_config =>
      let object_type := external_model task_config in
      and_then (collect (item_at 0) (snd <$> fields_mapping task_config))
        (fun select_fields =>
           let where_clause_list :=
             date_condition self task_config
             ++ (filter_condition <$> external_filter task_config) in
           let query := "SELECT " +:+ String.concat "," select_fields
                        +:+ " FROM " +:+ object_type in
           let query :=
             match where_clause_list with
             | [] => query
             | _ :: _ => query +:+ " WHERE " +:+ String.concat " AND " where_clause_list
             end in
           Ok (query, object_type, select_fields, where_clause_list))
  end.

(** The dict that describes one query. *)
Record query_info : Type := mk_query_info {
  qi_query : string;
  qi_object_type : string;
  qi_select_fields : list string;
  qi_external_model : string;
  qi_field_mapping : list (string * list string);
  qi_task_name : string;
  qi_where_clause_str : list string
}.

Definition _get_salesforce_queries_for_task (self : NewSalesforceIntegration)
    (task_name : string) : result (list query_info) :=
  match all_tasks self !! task_name with
  | None => Raise ValueError
  | Some task_config =>
      let external_model := external_model task_config in
      and_then (convert_field_mapping_to_query self task_name)
        (fun converted =>
           let '(query, object_type, select_fields, where_clause_str) := converted in
           Ok [ {| qi_query := query;
                   qi_object_type := object_type;
                   qi_select_fields := select_fields;
                   qi_external_model := external_model;
                   qi_field_mapping := fields_mapping task_config;
                   qi_task_name := task_name;
                   qi_where_clause_str := where_clause_str |} ])
  end.

End Reader.

(** What the import of a task does, in order: the events of the Salesforce
    wrapper, those of the preprocessing, and the calls to the Quorum side
    helper; [SendDfToQuorum] records what the helper answered. *)
Inductive import_event : Type :=
| Salesforce (ev : event)
| Preprocessing (ev : pipeline_event)
| MakeQuorumHeaders (task_name : string)
| SendDfToQuorum (task_name : string) (quorum_df : QueryFrame) (answer : result pyval)
| LogWarningNoChanges (task_name : string).

Definition salesforce_event (ev : import_event) : option event :=
  match ev with Salesforce e => Some e | _ => None end.

Definition preprocessing_event (ev : import_event) : option pipeline_event :=
  match ev with Preprocessing e => Some e | _ => None end.

Record quorum_side_helper : Type := mk_quorum_side_helper {
  _make_quorum_headers : list import_event -> string -> result pyval;
  send_df_to_quorum : list import_event -> string -> QueryFrame -> result pyval
}.

(** An element of [results]. *)
Inductive import_entry : Type :=
| DryRunEntry (quorum_headers : pyval) (converted_df : QueryFrame)
| SendResult (result : pyval).

(** What the run returns: the dict of a dry run, [True], or the dict that
    reports a failure. *)
Inductive import_outcome : Type :=
| DryRunResults (results : list import_entry)
| ImportSucceeded
| ImportFailed (errors : list import_entry) (some_change : bool).

(** [result is True] *)
Definition is_True (r : import_entry) : bool :=
  match r with
  | SendResult (VBool true) => true
  | _ => false
  end.

Section Run.
Variable w : world.
Variable container_repr : pyval -> string.
Variable tests_in_progress : bool.
Variable as_completed : list (string * result (list pydict)) -> list (string * result (list pydict)).
Variable convert_objects : list pyval -> list pyval.
Variable get_how_far_to_go_back : result pyval.
Variable h : helpers.
Variable q : quorum_side_helper.

Definition convert_ext_df_to_quorum_df (self : NewSalesforceIntegration) (task_name : string)
    (external_df : QueryFrame) : Run pipeline_event QueryFrame :=
  match all_tasks self !! task_name with
  | None => raise KeyError
  | Some task =>
      let* external_df :=
        ask (ApplyLiteralFields task_name external_df)
            (fun t => apply_literal_fields h t task_name external_df) in
      let* looped :=
        match external_processors task with
        | Some (p :: ps) => apply_preprocessors h (p :: ps) external_df
        | _ => ret (inr external_df)
        end in
      match looped with
      | inl external_df => ret external_df
      | inr external_df =>
          ask (CleanDfColumns external_df)
              (fun t => clean_df_columns h t external_df (fields_mapping task))
      end
  end.

(** [for query_info in salesforce_data_queries] *)
Fixpoint import_loop (self : NewSalesforceIntegration) (task_name : string)
    (salesforce_data_queries : list query_info) (results : list import_entry)
  : Run import_event (list import_entry) :=
  match salesforce_data_queries with
  | [] => ret results
  | query_info :: rest =>
      let* external_df :=
        within Salesforce salesforce_event
          (get_external_df_from_external w container_repr tests_in_progress as_completed
             convert_objects get_how_far_to_go_back self (qi_task_name query_info)) in
      let* converted_df :=
        within Preprocessing preprocessing_event
          (convert_ext_df_to_quorum_df self task_name external_df) in
      let* entry :=
        (if dry_run self then
           let* quorum_headers :=
             ask (MakeQuorumHeaders task_name) (fun t => _make_quorum_headers q t task_name) in
           ret (DryRunEntry quorum_headers converted_df)
         else
           let* result :=
             ask_recorded (SendDfToQuorum task_name converted_df)
                          (fun t => send_df_to_quorum q t task_name converted_df) in
           ret (SendResult result)) in
      import_loop self task_name rest (results ++ [entry])
  end.

Definition run_task_from_external_crm_to_quorum (self : NewSalesforceIntegration)
    (task_name : string) : Run import_event import_outcome :=
  match all_tasks self !! task_name with
  | None => raise KeyError
  | Some task_config =>
      let filters : gmap string string :=
        match date_of_last_successful_run self with
        | Some last_successful_run_date =>
            {[ "LastModifiedDate" := strftime_datetime last_successful_run_date ]}
        | None => ∅
        end in
      let* filters :=
        (if Normalizer.nonempty (external_filter task_config)
            && match filter_get "updated_after" (external_filter task_config) with
               | Some updated_after => is_text "Last Successful Run" updated_after
               | None => false
               end
         then
           (* filters["LastModifiedDate"] = filters["LastModifiedDate"] *)
           match filters !! "LastModifiedDate" with
           | Some date_filter => ret (<["LastModifiedDate" := date_filter]> filters)
           | None => raise KeyError
           end
         else ret filters) in
      let* salesforce_data_queries :=
        lift (_get_salesforce_queries_for_task container_repr self task_name) in
      match salesforce_data_queries with
      | [] => raise ValueError
      | _ :: _ =>
          let* results := import_loop self task_name salesforce_data_queries [] in
          let some_change := Normalizer.nonempty results in
          let* _ := (if negb some_change then emit (LogWarningNoChanges task_name)
                     else ret tt) in
          if dry_run self then ret (DryRunResults results)
          else if forallb is_True results then ret ImportSucceeded
          else ret (ImportFailed (filter (fun error => is_True error = false) results)
                                 some_change)
      end
  end.

End Run.

End Importer.

(** ** Loading a downloaded file: [NewSFTPIntegration.get_external_df_from_external]
    and [NewSFTPIntegration.convert_ext_df_to_quorum_df] *)

Module FileImport.

Import PyStr Query Ask Preprocess.
Local Open Scope py_scope.

(** [LoadSpreadsheet] records what the loader answered. *)
Inductive load_event : Type :=
| RewriteFile (local_filepath : string)
| GetFileExtension (filepath : string)
| FindCsvDelimiter (filepath : string)
| LoadSpreadsheet (filepath extension_key delimiter encoding : string)
                  (answer : result QueryFrame)
| FindCsvEncoding (filepath : string)
| LogWarningNotUtf8 (e : exn)
| LogErrorFailedToLoad (e : exn).

(** The file utilities of the platform, none of them among the sources. *)
Record file_tools : Type := mk_file_tools {
  rewrite_file : list load_event -> string -> result string;
  (** the [key] of the extension found *)
  get_file_extension : list load_event -> string -> result string;
  find_csv_delimiter : list load_event -> string -> result string;
  load_spreadsheet_as_dataframe :
    list load_event -> string -> string -> string -> string -> result QueryFrame;
  find_csv_encoding : list load_event -> string -> result string
}.

Record task : Type := mk_task {
  sftp_delimiter : option string;
  fields_mapping : list (string * list string);
  external_processors : option (list (string * pyval))
}.

Record NewSFTPIntegration : Type := mk_NewSFTPIntegration {
  all_tasks : gmap string task;
  current_local_filepath : string
}.

(** The exceptions that [except (UnicodeDecodeError, UnicodeError)]
    catches: [UnicodeError] and its subclasses. *)
Definition is_unicode_error (e : exn) : bool :=
  match e with
  | OtherError name =>
      bool_decide (name ∈ ["UnicodeError"; "UnicodeDecodeError"; "UnicodeEncodeError";
                           "UnicodeTranslateError"])
  | _ => false
  end.

Section Loader.
Variable tools : file_tools.
Variable h : helpers.

Definition load (filepath extension_key delimiter encoding : string)
  : Run load_event QueryFrame :=
  ask_recorded (LoadSpreadsheet filepath extension_key delimiter encoding)
    (fun t => load_spreadsheet_as_dataframe tools t filepath extension_key delimiter encoding).

Definition get_external_df_from_external (self : NewSFTPIntegration) (task_name : string)
  : Run load_event QueryFrame :=
  let task := all_tasks self !! task_name in
  let* filepath := ask (RewriteFile (current_local_filepath self))
                       (fun t => rewrite_file tools t (current_local_filepath self)) in
  let* file_extension := ask (GetFileExtension filepath)
                             (fun t => get_file_extension tools t filepath) in
  match task with
  | None => raise AttributeError
  | Some task =>
      let* delimiter :=
        match sftp_delimiter task with
        | Some (String c rest) => ret (String c rest)
        | _ => ask (FindCsvDelimiter filepath) (fun t => find_csv_delimiter tools t filepath)
        end in
      try_except
        (load filepath file_extension delimiter "UTF-8")
        (fun e =>
           if is_unicode_error e then
             let* _ := emit (LogWarningNotUtf8 e) in
             let* encoding := ask (FindCsvEncoding filepath)
                                  (fun t => find_csv_encoding tools t filepath) in
             load filepath file_extension delimiter encoding
           else
             let* _ := emit (LogErrorFailedToLoad e) in
             (* return dataframe: the name was never bound *)
             raise UnboundLocalError)
  end.

Definition convert_ext_df_to_quorum_df (self : NewSFTPIntegration) (task_name : string)
    (external_df : QueryFrame) : Run pipeline_event QueryFrame :=
  match all_tasks self !! task_name with
  | None => raise KeyError
  | Some task =>
      let* external_df :=
        ask (ApplyLiteralFields task_name external_df)
            (fun t => apply_literal_fields h t task_name external_df) in
      match external_processors task with
      | None => raise TypeError
      | Some preprocessors_list =>
          let* looped := apply_preprocessors h preprocessors_list external_df in
          match looped with
          | inl external_df => ret external_df
          | inr external_df =>
              ask (CleanDfColumns external_df)
                  (fun t => clean_df_columns h t external_df (fields_mapping task))
          end
      end
  end.

End Loader.

End FileImport.

(** ** Exporting to a file server: [upload_fo_to_ftp],
    [convert_records_to_file_obj], [upload_records_to_external_ftp] and the
    methods [send_external_df_to_external], [encrypt_data],
    [save_dataframe_locally], [upload_to_remote],
    [convert_quorum_df_to_external_df] and
    [run_task_from_quorum_to_external_crm] of [NewSFTPIntegration] *)

Module Uploader.

Import PyStr Query Ask.
Local Open Scope py_scope.

Inductive file_object : Type :=
| StringIO (text : string)
| BytesIO (data : string)
| NotAFile (v : pyval).

(** The lines written with [log.error]. *)
Inductive error_line : Type :=
| EncryptionFailed
| ErrorEncryptingFile
| NonCsvNotSupported.

Inductive upload_event : Type :=
| Connect (ftp_endpoint ftp_username ftp_password : pyval)
| Chdir (ftp_dir : pyval)
| IsFile (file_name : string) (answer : result bool)
| PutFo (flo : string) (remotepath : string)
| NamedTemporaryFile (written : string)
| SubprocessCall (command : list string)
| Communicate (command : list string) (input : string)
| ReadFile (name : string)
| OsRemove (name : string)
| WriteFile (filename : string) (data : string)
| NewQuorumSFTPHelper (folder : string)
| QuorumUploadFile (file_obj : file_object) (path content_type : string)
| GetSsmParam (param_path : string)
| GetDfFromQuorum (task_name : string)
| CleanDfColumns (dataframe : QueryFrame)
| LogError (line : error_line)
| LogWarningNoResults (task_name : string).

(** The servers, the operating system and the Quorum side. *)
Record outside : Type := mk_outside {
  connect : list upload_event -> result unit;
  chdir : list upload_event -> pyval -> result unit;
  isfile : list upload_event -> string -> result bool;
  putfo : list upload_event -> string -> string -> result unit;
  (** the name of the file created *)
  named_temporary_file : list upload_event -> result string;
  subprocess_call : list upload_event -> list string -> result Z;
  (** the return code of the process *)
  communicate : list upload_event -> list string -> string -> result Z;
  read_file : list upload_event -> string -> result string;
  os_remove : list upload_event -> string -> result unit;
  write_file : list upload_event -> string -> string -> result unit;
  new_quorum_sftp_helper : list upload_event -> result unit;
  quorum_upload_file : list upload_event -> file_object -> string -> string -> result unit;
  get_ssm_param_by_path : list upload_event -> string -> result pyval;
  (** [None]: what came back is not a data frame *)
  get_df_from_quorum : list upload_event -> string -> result (option QueryFrame);
  clean_df_columns :
    list upload_event -> QueryFrame -> list (string * list string) -> result QueryFrame
}.

Record task : Type := mk_task {
  sftp_file_name : string;
  fields_mapping : list (string * list string)
}.

Record NewSFTPIntegration : Type := mk_NewSFTPIntegration {
  all_tasks : gmap string task;
  dry_run : bool;
  server_type : Sftp.FlatFileSourceType;
  quorum_sftp_base_path : string;
  aws_ssm_path_to_credentials : string;
  (** [ORG_DETAILS.get(self.organization.id)]: the public key and the
      recipient *)
  org_details : option (string * string)
}.

(** The events that reach a server: the file server, the Quorum store or
    the parameter store. *)
Definition reaches_a_server (ev : upload_event) : bool :=
  match ev with
  | Connect _ _ _ | Chdir _ | IsFile _ _ | PutFo _ _
  | NewQuorumSFTPHelper _ | QuorumUploadFile _ _ _ | GetSsmParam _ => true
  | _ => false
  end.

(** The events that put a file on a server. *)
Definition delivers (ev : upload_event) : bool :=
  match ev with
  | PutFo _ _ | QuorumUploadFile _ _ _ => true
  | _ => false
  end.

(** The events that only touch the machine the code runs on, the log
    apart. *)
Definition local_step (ev : upload_event) : Prop :=
  reaches_a_server ev = false ∧ (∀ line, ev ≠ LogError line) ∧
  ∀ filename data, ev ≠ WriteFile filename data.

(** What [send_external_df_to_external] returns: the list [["Success"]] of
    a dry run, or what [upload_to_remote] returned. *)
Inductive send_result : Type :=
| DryRunSuccess
| Uploaded (results : option bool).

(** [df.drop(columns=name)] *)
Definition drop_column (name : string) (df : QueryFrame) : QueryFrame :=
  {| q_columns := filter (fun c => c ≠ name) (q_columns df);
     q_rows := (fun row => snd <$> filter (fun cell => cell.1 ≠ name) (zip (q_columns df) row))
                 <$> q_rows df |}.

Section Exports.
Variable o : outside.
(** [df.to_csv(...)], with [quoting=csv.QUOTE_NONNUMERIC] or without;
    [df.to_dict("records")]; [pd.DataFrame.from_records]; [json.dump] *)
Variable to_csv : bool -> QueryFrame -> string.
Variable to_dict_records : QueryFrame -> list pydict.
Variable from_records : list pydict -> QueryFrame.
Variable json_dump : list pydict -> result string.
(** [timezone.now().strftime(...)] with the formats of the day and of the
    minute *)
Variable now_date : string.
Variable now_minute : string.

Definition upload_fo_to_ftp (file_object : file_object) (file_name : string)
    (ftp_endpoint ftp_username ftp_password ftp_dir overwrite_file : pyval)
  : Run upload_event bool :=
  match file_object with
  | NotAFile _ => raise ValueError
  | StringIO content | BytesIO content =>
      let* _ := ask (Connect ftp_endpoint ftp_username ftp_password) (connect o) in
      let* _ := (if truthy ftp_dir then ask (Chdir ftp_dir) (fun t => chdir o t ftp_dir)
                 else ret tt) in
      let* present :=
        (if negb (truthy overwrite_file)
         then ask_recorded (IsFile file_name) (fun t => isfile o t file_name)
         else ret false) in
      if (present : bool) then raise ValueError
      else
        let* _ := ask (PutFo content file_name) (fun t => putfo o t content file_name) in
        ret true
  end.

Definition convert_records_to_file_obj (records : list pydict) (filetype : string)
  : result (file_object * string) :=
  if String.eqb filetype "csv"
  then Ok (StringIO (to_csv false (from_records records)), "text/csv")
  else if String.eqb filetype "json"
  then and_then (json_dump records) (fun text => Ok (StringIO text, "application/json"))
  else Raise ValueError.

Definition upload_records_to_external_ftp (records : list pydict) (filetype file_name : string)
    (ftp_endpoint ftp_username ftp_password ftp_dir overwrite_file : pyval)
  : Run upload_event bool :=
  let* converted := lift (convert_records_to_file_obj records filetype) in
  upload_fo_to_ftp converted.1 file_name ftp_endpoint ftp_username ftp_password ftp_dir
    overwrite_file.

Definition encrypt_data (self : NewSFTPIntegration) (data : string)
  : Run upload_event (option string) :=
  match org_details self with
  | None => ret None
  | Some (public_key, recipient_email) =>
      let* key_file_name := ask (NamedTemporaryFile public_key) (named_temporary_file o) in
      let import_command := ["gpg"; "--import"; key_file_name] in
      let* _ := ask (SubprocessCall import_command)
                    (fun t => subprocess_call o t import_command) in
      let* output_file_name := ask (NamedTemporaryFile EmptyString) (named_temporary_file o) in
      let encrypt_command :=
        ["gpg"; "--encrypt"; "--trust-model"; "always"; "--yes";
         "--recipient"; recipient_email; "--output"; output_file_name; "-"] in
      let* returncode := ask (Communicate encrypt_command data)
                             (fun t => communicate o t encrypt_command data) in
      if negb (returncode =? 0)%Z then
        let* _ := emit (LogError ErrorEncryptingFile) in
        ret None
      else
        let* encrypted_data := ask (ReadFile output_file_name)
                                   (fun t => read_file o t output_file_name) in
        let* _ := ask (OsRemove output_file_name) (fun t => os_remove o t output_file_name) in
        let* _ := ask (OsRemove key_file_name) (fun t => os_remove o t key_file_name) in
        ret (Some encrypted_data)
  end.

Definition save_dataframe_locally (self : NewSFTPIntegration) (output_df : QueryFrame)
    (filename : string) : Run upload_event bool :=
  if endswith filename ".csv.gpg" then
    let csv_data := to_csv true output_df in
    let* encrypted_data := encrypt_data self csv_data in
    match encrypted_data with
    | None =>
        let* _ := emit (LogError EncryptionFailed) in
        ret false
    | Some encrypted_data =>
        let* _ := ask (WriteFile filename encrypted_data)
                      (fun t => write_file o t filename encrypted_data) in
        ret true
    end
  else if endswith filename ".csv" then
    let* _ := ask (WriteFile filename (to_csv true output_df))
                  (fun t => write_file o t filename (to_csv true output_df)) in
    ret true
  else
    let* _ := emit (LogError NonCsvNotSupported) in
    ret false.

(** The block that both branches of [upload_to_remote] repeat: the file
    object and its content type, [None] when the encryption failed. *)
Definition file_for_upload (self : NewSFTPIntegration) (output_df : QueryFrame)
    (filename : string) : Run upload_event (option (file_object * string)) :=
  if endswith filename ".csv.gpg" then
    let csv_data := to_csv true output_df in
    let* encrypted_data := encrypt_data self csv_data in
    match encrypted_data with
    | None =>
        let* _ := emit (LogError EncryptionFailed) in
        ret None
    | Some encrypted_data => ret (Some (BytesIO encrypted_data, "application/pgp-encrypted"))
    end
  else if endswith filename ".csv" then
    ret (Some (StringIO (to_csv true output_df), "text/csv"))
  else raise (OtherError "NotImplementedError").

(** [Some b] for a returned boolean, [None] when the method ends without a
    [return]. *)
Definition upload_to_remote (self : NewSFTPIntegration) (output_df : QueryFrame)
    (filename : string) : Run upload_event (option bool) :=
  if dry_run self then raise ValueError
  else
    match server_type self with
    | Sftp.quorum_sftp =>
        let* _ := ask (NewQuorumSFTPHelper (quorum_sftp_base_path self))
                      (new_quorum_sftp_helper o) in
        let path := posixpath_join (quorum_sftp_base_path self) filename in
        let* prepared := file_for_upload self output_df filename in
        match prepared with
        | None => ret (Some false)
        | Some (file_obj, content_type) =>
            let* _ := ask (QuorumUploadFile file_obj path content_type)
                          (fun t => quorum_upload_file o t file_obj path content_type) in
            ret (Some true)
        end
    | Sftp.external_sftp =>
        let* prepared := file_for_upload self output_df filename in
        match prepared with
        | None => ret (Some false)
        | Some _ =>
            let* external_ftp_creds :=
              ask (GetSsmParam (aws_ssm_path_to_credentials self))
                  (fun t => get_ssm_param_by_path o t (aws_ssm_path_to_credentials self)) in
            let records := to_dict_records output_df in
            match external_ftp_creds with
            | VDict creds =>
                let* ftp_endpoint := lift (Upsert.dict_item "SFTP Endpoint" creds) in
                let* ftp_username := lift (Upsert.dict_item "SFTP Username" creds) in
                let* ftp_password := lift (Upsert.dict_item "SFTP Password" creds) in
                let* success :=
                  upload_records_to_external_ftp records "csv" filename
                    ftp_endpoint ftp_username ftp_password
                    (dict_get "ftp_dir" creds)
                    (default (VBool false) (creds !! "overwrite_file")) in
                if (success : bool) then ret (Some true) else raise ValueError
            | _ => raise TypeError
            end
        end
    | _ => ret None
    end.

Definition send_external_df_to_external (self : NewSFTPIntegration) (task_name : string)
    (external_df : QueryFrame) : Run upload_event send_result :=
  match all_tasks self !! task_name with
  | None => raise KeyError
  | Some task =>
      let filename :=
        if contains "{{datetime}}" (sftp_file_name task)
        then replace "{{datetime}}" now_date (sftp_file_name task)
        else if contains "{{timestamp}}" (sftp_file_name task)
        then replace "{{timestamp}}" now_minute (sftp_file_name task)
        else sftp_file_name task in
      if dry_run self then
        let* _ := save_dataframe_locally self external_df filename in
        ret DryRunSuccess
      else
        let external_df :=
          if bool_decide ("quorum_side_primary_key" ∈ q_columns external_df)
          then drop_column "quorum_side_primary_key" external_df
          else external_df in
        let* results := upload_to_remote self external_df filename in
        ret (Uploaded results)
  end.

Definition convert_quorum_df_to_external_df (self : NewSFTPIntegration) (task_name : string)
    (quorum_df : QueryFrame) : Run upload_event QueryFrame :=
  match all_tasks self !! task_name with
  | None => raise AttributeError
  | Some task =>
      ask (CleanDfColumns quorum_df)
          (fun t => clean_df_columns o t quorum_df (fields_mapping task))
  end.

Definition run_task_from_quorum_to_external_crm (self : NewSFTPIntegration)
    (task_name : string) : Run upload_event bool :=
  let* quorum_df := ask (GetDfFromQuorum task_name)
                        (fun t => get_df_from_quorum o t task_name) in
  match quorum_df with
  | Some quorum_df =>
      if Preprocess.empty quorum_df then
        let* _ := emit (LogWarningNoResults task_name) in
        ret false
      else
        let* external_df := convert_quorum_df_to_external_df self task_name quorum_df in
        let* _ := send_external_df_to_external self task_name external_df in
        ret true
  | None =>
      let* _ := emit (LogWarningNoResults task_name) in
      ret false
  end.

End Exports.

End Uploader.

(** ** The notions in which the further properties are stated *)

Module Notions.

Import WhereClauses Query Normalizer Ask Preprocess.

(** The predicates that a list of candidates gives, in order: one for each
    candidate that has a value for some mapped field. *)
Definition clauses_of (container_repr : pyval -> string) (fm : list (string * string))
    (records : list pydict) : list string :=
  (fun r => current_clause container_repr r fm)
    <$> filter (fun r => where_items container_repr r fm ≠ []) records.

(** The state of the loop of [_sf_build_where_clauses] read as groups of
    predicates: the closed chunks and the open one. *)
Definition grouped (st : builder) (groups : list (list string)) (open : list string) : Prop :=
  Forall (fun g => g ≠ []) groups ∧
  Forall (fun s => s ≠ EmptyString) (mjoin groups ++ open) ∧
  sf_where_clauses st = String.concat " OR " <$> groups ∧
  current_where st = String.concat " OR " open.

(** The query that [_run_sf_query] sends for one WHERE clause. *)
Definition query_of (object_type : string) (select_fields : list string) (include_deleted : bool)
    (sf_where : string) : request :=
  QueryAll (soql sf_where object_type select_fields) include_deleted.

(** The trace when the synchronous loop of [query_sf] sends the query of
    clause number [i]: the queries of the clauses before it, each sent and
    answered. *)
Definition sent_before (object_type : string) (select_fields : list string)
    (include_deleted : bool) (where_clauses : list string) (t : trace) (i : nat) : trace :=
  t ++ (Called <$> (query_of object_type select_fields include_deleted <$> take i where_clauses)).

(** What Salesforce answers to the query of clause [sf_where] when it is
    sent as number [i]. *)
Definition answer_at (w : world) (object_type : string) (select_fields : list string)
    (include_deleted : bool) (where_clauses : list string) (t : trace) (i : nat)
    (sf_where : string) : result (list pydict) :=
  query_all w (sent_before object_type select_fields include_deleted where_clauses t i)
    (soql sf_where object_type select_fields) include_deleted.

(** No message of the report says that a picklist has no values. *)
Definition defined_picklists (msgs : list validation_error) : Prop :=
  ∀ field_name, PicklistUndefined field_name ∉ msgs.

(** What a conversion appends: [clean_df_columns] is the last step when it
    is called, it gets an empty frame only when no preprocessor ran before
    it, and a frame that is returned without it is empty. *)
Definition stops_when_emptied (task_name : string) (external_df : QueryFrame)
    (new : list pipeline_event) (r : result QueryFrame) : Prop :=
  (∀ d, CleanDfColumns d ∈ new →
        ∃ pre, new = pre ++ [CleanDfColumns d] ∧
               (empty d = false ∨ pre = [ApplyLiteralFields task_name external_df])) ∧
  (∀ d, r = Ok d → empty d = true ∨ ∃ d', CleanDfColumns d' ∈ new).

(** The end of both conversions: the frame that the loop returned early is
    the result, the frame that it left is cleaned. *)
Definition clean_unless_returned (h : helpers) (fields : list (string * list string))
    (looped : QueryFrame + QueryFrame) : Run pipeline_event QueryFrame :=
  match looped with
  | inl df => ret df
  | inr df => ask (CleanDfColumns df) (fun t => clean_df_columns h t df fields)
  end.

(** The events of the one pass of a live import: the reading of Salesforce,
    the conversion, and one delivery to Quorum that answered [result]. *)
Definition live_pass (task_name : string) (new : list Importer.import_event) (result : pyval)
  : Prop :=
  ∃ reading preprocessing converted_df,
    new = (Importer.Salesforce <$> reading) ++ (Importer.Preprocessing <$> preprocessing)
          ++ [Importer.SendDfToQuorum task_name converted_df (Ok result)].

End Notions.

(** ** Further concrete inputs *)

Module Cases.

Import Scenarios.

(** A candidate with no value for any field. *)
Definition blank_record : pydict := ∅.

(** [as_completed] that yields the futures in the order of submission. *)
Definition in_order (futures : list (string * result (list pydict)))
  : list (string * result (list pydict)) := futures.

(** A type inference that keeps every column as it is. *)
Definition as_objects (cells : list pyval) : list pyval := cells.

(** A schema with one date field. *)
Definition dated : world :=
  {| bulk_upsert := bulk_upsert quiet;
     sf_update := sf_update quiet;
     content_note_create := content_note_create quiet;
     query_all := query_all quiet;
     describe := fun _ _ => Ok [plain_field "Birthdate" "date" 0];
     send_ext_ids_to_quorum := send_ext_ids_to_quorum quiet;
     update_external_id_dict := update_external_id_dict quiet |}.

(** Salesforce has the note 069 and no other: the update of any other note
    answers 404. *)
Definition one_note : world :=
  {| bulk_upsert := bulk_upsert quiet;
     sf_update := fun _ _ path _ =>
                    if String.eqb path "Id/069" then Ok (VInt 204) else Ok (VInt 404);
     content_note_create := content_note_create quiet;
     query_all := query_all quiet;
     describe := describe quiet;
     send_ext_ids_to_quorum := send_ext_ids_to_quorum quiet;
     update_external_id_dict := update_external_id_dict quiet |}.

Definition other_note : pydict :=
  {[ "Id" := VStr "070"; "quorum_side_primary_key" := VInt 8 ]}.

Definition new_year : pydate :=
  mk_pydate "2024-01-01" "2024-01-01T00:00:00+0000" "2024-01-01".

(** A task that imports contacts, with the filter given. *)
Definition contacts_import (external_filter : list (string * pyval)) : Importer.task_config :=
  {| Importer.external_model := "Contact";
     Importer.fields_mapping := [("name", ["Name"; "name"])];
     Importer.external_filter := external_filter;
     Importer.external_processors := None |}.

(** An integration that has never run, live. *)
Definition first_import (external_filter : list (string * pyval))
  : Importer.NewSalesforceIntegration :=
  {| Importer.all_tasks := {[ "contacts" := contacts_import external_filter ]};
     Importer.date_of_last_successful_run := None;
     Importer.dry_run := false |}.

(** Helpers that leave every frame as it is. *)
Definition passive : Preprocess.helpers :=
  {| Preprocess.apply_literal_fields := fun _ _ df => Ok df;
     Preprocess.get_external_preprocessor := fun _ => None;
     Preprocess.clean_df_columns := fun _ df _ => Ok df |}.

(** Quorum accepts every frame. *)
Definition obliging : Importer.quorum_side_helper :=
  {| Importer._make_quorum_headers := fun _ _ => Ok VNone;
     Importer.send_df_to_quorum := fun _ _ _ => Ok (VBool true) |}.

Definition no_date : result pyval := Ok VNone.

(** Servers and an operating system on which everything succeeds: the
    credentials are found, no file exists on the server, and Quorum has
    nothing to export. *)
Definition idle : Uploader.outside :=
  {| Uploader.connect := fun _ => Ok tt;
     Uploader.chdir := fun _ _ => Ok tt;
     Uploader.isfile := fun _ _ => Ok false;
     Uploader.putfo := fun _ _ _ => Ok tt;
     Uploader.named_temporary_file := fun _ => Ok "tmp";
     Uploader.subprocess_call := fun _ _ => Ok 0%Z;
     Uploader.communicate := fun _ _ _ => Ok 0%Z;
     Uploader.read_file := fun _ _ => Ok EmptyString;
     Uploader.os_remove := fun _ _ => Ok tt;
     Uploader.write_file := fun _ _ _ => Ok tt;
     Uploader.new_quorum_sftp_helper := fun _ => Ok tt;
     Uploader.quorum_upload_file := fun _ _ _ _ => Ok tt;
     Uploader.get_ssm_param_by_path :=
       fun _ _ => Ok (VDict {[ "SFTP Endpoint" := VStr "host"; "SFTP Username" := VStr "user";
                               "SFTP Password" := VStr "secret" ]});
     Uploader.get_df_from_quorum := fun _ _ => Ok None;
     Uploader.clean_df_columns := fun _ df _ => Ok df |}.

(** The text of every frame, and the records of none. *)
Definition plain_csv (quoted : bool) (df : Query.QueryFrame) : string := "csv".
Definition no_records (df : Query.QueryFrame) : list pydict := [].
Definition no_frame (records : list pydict) : Query.QueryFrame := Query.empty_frame.
Definition plain_json (records : list pydict) : result string := Ok "[]".

(** An export of contacts to an encrypted file, to the server given. *)
Definition contacts_export (dry_run : bool) (server_type : Sftp.FlatFileSourceType)
  : Uploader.NewSFTPIntegration :=
  {| Uploader.all_tasks :=
       {[ "contacts" := {| Uploader.sftp_file_name := "contacts.csv.gpg";
                           Uploader.fields_mapping := [] |} ]};
     Uploader.dry_run := dry_run;
     Uploader.server_type := server_type;
     Uploader.quorum_sftp_base_path := "base";
     Uploader.aws_ssm_path_to_credentials := "path";
     Uploader.org_details := None |}.

(** The same servers, with a [gpg] whose output file holds an armoured
    message. *)
Definition gpg_ready : Uploader.outside :=
  {| Uploader.connect := Uploader.connect idle;
     Uploader.chdir := Uploader.chdir idle;
     Uploader.isfile := Uploader.isfile idle;
     Uploader.putfo := Uploader.putfo idle;
     Uploader.named_temporary_file := Uploader.named_temporary_file idle;
     Uploader.subprocess_call := Uploader.subprocess_call idle;
     Uploader.communicate := Uploader.communicate idle;
     Uploader.read_file := fun _ _ => Ok "-----BEGIN PGP MESSAGE-----";
     Uploader.os_remove := Uploader.os_remove idle;
     Uploader.write_file := Uploader.write_file idle;
     Uploader.new_quorum_sftp_helper := Uploader.new_quorum_sftp_helper idle;
     Uploader.quorum_upload_file := Uploader.quorum_upload_file idle;
     Uploader.get_ssm_param_by_path := Uploader.get_ssm_param_by_path idle;
     Uploader.get_df_from_quorum := Uploader.get_df_from_quorum idle;
     Uploader.clean_df_columns := Uploader.clean_df_columns idle |}.

(** A CSV text that tells whether the frame was written with
    [quoting=csv.QUOTE_NONNUMERIC] or without. *)
Definition marked_csv (quoted : bool) (df : Query.QueryFrame) : string :=
  if quoted then "quoted csv" else "plain csv".

(** A live export of contacts to an encrypted file, for an organization
    whose public key and recipient are known. *)
Definition encrypted_export (server_type : Sftp.FlatFileSourceType)
  : Uploader.NewSFTPIntegration :=
  {| Uploader.all_tasks := Uploader.all_tasks (contacts_export false server_type);
     Uploader.dry_run := false;
     Uploader.server_type := server_type;
     Uploader.quorum_sftp_base_path := "base";
     Uploader.aws_ssm_path_to_credentials := "path";
     Uploader.org_details := Some ("public key", "ops@example.org") |}.

(** File utilities with which no file can be loaded. *)
Definition unreadable (e : exn) : FileImport.file_tools :=
  {| FileImport.rewrite_file := fun _ path => Ok path;
     FileImport.get_file_extension := fun _ _ => Ok "csv";
     FileImport.find_csv_delimiter := fun _ _ => Ok ",";
     FileImport.load_spreadsheet_as_dataframe := fun _ _ _ _ _ => Raise e;
     FileImport.find_csv_encoding := fun _ _ => Ok "latin-1" |}.

Definition comma_task : FileImport.task :=
  {| FileImport.sftp_delimiter := Some ",";
     FileImport.fields_mapping := [];
     FileImport.external_processors := Some [] |}.

Definition file_import : FileImport.NewSFTPIntegration :=
  {| FileImport.all_tasks := {[ "contacts" := comma_task ]};
     FileImport.current_local_filepath := "f.csv" |}.

End Cases.

(** * Facts *)

(** ** Runs and their traces *)

Module RunFacts.

Lemma appends_ret {E A} (P : E -> Prop) (a : A) : appends P (ret a).
Proof. intros t. exists []. split; [by rewrite app_nil_r | constructor]. Qed.

Lemma appends_raise {E A} (P : E -> Prop) e : appends P (@raise E A e).
Proof. intros t. exists []. split; [by rewrite app_nil_r | constructor]. Qed.

Lemma appends_lift {E A} (P : E -> Prop) (r : result A) : appends P (lift r).
Proof. intros t. exists []. split; [by rewrite app_nil_r | constructor]. Qed.

Lemma appends_emit {E} (P : E -> Prop) ev : P ev → appends P (emit ev).
Proof. intros H t. exists [ev]. split; [done | by constructor]. Qed.

Lemma appends_bind {E A B} (P : E -> Prop) (m : Run E A) (k : A -> Run E B) :
  appends P m → (∀ a, appends P (k a)) → appends P (bind m k).
Proof.
  intros Hm Hk t. unfold bind. destruct (Hm t) as (new & Ht & Hnew).
  destruct (m t) as [t1 [a|e]]; simpl in *; subst.
  - destruct (Hk a (t ++ new)) as (new' & -> & Hnew').
    exists (new ++ new'). split; [by rewrite app_assoc | by apply Forall_app].
  - by exists new.
Qed.

Lemma appends_try_except {E A} (P : E -> Prop) (m : Run E A) (h : exn -> Run E A) :
  appends P m → (∀ e, appends P (h e)) → appends P (try_except m h).
Proof.
  intros Hm Hh t. unfold try_except. destruct (Hm t) as (new & Ht & Hnew).
  destruct (m t) as [t1 [a|e]]; simpl in *; subst.
  - by exists new.
  - destruct (Hh e (t ++ new)) as (new' & -> & Hnew').
    exists (new ++ new'). split; [by rewrite app_assoc | by apply Forall_app].
Qed.

Lemma appends_call {A} (P : event -> Prop) r (answer : trace -> result A) :
  P (Called r) → appends P (call r answer).
Proof. intros H t. exists [Called r]. split; [done | by constructor]. Qed.

Lemma appends_if {E A} (P : E -> Prop) (b : bool) (m1 m2 : Run E A) :
  appends P m1 → appends P m2 → appends P (if b then m1 else m2).
Proof. by destruct b. Qed.

Lemma starts_with_bind {E A B} (ev : E) (m : Run E A) (k : A -> Run E B) :
  starts_with ev m → (∀ a, appends (fun _ => True) (k a)) → starts_with ev (bind m k).
Proof.
  intros Hm Hk t. unfold bind. destruct (Hm t) as (new & Ht).
  destruct (m t) as [t1 [a|e]]; simpl in *; subst.
  - destruct (Hk a (t ++ ev :: new)) as (new' & -> & _).
    exists (new ++ new'). by rewrite <- app_assoc.
  - by exists new.
Qed.

Lemma starts_with_try_except {E A} (ev : E) (m : Run E A) (h : exn -> Run E A) :
  starts_with ev m → (∀ e, appends (fun _ => True) (h e)) → starts_with ev (try_except m h).
Proof.
  intros Hm Hh t. unfold try_except. destruct (Hm t) as (new & Ht).
  destruct (m t) as [t1 [a|e]]; simpl in *; subst.
  - by exists new.
  - destruct (Hh e (t ++ ev :: new)) as (new' & -> & _).
    exists (new ++ new'). by rewrite <- app_assoc.
Qed.

Lemma starts_with_call {A} r (answer : trace -> result A) : starts_with (Called r) (call r answer).
Proof. intros t. by exists []. Qed.

Ltac appends_step :=
  first
    [ apply appends_ret | apply appends_raise | apply appends_lift
    | apply appends_emit; simpl; try done
    | apply appends_call; simpl; try done
    | apply appends_bind; [|intros ?]
    | apply appends_try_except; [|intros ?]
    | apply appends_if ].

End RunFacts.

(** ** The predicate builder *)

Module WhereClausesFacts.
Import WhereClauses.

Lemma length_append (s1 s2 : string) :
  String.length (s1 +:+ s2) = String.length s1 + String.length s2.
Proof. induction s1 as [|c s1 IH]; simpl; [done | by rewrite IH]. Qed.

#[global] Instance item_le_trans : Transitive item_le.
Proof.
  intros [k1 v1] [k2 v2] [k3 v3] [H12 V12] [H23 V23]; simpl in *.
  split; simpl.
  - by etrans.
  - intros ->.
    assert (k2 = k3) as -> by (by apply (anti_symm String.le)).
    etrans; [by apply V12 | by apply V23].
Qed.

#[global] Instance item_le_antisym : AntiSymm eq item_le.
Proof.
  intros [k1 v1] [k2 v2] [H12 V12] [H21 V21]; simpl in *.
  assert (k1 = k2) as -> by (by apply (anti_symm String.le)).
  f_equal. apply (anti_symm String.le); auto.
Qed.

#[global] Instance item_le_total : Total item_le.
Proof.
  intros [k1 v1] [k2 v2]. unfold item_le; simpl.
  destruct (decide (k1 = k2)) as [->|Hne].
  - destruct (total String.le v1 v2); [left | right]; split; done.
  - destruct (total String.le k1 k2); [left | right]; split; try done; intros; congruence.
Qed.

Lemma sorted_items_sorted fm : StronglySorted item_le (sorted_items fm).
Proof. apply StronglySorted_merge_sort; apply _. Qed.

Lemma sorted_items_perm fm : sorted_items fm ≡ₚ fm.
Proof. apply merge_sort_Permutation. Qed.

(** The sorted list of items does not depend on the order of the dict. *)
Lemma sorted_items_canonical fm fm' : fm ≡ₚ fm' → sorted_items fm = sorted_items fm'.
Proof.
  intros Hp. apply (Sorted_unique item_le).
  - apply Sorted_merge_sort; apply _.
  - apply Sorted_merge_sort; apply _.
  - by rewrite !sorted_items_perm.
Qed.

Lemma kept_items_canonical record fm fm' :
  fm ≡ₚ fm' → kept_items record fm = kept_items record fm'.
Proof. intros Hp. unfold kept_items. by rewrite (sorted_items_canonical fm fm'). Qed.

Lemma predicate_keys_sorted record fm :
  StronglySorted String.le (predicate_keys record fm).
Proof.
  unfold predicate_keys, kept_items.
  pose proof (sorted_items_sorted fm) as Hs.
  induction Hs as [|item l Hs IH Hall]; simpl; [constructor|].
  rewrite filter_cons. case_decide.
  - simpl. constructor; [done|].
    apply Forall_fmap, Forall_forall. intros item' Hin.
    apply list_elem_of_filter in Hin as [_ Hin].
    rewrite Forall_forall in Hall. by destruct (Hall item' Hin).
  - done.
Qed.

Section Builder.
Variable container_repr : pyval -> string.
Variable max_where : nat.

Lemma build_step_canonical total fm fm' idx record st :
  fm ≡ₚ fm' →
  build_step container_repr max_where total fm idx record st
  = build_step container_repr max_where total fm' idx record st.
Proof.
  intros Hp. unfold build_step, current_clause, where_items, where_terms.
  by rewrite (kept_items_canonical record fm fm').
Qed.

Lemma build_loop_canonical total fm fm' idx sv st :
  fm ≡ₚ fm' →
  build_loop container_repr max_where total fm idx sv st
  = build_loop container_repr max_where total fm' idx sv st.
Proof.
  intros Hp. revert idx st.
  induction sv as [|record sv IH]; intros idx st; simpl; [done|].
  by rewrite (build_step_canonical _ fm fm'), IH.
Qed.

Lemma build_step_ok sv total fm idx record st :
  record ∈ sv →
  builder_ok container_repr max_where sv fm st →
  builder_ok container_repr max_where sv fm
    (build_step container_repr max_where total fm idx record st).
Proof.
  intros Hin [Hlen Hall]. unfold build_step.
  assert ((max_where <? String.length (current_where st)) = false) as ->
    by (apply Nat.ltb_ge; lia).
  destruct (where_items container_repr record fm) as [|item items] eqn:Hitems;
    [by split|].
  match goal with
  | |- context [String.length ?j] =>
      lazymatch j with
      | current_where _ => fail
      | _ => set (joined := j)
      end
  end.
  destruct ((max_where <? String.length joined) || (idx =? total - 1)) eqn:Hclose.
  - split; simpl; [lia|].
    apply Forall_app; split; [done|]. apply Forall_singleton.
    exists (current_where st), record. repeat split; try done.
    by rewrite Hitems.
  - apply orb_false_iff in Hclose as [Hlt _]. apply Nat.ltb_ge in Hlt.
    by split.
Qed.

Lemma build_loop_ok sv total fm idx records st :
  records ⊆ sv →
  builder_ok container_repr max_where sv fm st →
  builder_ok container_repr max_where sv fm
    (build_loop container_repr max_where total fm idx records st).
Proof.
  revert idx st. induction records as [|record records IH]; intros idx st Hsub Hok;
    simpl; [done|].
  apply IH; [set_solver|]. apply build_step_ok; [set_solver | done].
Qed.

Lemma or_join_length prefix clause :
  String.length (or_join prefix clause) ≤ String.length prefix + 4 + String.length clause.
Proof.
  unfold or_join. destruct (String.eqb prefix EmptyString); simpl; [lia|].
  rewrite !length_append. simpl. lia.
Qed.

Lemma or_join_at_least prefix clause :
  String.length clause ≤ String.length (or_join prefix clause).
Proof.
  unfold or_join. destruct (String.eqb prefix EmptyString); simpl; [lia|].
  rewrite !length_append. simpl. lia.
Qed.

(** A closed chunk stays in the list. *)
Lemma build_step_keeps total fm idx record st chunk :
  chunk ∈ sf_where_clauses st →
  chunk ∈ sf_where_clauses (build_step container_repr max_where total fm idx record st).
Proof.
  intros Hin. unfold build_step, flush.
  repeat case_match; simpl; rewrite ?elem_of_app; auto.
Qed.

Lemma build_loop_keeps total fm idx records st chunk :
  chunk ∈ sf_where_clauses st →
  chunk ∈ sf_where_clauses (build_loop container_repr max_where total fm idx records st).
Proof.
  revert idx st. induction records as [|record records IH]; intros idx st Hin; simpl; [done|].
  by apply IH, build_step_keeps.
Qed.

(** A predicate that is longer than the maximum closes the chunk in the
    iteration that builds it. *)
Lemma build_step_emits total fm idx record st :
  where_items container_repr record fm ≠ [] →
  max_where < String.length (current_clause container_repr record fm) →
  String.length (current_where st) ≤ max_where →
  or_join (current_where st) (current_clause container_repr record fm)
    ∈ sf_where_clauses (build_step container_repr max_where total fm idx record st).
Proof.
  intros Hitems Hlong Hlen. unfold build_step.
  assert ((max_where <? String.length (current_where st)) = false) as ->
    by (apply Nat.ltb_ge; lia).
  destruct (where_items container_repr record fm) as [|item items] eqn:Heq; [done|].
  fold (or_join (current_where st) (current_clause container_repr record fm)).
  pose proof (or_join_at_least (current_where st) (current_clause container_repr record fm)).
  assert ((max_where <? String.length
             (or_join (current_where st) (current_clause container_repr record fm))) = true)
    as -> by (apply Nat.ltb_lt; lia).
  simpl. apply elem_of_app. right. by left.
Qed.

Lemma build_loop_emits sv total fm idx records st record :
  records ⊆ sv →
  builder_ok container_repr max_where sv fm st →
  record ∈ records →
  where_items container_repr record fm ≠ [] →
  max_where < String.length (current_clause container_repr record fm) →
  ∃ prefix,
    String.length prefix ≤ max_where ∧
    or_join prefix (current_clause container_repr record fm)
      ∈ sf_where_clauses (build_loop container_repr max_where total fm idx records st).
Proof.
  revert idx st. induction records as [|r records IH]; intros idx st Hsub Hok Hin Hitems Hlong;
    [by apply elem_of_nil in Hin|].
  simpl. apply elem_of_cons in Hin as [->|Hin].
  - exists (current_where st). destruct Hok as [Hlen _]. split; [done|].
    by apply build_loop_keeps, build_step_emits.
  - apply IH; try done; [set_solver|]. apply build_step_ok; [set_solver | done].
Qed.

End Builder.

(** C3, as the code has it: every WHERE clause that [_sf_build_where_clauses]
    returns is the join of an accumulated text that was still within the
    maximum and of one more predicate; it is closed as soon as it exceeds the
    maximum, so it is at most the maximum plus the separator plus its last
    predicate long.  And a predicate that alone exceeds the maximum is not
    rejected: it closes the chunk that it is joined to. *)
Theorem where_clause_closed_after_limit (container_repr : pyval -> string) (max_where : nat)
    (search_values : list pydict) (field_mapping : list (string * string)) :
  (∀ chunk,
     chunk ∈ _sf_build_where_clauses container_repr max_where search_values field_mapping →
     ∃ prefix record,
       record ∈ search_values ∧
       where_items container_repr record field_mapping ≠ [] ∧
       chunk = or_join prefix (current_clause container_repr record field_mapping) ∧
       String.length prefix ≤ max_where ∧
       String.length chunk
         ≤ max_where + 4 + String.length (current_clause container_repr record field_mapping)) ∧
  (∀ record,
     record ∈ search_values →
     where_items container_repr record field_mapping ≠ [] →
     max_where < String.length (current_clause container_repr record field_mapping) →
     ∃ prefix,
       String.length prefix ≤ max_where ∧
       or_join prefix (current_clause container_repr record field_mapping)
         ∈ _sf_build_where_clauses container_repr max_where search_values field_mapping).
Proof.
  assert (builder_ok container_repr max_where search_values field_mapping
            {| current_where := EmptyString; sf_where_clauses := [] |}) as Hstart.
  { split; simpl; [lia | constructor]. }
  split.
  - intros chunk Hin. unfold _sf_build_where_clauses in Hin.
    destruct (build_loop_ok container_repr max_where search_values
                (length search_values) field_mapping 0 search_values _ ltac:(done) Hstart)
      as [_ Hall].
    rewrite Forall_forall in Hall.
    destruct (Hall chunk Hin) as (prefix & record & Hrec & Hitems & -> & Hlen).
    exists prefix, record. repeat split; try done.
    pose proof (or_join_length prefix (current_clause container_repr record field_mapping)).
    lia.
  - intros record Hin Hitems Hlong. unfold _sf_build_where_clauses.
    by apply (build_loop_emits container_repr max_where search_values).
Qed.

Lemma where_clause_closed_after_limit_witness :
  (∃ prefix record,
     record ∈ [Scenarios.crossed_record] ∧
     where_items Scenarios.plain_repr record Scenarios.crossed_mapping ≠ [] ∧
     "(Zeta = 1 AND Alpha = 2)"
       = or_join prefix (current_clause Scenarios.plain_repr record Scenarios.crossed_mapping) ∧
     String.length prefix ≤ MAX_WHERE_CLAUSE ∧
     String.length "(Zeta = 1 AND Alpha = 2)"
       ≤ MAX_WHERE_CLAUSE + 4
         + String.length (current_clause Scenarios.plain_repr record Scenarios.crossed_mapping)) ∧
  (∃ prefix,
     String.length prefix ≤ 10 ∧
     or_join prefix (current_clause Scenarios.plain_repr Scenarios.crossed_record
                       Scenarios.crossed_mapping)
       ∈ _sf_build_where_clauses Scenarios.plain_repr 10
           [Scenarios.crossed_record; Scenarios.crossed_record] Scenarios.crossed_mapping).
Proof.
  split.
  - apply (proj1 (where_clause_closed_after_limit Scenarios.plain_repr MAX_WHERE_CLAUSE
                    [Scenarios.crossed_record] Scenarios.crossed_mapping)).
    vm_compute. left.
  - apply (proj2 (where_clause_closed_after_limit Scenarios.plain_repr 10
                    [Scenarios.crossed_record; Scenarios.crossed_record]
                    Scenarios.crossed_mapping)).
    + left.
    + by vm_compute.
    + vm_compute. lia.
Defined.

(** C3 as stated fails: two predicates of 1798 characters, neither above
    the maximum of 3500, come back as one WHERE clause of 3600 characters. *)
Lemma where_clause_over_limit :
  _sf_build_where_clauses Scenarios.plain_repr MAX_WHERE_CLAUSE
    [Scenarios.long_record; Scenarios.long_record] Scenarios.long_mapping
  = [Scenarios.long_clause +:+ " OR " +:+ Scenarios.long_clause] ∧
  Scenarios.long_clause
  = current_clause Scenarios.plain_repr Scenarios.long_record Scenarios.long_mapping ∧
  String.length Scenarios.long_clause = 1798 ∧
  String.length (Scenarios.long_clause +:+ " OR " +:+ Scenarios.long_clause) = 3600 ∧
  MAX_WHERE_CLAUSE = 3500.
Proof. vm_compute. done. Qed.

(** C4, as the code has it: the terms of a predicate follow the order of the
    mapping's keys (the record's own field names, which the sort compares
    first), and the WHERE clauses do not depend on the order in which the
    mapping lists its items. *)
Theorem predicate_terms_in_key_order (container_repr : pyval -> string) (max_where : nat)
    (search_values : list pydict) (record : pydict)
    (field_mapping field_mapping' : list (string * string)) :
  field_mapping ≡ₚ field_mapping' →
  StronglySorted String.le (predicate_keys record field_mapping) ∧
  where_items container_repr record field_mapping
  = where_items container_repr record field_mapping' ∧
  _sf_build_where_clauses container_repr max_where search_values field_mapping
  = _sf_build_where_clauses container_repr max_where search_values field_mapping'.
Proof.
  intros Hp. split; [apply predicate_keys_sorted|]. split.
  - unfold where_items, where_terms. by rewrite (kept_items_canonical record _ _ Hp).
  - unfold _sf_build_where_clauses. by rewrite (build_loop_canonical _ _ _ _ _ _ _ _ Hp).
Qed.

Lemma predicate_terms_in_key_order_witness :
  StronglySorted String.le (predicate_keys Scenarios.crossed_record Scenarios.crossed_mapping) ∧
  where_items Scenarios.plain_repr Scenarios.crossed_record Scenarios.crossed_mapping
  = where_items Scenarios.plain_repr Scenarios.crossed_record (reverse Scenarios.crossed_mapping) ∧
  _sf_build_where_clauses Scenarios.plain_repr MAX_WHERE_CLAUSE [Scenarios.crossed_record]
    Scenarios.crossed_mapping
  = _sf_build_where_clauses Scenarios.plain_repr MAX_WHERE_CLAUSE [Scenarios.crossed_record]
      (reverse Scenarios.crossed_mapping).
Proof.
  apply (predicate_terms_in_key_order Scenarios.plain_repr MAX_WHERE_CLAUSE
           [Scenarios.crossed_record] Scenarios.crossed_record
           Scenarios.crossed_mapping (reverse Scenarios.crossed_mapping)).
  vm_compute. apply perm_swap.
Defined.

(** C4 as stated fails: with the mapping a -> Zeta, b -> Alpha the predicate
    reads Zeta before Alpha. *)
Lemma predicate_terms_not_in_field_order :
  current_clause Scenarios.plain_repr Scenarios.crossed_record Scenarios.crossed_mapping
  = "(Zeta = 1 AND Alpha = 2)" ∧
  predicate_fields Scenarios.crossed_record Scenarios.crossed_mapping = ["Zeta"; "Alpha"] ∧
  ¬ Sorted String.le (predicate_fields Scenarios.crossed_record Scenarios.crossed_mapping).
Proof.
  split; [by vm_compute|]. split; [by vm_compute|].
  replace (predicate_fields _ _) with ["Zeta"; "Alpha"] by (by vm_compute).
  intros Hs. inversion Hs as [|? ? _ Hhd]. inversion Hhd as [|? ? Hle].
  vm_compute in Hle. done.
Qed.

End WhereClausesFacts.

(** ** The upsert engine *)

Module UpsertFacts.
Import Upsert RunFacts.

#[local] Arguments split_quorum_ids : simpl never.

Lemma record_result_returns salesforce_model qid obj t :
  ∃ t' r, record_result salesforce_model qid obj t = (t', Ok r) ∧ quorum_id r = qid.
Proof.
  unfold record_result, try_except, bind, lift, ret, emit, raise, failed.
  repeat (case_match; simpl in *; simplify_eq); eauto.
Qed.

Lemma record_results_returns salesforce_model pairs acc t :
  ∃ t' rs, record_results salesforce_model pairs acc t = (t', Ok rs) ∧
           quorum_id <$> rs = (quorum_id <$> acc) ++ (fst <$> pairs).
Proof.
  revert acc t. induction pairs as [|[qid obj] pairs IH]; intros acc t; simpl.
  - eexists _, _. split; [done|]. by rewrite app_nil_r.
  - unfold bind at 1.
    destruct (record_result_returns salesforce_model qid obj t) as (t1 & r & -> & Hq).
    destruct (IH (acc ++ [r]) t1) as (t2 & rs & -> & Hrs).
    eexists _, _. split; [done|]. rewrite Hrs, fmap_app. simpl. rewrite Hq.
    by rewrite <- app_assoc.
Qed.

Lemma record_result_appends salesforce_model qid obj :
  appends stripped_event (record_result salesforce_model qid obj).
Proof.
  unfold record_result. destruct obj; repeat appends_step.
Qed.

Lemma record_results_appends salesforce_model pairs acc :
  appends stripped_event (record_results salesforce_model pairs acc).
Proof.
  revert acc. induction pairs as [|p pairs IH]; intros acc; simpl.
  - apply appends_ret.
  - apply appends_bind; [apply record_result_appends | intros r; apply IH].
Qed.

Lemma dict_pop_stripped key (d d' : pydict) v :
  dict_pop key d = Ok (v, d') →
  d !! "quorum_side_primary_key" = None → d' !! "quorum_side_primary_key" = None.
Proof.
  unfold dict_pop. destruct (d !! key); intros [= <- <-] Hd.
  rewrite lookup_delete. by case_decide.
Qed.

Lemma split_quorum_ids_ids chunk :
  (split_quorum_ids chunk).1 = dict_get "quorum_side_primary_key" <$> chunk.
Proof. unfold split_quorum_ids. simpl. by rewrite <- list_fmap_compose. Qed.

Lemma split_quorum_ids_length chunk :
  length (split_quorum_ids chunk).1 = length chunk.
Proof. by rewrite split_quorum_ids_ids, length_fmap. Qed.

Lemma split_quorum_ids_records_length chunk :
  length (split_quorum_ids chunk).2 = length chunk.
Proof. unfold split_quorum_ids. simpl. by rewrite !length_fmap. Qed.

Lemma split_quorum_ids_stripped chunk record :
  record ∈ (split_quorum_ids chunk).2 → record !! "quorum_side_primary_key" = None.
Proof.
  unfold split_quorum_ids. simpl. rewrite <- list_fmap_compose.
  intros (r & -> & _)%list_elem_of_fmap. simpl. apply lookup_delete_eq.
Qed.

Lemma fst_zip_take {A B} (l : list A) (k : list B) :
  fst <$> zip l k = take (length k) l.
Proof.
  revert k. induction l as [|x l IH]; intros [|y k]; simpl; try done.
  by rewrite IH.
Qed.

Lemma transmitted_app t1 t2 : transmitted (t1 ++ t2) = transmitted t1 ++ transmitted t2.
Proof. unfold transmitted, calls. by rewrite omap_app, bind_app. Qed.

Lemma stripped_events_transmitted new record :
  Forall stripped_event new → record ∈ transmitted new →
  record !! "quorum_side_primary_key" = None.
Proof.
  induction 1 as [|ev new Hev Hall IH]; [by intros ?%elem_of_nil|].
  change (ev :: new) with ([ev] ++ new). rewrite transmitted_app.
  intros [Hin|Hin]%elem_of_app; [|by apply IH].
  destruct ev as [r| |]; try by apply elem_of_nil in Hin.
  unfold transmitted in Hin. simpl in Hin. rewrite app_nil_r in Hin.
  simpl in Hev. rewrite Forall_forall in Hev. by apply Hev.
Qed.

Section Engine.
Variable w : world.
Variable container_repr : pyval -> string.
Variable type_text : pyval -> string.
Variable chunked_list : list pydict -> nat -> nat -> list (list pydict).

Local Abbreviation _run_upsert_chunk := (_run_upsert_chunk w container_repr type_text).
Local Abbreviation run_upsert_to_sf := (run_upsert_to_sf w container_repr type_text chunked_list).
Local Abbreviation chunks_completed := (chunks_completed w container_repr type_text).

(** The one-at-a-time loop catches every exception of a record. *)
Lemma send_one_returns salesforce_model match_on record outcome t :
  ∃ t' p, send_one w container_repr type_text salesforce_model match_on record outcome t
          = (t', Ok p).
Proof.
  unfold send_one, try_except.
  match goal with |- context [match ?m t with _ => _ end] => destruct (m t) as [t1 [p|e]] end;
    unfold ret; eauto.
Qed.

Lemma send_loop_returns salesforce_model match_on records outcome acc t :
  ∃ t' items,
    send_loop w container_repr type_text salesforce_model match_on records outcome acc t
    = (t', Ok items) ∧ length items = length acc + length records.
Proof.
  revert outcome acc t. induction records as [|record records IH]; intros outcome acc t; simpl.
  - eexists _, _. split; [done | lia].
  - unfold bind at 1.
    destruct (send_one_returns salesforce_model match_on record outcome t)
      as (t1 & [item outcome'] & ->).
    destruct (IH outcome' (acc ++ [item]) t1) as (t2 & items & -> & Hlen).
    eexists _, _. split; [done|]. rewrite Hlen, length_app. simpl. lia.
Qed.

Lemma send_matched_appends salesforce_model match_on sf_id match_value record outcome :
  record !! "quorum_side_primary_key" = None →
  appends stripped_event
    (send_matched w container_repr type_text salesforce_model match_on sf_id match_value
       record outcome).
Proof.
  intros Hrec. unfold send_matched. appends_step.
  - appends_step; repeat appends_step; by repeat constructor.
  - destruct a as [[[]|] created]; repeat appends_step.
Qed.

Lemma send_one_appends salesforce_model match_on record outcome :
  record !! "quorum_side_primary_key" = None →
  appends stripped_event
    (send_one w container_repr type_text salesforce_model match_on record outcome).
Proof.
  intros Hrec. unfold send_one. appends_step; [|repeat appends_step].
  intros t. unfold bind, lift.
  destruct (dict_pop "Id" record) as [[sf_id record1]|e] eqn:Hpop1;
    [|exists []; split; [by rewrite app_nil_r | constructor]].
  pose proof (dict_pop_stripped _ _ _ _ Hpop1 Hrec) as Hrec1.
  destruct (negb (String.eqb match_on "Id")).
  - destruct (dict_pop match_on record1) as [[match_value record2]|e] eqn:Hpop2;
      [|exists []; split; [by rewrite app_nil_r | constructor]].
    pose proof (dict_pop_stripped _ _ _ _ Hpop2 Hrec1) as Hrec2.
    destruct (negb (truthy match_value)).
    + exists []. split; [by rewrite app_nil_r | constructor].
    + by apply send_matched_appends.
  - by apply send_matched_appends.
Qed.

Lemma send_loop_appends salesforce_model match_on records outcome acc :
  Forall (fun record => record !! "quorum_side_primary_key" = None) records →
  appends stripped_event
    (send_loop w container_repr type_text salesforce_model match_on records outcome acc).
Proof.
  intros Hall. revert outcome acc.
  induction Hall as [|record records Hrec Hall IH]; intros outcome acc; simpl.
  - appends_step.
  - appends_step; [by apply send_one_appends|]. destruct a. apply IH.
Qed.

(** Whatever [_run_upsert_chunk] sends to Salesforce lacks the bookkeeping
    key. *)
Lemma run_upsert_chunk_appends salesforce_model chunk match_on :
  appends stripped_event (_run_upsert_chunk salesforce_model chunk match_on).
Proof.
  assert (Forall (fun record => record !! "quorum_side_primary_key" = None)
            (split_quorum_ids chunk).2) as Hall.
  { apply Forall_forall. intros record. apply split_quorum_ids_stripped. }
  unfold Upsert._run_upsert_chunk. appends_step; [|appends_step].
  - appends_step.
    + unfold _send_records_one_at_a_time. by apply send_loop_appends.
    + unfold _upsert_bulk_wrapper. by appends_step.
  - repeat appends_step.
  - apply record_results_appends.
Qed.

Lemma silent_transmitted (new : trace) :
  Forall (fun ev => ∀ r, ev ≠ Called r) new → transmitted new = [].
Proof.
  induction 1 as [|ev new Hev Hall IH]; [done|].
  change (ev :: new) with ([ev] ++ new). rewrite transmitted_app, IH, app_nil_r.
  destruct ev as [r| |]; [by destruct (Hev r) | done | done].
Qed.

Lemma record_result_silent salesforce_model qid obj :
  appends (fun ev => ∀ r, ev ≠ Called r) (record_result salesforce_model qid obj).
Proof. unfold record_result. destruct obj; repeat appends_step. Qed.

Lemma record_results_silent salesforce_model pairs acc :
  appends (fun ev => ∀ r, ev ≠ Called r) (record_results salesforce_model pairs acc).
Proof.
  revert acc. induction pairs as [|p pairs IH]; intros acc; simpl.
  - apply appends_ret.
  - apply appends_bind; [apply record_result_silent | intros r; apply IH].
Qed.

Lemma split_quorum_ids_records chunk :
  (split_quorum_ids chunk).2 = delete "quorum_side_primary_key" <$> chunk.
Proof. unfold split_quorum_ids. simpl. by rewrite <- list_fmap_compose. Qed.

Lemma transmitted_call (r : request) : transmitted [Called r] = request_records r.
Proof. unfold transmitted. simpl. apply app_nil_r. Qed.

(** What one record sent by hand carries to Salesforce. *)
Lemma send_matched_transmits salesforce_model match_on sf_id match_value record outcome t :
  ∃ new,
    (send_matched w container_repr type_text salesforce_model match_on sf_id match_value
       record outcome t).1 = t ++ new ∧
    transmitted new = [record].
Proof.
  unfold send_matched. unfold bind at 1.
  destruct (truthy match_value).
  - exists [Called (Update salesforce_model
                      (match_on +:+ "/" +:+ unicode container_repr match_value) record)].
    split; [|apply transmitted_call].
    unfold bind at 1. unfold call at 1.
    destruct (sf_update w t _ _ _) as [code|e]; [|done].
    unfold ret at 1. repeat case_match; reflexivity.
  - exists [Called (ContentNoteCreate record)]. split; [|apply transmitted_call].
    unfold bind at 1. unfold call at 1.
    destruct (content_note_create w t _) as [o|e]; [|done].
    unfold ret at 1. repeat case_match; reflexivity.
Qed.

Lemma send_one_transmits salesforce_model record outcome t :
  ∃ new,
    (send_one w container_repr type_text salesforce_model "Id" record outcome t).1 = t ++ new ∧
    transmitted new = match record !! "Id" with
                      | Some _ => [delete "Id" record]
                      | None => []
                      end.
Proof.
  unfold send_one, try_except. unfold bind at 1. unfold lift at 1. unfold dict_pop.
  destruct (record !! "Id") as [sf_id|].
  - cbn [negb String.eqb Ascii.eqb Bool.eqb].
    destruct (send_matched_transmits salesforce_model "Id" sf_id sf_id (delete "Id" record)
                outcome t) as (new & Hnew & Hsent).
    destruct (send_matched _ _ _ _ _ _ _ _ _ _) as [t1 [p|e]]; simpl in Hnew; subst t1;
      exists new; by split.
  - exists []. by rewrite app_nil_r.
Qed.

Lemma send_loop_transmits salesforce_model records outcome acc t :
  ∃ new,
    (send_loop w container_repr type_text salesforce_model "Id" records outcome acc t).1
    = t ++ new ∧
    transmitted new = delete "Id" <$> filter (fun record => is_Some (record !! "Id")) records.
Proof.
  revert outcome acc t. induction records as [|record records IH]; intros outcome acc t; simpl.
  - exists []. by rewrite app_nil_r.
  - unfold bind.
    destruct (send_one_transmits salesforce_model record outcome t) as (new1 & Hnew1 & Hsent1).
    destruct (send_one_returns salesforce_model "Id" record outcome t) as (t1 & [item o] & Hone).
    rewrite Hone in Hnew1 |- *. simpl in Hnew1. subst t1.
    destruct (IH o (acc ++ [item]) (t ++ new1)) as (new2 & Hnew2 & Hsent2).
    exists (new1 ++ new2). split; [by rewrite Hnew2, app_assoc|].
    rewrite transmitted_app, Hsent1, Hsent2, filter_cons.
    destruct (record !! "Id") as [sf_id|] eqn:Hid.
    + by rewrite decide_True by eauto.
    + rewrite decide_False; [done|]. by intros [? ?].
Qed.

(** What [_run_upsert_chunk] carries to Salesforce: by the bulk call, every
    record of the chunk without its bookkeeping key, in the order of the
    chunk; for a [ContentNote] matched on [Id], every record that has an
    [Id], without the key and without the [Id]. *)
Lemma run_upsert_chunk_transmits salesforce_model chunk match_on t :
  ∃ new r,
    _run_upsert_chunk salesforce_model chunk match_on t = (t ++ new, r) ∧
    Forall stripped_event new ∧
    (salesforce_model ≠ "ContentNote" →
     transmitted new = delete "quorum_side_primary_key" <$> chunk) ∧
    (salesforce_model = "ContentNote" → match_on = "Id" →
     transmitted new
     = delete "Id" <$> filter (fun record => is_Some (record !! "Id"))
                         (delete "quorum_side_primary_key" <$> chunk)).
Proof.
  destruct (run_upsert_chunk_appends salesforce_model chunk match_on t) as (new & Hnew & Hall).
  destruct (_run_upsert_chunk salesforce_model chunk match_on t) as [t' r] eqn:Hrun.
  simpl in Hnew. subst t'. exists new, r. split; [done|]. split; [done|].
  revert Hrun. unfold Upsert._run_upsert_chunk. rewrite split_quorum_ids_records.
  set (stripped := delete "quorum_side_primary_key" <$> chunk).
  unfold bind at 1.
  assert (∀ (upsert_result_list : list pyval) t1 sent,
            transmitted sent = transmitted sent →
            ∃ rest,
              ((let* _ :=
                  (if negb (length (split_quorum_ids chunk).1 =? length upsert_result_list)
                   then emit (LogError (CountMismatch (length upsert_result_list)
                                          salesforce_model (length (split_quorum_ids chunk).1)))
                   else ret tt) in
                record_results salesforce_model
                  (zip (split_quorum_ids chunk).1 upsert_result_list) [])%py (t1 ++ sent)).1
              = (t1 ++ sent) ++ rest ∧ transmitted rest = []) as Hrest.
  { intros results t1 sent _.
    assert (appends (fun ev => ∀ r, ev ≠ Called r)
              (let* _ :=
                 (if negb (length (split_quorum_ids chunk).1 =? length results)
                  then emit (LogError (CountMismatch (length results) salesforce_model
                                         (length (split_quorum_ids chunk).1)))
                  else ret tt) in
               record_results salesforce_model (zip (split_quorum_ids chunk).1 results) [])%py)
      as Happ.
    { appends_step; [repeat appends_step | apply record_results_silent]. }
    destruct (Happ (t1 ++ sent)) as (rest & Hrest & Hsilent).
    exists rest. split; [done|]. by apply silent_transmitted. }
  destruct (String.eqb_spec salesforce_model "ContentNote") as [Hmodel|Hmodel].
  - unfold _send_records_one_at_a_time. intros Hrun. split; [done|]. intros _ ->.
    destruct (send_loop_transmits salesforce_model stripped None [] t) as (sent & Hsent & Hrecs).
    destruct (send_loop _ _ _ _ _ _ _ _ t) as [t1 [results|e]]; simpl in Hsent; subst t1.
    + destruct (Hrest results t sent eq_refl) as (rest & Heq & Hsilent).
      rewrite Hrun in Heq. simpl in Heq. rewrite <- app_assoc in Heq.
      apply app_inv_head in Heq as ->. by rewrite transmitted_app, Hsilent, app_nil_r.
    + injection Hrun as Heq _. by apply app_inv_head in Heq as ->.
  - unfold _upsert_bulk_wrapper, call. intros Hrun. split; [|done]. intros _.
    destruct (bulk_upsert w t salesforce_model stripped match_on) as [results|e].
    + destruct (Hrest results t [Called (BulkUpsert salesforce_model stripped match_on)] eq_refl)
        as (rest & Heq & Hsilent).
      rewrite Hrun in Heq. simpl in Heq. rewrite <- app_assoc in Heq.
      apply app_inv_head in Heq as ->. rewrite transmitted_app, Hsilent, app_nil_r.
      apply transmitted_call.
    + injection Hrun as Heq _. apply app_inv_head in Heq as <-. apply transmitted_call.
Qed.

Lemma run_upsert_chunk_bulk_raises salesforce_model chunk match_on t e :
  salesforce_model ≠ "ContentNote" →
  bulk_upsert w t salesforce_model (split_quorum_ids chunk).2 match_on = Raise e →
  _run_upsert_chunk salesforce_model chunk match_on t
  = (t ++ [Called (BulkUpsert salesforce_model (split_quorum_ids chunk).2 match_on)], Raise e).
Proof.
  intros Hmodel Hbulk. unfold Upsert._run_upsert_chunk.
  apply String.eqb_neq in Hmodel. rewrite Hmodel.
  unfold bind at 1. unfold _upsert_bulk_wrapper, call. by rewrite Hbulk.
Qed.

(** C2, as the code has it: [_run_upsert_chunk] pairs the ids with the
    answers by [zip], so it returns one outcome for each of the first
    [min(records, answers)] records, outcome [i] carrying the id of record
    [i]; an answer list of a different length is logged as an error.  The
    one-at-a-time path always answers once per record. *)
Theorem upsert_chunk_outcomes_zip (salesforce_model : string) (chunk : list pydict)
    (match_on : string) (t : trace) :
  let ids := dict_get "quorum_side_primary_key" <$> chunk in
  (salesforce_model = "ContentNote" →
   ∃ t' rs, _run_upsert_chunk salesforce_model chunk match_on t = (t', Ok rs) ∧
            quorum_id <$> rs = ids) ∧
  (salesforce_model ≠ "ContentNote" →
   ∀ items, bulk_upsert w t salesforce_model (split_quorum_ids chunk).2 match_on = Ok items →
   ∃ t' rs, _run_upsert_chunk salesforce_model chunk match_on t = (t', Ok rs) ∧
            quorum_id <$> rs = take (length items) ids ∧
            length rs = min (length chunk) (length items) ∧
            (length items ≠ length chunk →
             LogError (CountMismatch (length items) salesforce_model (length chunk)) ∈ t')).
Proof.
  intros ids.
  pose proof (split_quorum_ids_ids chunk) as Hids.
  pose proof (split_quorum_ids_length chunk) as Hlen1.
  pose proof (split_quorum_ids_records_length chunk) as Hlen2.
  fold ids in Hids. unfold Upsert._run_upsert_chunk.
  destruct (split_quorum_ids chunk) as [quorum_id_list stripped]. simpl in Hids, Hlen1, Hlen2.
  cbn [fst snd]. split.
  - intros ->. cbn [String.eqb Ascii.eqb Bool.eqb].
    unfold bind at 1. unfold _send_records_one_at_a_time.
    destruct (send_loop_returns "ContentNote" match_on stripped None [] t)
      as (t1 & items & -> & Hlen).
    simpl in Hlen.
    unfold bind at 1. rewrite Hlen1, Hlen, Hlen2, Nat.eqb_refl. cbn [negb]. unfold ret at 1.
    destruct (record_results_returns "ContentNote" (zip quorum_id_list items) [] t1)
      as (t2 & rs & -> & Hrs).
    eexists _, _. split; [done|]. rewrite Hrs. simpl.
    rewrite fst_zip; [done | lia].
  - intros Hmodel items Hbulk.
    apply String.eqb_neq in Hmodel. rewrite Hmodel.
    unfold bind at 1. unfold _upsert_bulk_wrapper, call. rewrite Hbulk.
    unfold bind at 1. rewrite Hlen1.
    set (t1 := t ++ [Called (BulkUpsert salesforce_model stripped match_on)]).
    match goal with
    | |- context [match ?m t1 with _ => _ end] =>
        assert (∃ t2, m t1 = (t2, Ok tt) ∧
                  (length items ≠ length chunk →
                   LogError (CountMismatch (length items) salesforce_model (length chunk)) ∈ t2))
          as (t2 & -> & Hlog)
    end.
    { destruct (length chunk =? length items) eqn:Heq; simpl.
      - apply Nat.eqb_eq in Heq. exists t1. split; [done | intros; lia].
      - eexists. split; [done|]. intros _. apply elem_of_app. right. by left. }
    destruct (record_results_returns salesforce_model (zip quorum_id_list items) [] t2)
      as (t3 & rs & Hrun & Hrs).
    rewrite Hrun. eexists _, _. split; [done|].
    simpl in Hrs. rewrite fst_zip_take, Hids in Hrs.
    split; [done|]. split.
    + rewrite <- (length_fmap quorum_id), Hrs, length_take. unfold ids.
      rewrite length_fmap. lia.
    + intros Hne. destruct (record_results_appends salesforce_model
                              (zip quorum_id_list items) [] t2) as (new & Ht3 & _).
      rewrite Hrun in Ht3. simpl in Ht3. subst t3. apply elem_of_app. left. by apply Hlog.
Qed.

Lemma upsert_loop_completed salesforce_model match_on done rest acc t0 rs t1 :
  chunks_completed salesforce_model match_on done t0 rs t1 →
  upsert_loop w container_repr type_text salesforce_model match_on (done ++ rest) acc t0
  = upsert_loop w container_repr type_text salesforce_model match_on rest (acc ++ rs) t1.
Proof.
  intros Hc. revert acc.
  induction Hc as [t|chunk done' t t1 t2 rs rs' Hrun Hc IH]; intros acc; simpl.
  - by rewrite app_nil_r.
  - rewrite Hrun, IH. by rewrite app_assoc.
Qed.

(** C1, as the code has it: when the bulk call of a chunk raises a malformed
    request or a connection error, after the chunks before it were processed,
    [run_upsert_to_sf] makes no further call and returns [False] with exactly
    the outcomes of those chunks; when every chunk is processed it returns
    [True] with all the outcomes. *)
Theorem bulk_fault_stops_run (salesforce_model : string) (external_list : list pydict)
    (max_batch_size : nat) (match_on : option string) (t0 : trace) :
  max_batch_size ≠ 0 →
  let chunks := chunked_list external_list max_batch_size (length external_list) in
  let match_field := effective_match_on match_on in
  (∀ done chunk rest rs t1 e,
     chunks = done ++ chunk :: rest →
     chunks_completed salesforce_model match_field done t0 rs t1 →
     salesforce_model ≠ "ContentNote" →
     bulk_upsert w t1 salesforce_model (split_quorum_ids chunk).2 match_field = Raise e →
     is_transport_fault e = true →
     run_upsert_to_sf salesforce_model external_list max_batch_size match_on t0
     = (t1 ++ [Called (BulkUpsert salesforce_model (split_quorum_ids chunk).2 match_field);
               NotifyProfSvcs (CouldNotUpsert salesforce_model e);
               LogError (CouldNotUpsert salesforce_model e)],
        Ok (false, rs))) ∧
  (∀ rs t1,
     chunks_completed salesforce_model match_field chunks t0 rs t1 →
     run_upsert_to_sf salesforce_model external_list max_batch_size match_on t0
     = (t1, Ok (true, rs))).
Proof.
  intros Hmax chunks match_field.
  apply Nat.eqb_neq in Hmax. split.
  - intros done chunk rest rs t1 e Hchunks Hdone Hmodel Hbulk Hfault.
    unfold Upsert.run_upsert_to_sf. rewrite Hmax.
    fold chunks match_field. rewrite Hchunks.
    rewrite (upsert_loop_completed _ _ _ _ _ _ _ _ Hdone). simpl.
    rewrite (run_upsert_chunk_bulk_raises _ _ _ _ _ Hmodel Hbulk), Hfault.
    by rewrite <- app_assoc.
  - intros rs t1 Hall.
    unfold Upsert.run_upsert_to_sf. rewrite Hmax.
    fold chunks match_field.
    rewrite <- (app_nil_r chunks).
    by rewrite (upsert_loop_completed _ _ _ _ _ _ _ _ Hall).
Qed.

End Engine.

End UpsertFacts.

(** ** The upsert engine on the scenarios *)

Module UpsertScenarios.
Import Upsert Scenarios.

Lemma bulk_fault_stops_run_witness :
  run_upsert_to_sf second_call_fails plain_repr plain_repr chunked_list_spec "Contact"
    [contact 1; contact 2; contact 3] 2 None []
  = ([Called (BulkUpsert "Contact" [stripped_contact; stripped_contact] "Id")]
     ++ [Called (BulkUpsert "Contact" (split_quorum_ids [contact 3]).2 "Id");
         NotifyProfSvcs (CouldNotUpsert "Contact" ConnectionError);
         LogError (CouldNotUpsert "Contact" ConnectionError)],
     Ok (false, [mk_outcome true (VInt 1) (VStr "001"); mk_outcome true (VInt 2) (VStr "001")]
                ++ [])).
Proof.
  apply (proj1 (UpsertFacts.bulk_fault_stops_run second_call_fails plain_repr plain_repr
                  chunked_list_spec "Contact" [contact 1; contact 2; contact 3] 2 None []
                  ltac:(lia))
           [[contact 1; contact 2]] [contact 3] []).
  - reflexivity.
  - eapply completed_cons; [by vm_compute | apply completed_nil].
  - discriminate.
  - by vm_compute.
  - reflexivity.
Defined.

(** C1 as stated fails twice.  For a ContentNote the connection error of a
    record is caught inside the chunk: the run goes on and returns [True].
    And an exception the [except] clause does not name leaves the function:
    no transport fault of the two kinds occurred, yet nothing is returned. *)
Lemma fault_not_always_stopping :
  sf_update unreachable_update [] "ContentNote" "Id/069" ∅ = Raise ConnectionError ∧
  run_upsert_to_sf unreachable_update plain_repr plain_repr chunked_list_spec "ContentNote"
    [content_note] 10 None []
  = ([Called (Update "ContentNote" "Id/069" ∅);
      LogError (UnableToUpsert "ContentNote" (VInt 7) (VStr "None") (VExn "ConnectionError"))],
     Ok (true, [failed (VInt 7)])) ∧
  run_upsert_to_sf refusing plain_repr plain_repr chunked_list_spec "Contact"
    [contact 1] 10 None []
  = ([Called (BulkUpsert "Contact" [stripped_contact] "Id")],
     Raise (SalesforceRefusedRequest (Some "INVALID_SESSION_ID"))).
Proof. split; [done|]. split; by vm_compute. Qed.

Lemma upsert_chunk_outcomes_zip_witness :
  (∃ t' rs,
     _run_upsert_chunk quiet plain_repr plain_repr "ContentNote" [content_note] "Id" []
     = (t', Ok rs) ∧
     quorum_id <$> rs = dict_get "quorum_side_primary_key" <$> [content_note]) ∧
  (∃ t' rs,
     _run_upsert_chunk accepting plain_repr plain_repr "Contact" [contact 1; contact 2] "Id" []
     = (t', Ok rs) ∧
     quorum_id <$> rs
     = take (length [accepted; accepted])
         (dict_get "quorum_side_primary_key" <$> [contact 1; contact 2]) ∧
     length rs = min (length [contact 1; contact 2]) (length [accepted; accepted]) ∧
     (length [accepted; accepted] ≠ length [contact 1; contact 2] →
      LogError (CountMismatch (length [accepted; accepted]) "Contact"
                  (length [contact 1; contact 2])) ∈ t')).
Proof.
  split.
  - by apply (proj1 (UpsertFacts.upsert_chunk_outcomes_zip quiet plain_repr plain_repr
                       "ContentNote" [content_note] "Id" [])).
  - apply (proj2 (UpsertFacts.upsert_chunk_outcomes_zip accepting plain_repr plain_repr
                    "Contact" [contact 1; contact 2] "Id" [])).
    + discriminate.
    + by vm_compute.
Defined.

(** C2 as stated fails: Salesforce answers a chunk of one record with an
    empty list, the mismatch is logged, and no outcome is returned. *)
Lemma short_answer_loses_outcomes :
  bulk_upsert short_answer [] "Contact" [stripped_contact] "Id" = Ok [] ∧
  _run_upsert_chunk short_answer plain_repr plain_repr "Contact" [contact 1] "Id" []
  = ([Called (BulkUpsert "Contact" [stripped_contact] "Id");
      LogError (CountMismatch 0 "Contact" 1)],
     Ok []).
Proof. split; [done|]. by vm_compute. Qed.

End UpsertScenarios.

(** ** The normalizer *)

Module NormalizerFacts.
Import Normalizer RunFacts.

Section WithRepr.
Variable container_repr : pyval -> string.
Variable field_definitions : gmap string field_definition.
Variable salesforce_model : string.

Local Abbreviation normalize_field := (normalize_field container_repr field_definitions salesforce_model).
Local Abbreviation normalize_fields := (normalize_fields container_repr field_definitions salesforce_model).
Local Abbreviation check_field := (check_field container_repr).
Local Abbreviation wrong_length := (wrong_length container_repr).
Local Abbreviation fatal_field := (fatal_field container_repr field_definitions).

Lemma unique_raises series e : unique series = Raise e → e = TypeError.
Proof. unfold unique. case_match; congruence. Qed.

Lemma unique_ok series values :
  unique series = Ok values → values = first_occurrences series ∧ forallb hashable series = true.
Proof. unfold unique. case_match; [|done]. by intros [= <-]. Qed.

Lemma unique_unhashable series e :
  unique series = Raise e → e = TypeError ∧ ∃ v, v ∈ series ∧ hashable v = false.
Proof.
  unfold unique. destruct (forallb hashable series) eqn:Hall; [done|]. intros [= <-].
  split; [done|]. induction series as [|u series IH]; [done|]. simpl in Hall.
  destruct (hashable u) eqn:Hu.
  - destruct (IH Hall) as (v & Hv & Hh). exists v. split; [by right | done].
  - exists u. split; [by left | done].
Qed.

Lemma masked_ok df selected rows :
  masked df selected = Ok rows → rows = selected ∧ no_rows df = false.
Proof. unfold masked. destruct (no_rows df); [done|]. by intros [= <-]. Qed.

Lemma masked_raises df selected e :
  masked df selected = Raise e → e = KeyError ∧ no_rows df = true.
Proof. unfold masked. destruct (no_rows df); [|done]. by intros [= <-]. Qed.

Lemma nonempty_true {A} (l : list A) : nonempty l = true ↔ l ≠ [].
Proof. by destruct l. Qed.

(** Every hashable value of a series is represented among its first
    occurrences. *)
Lemma first_occurrences_represent series v :
  v ∈ series → ∃ v', v' ∈ first_occurrences series ∧ key_of v' = key_of v.
Proof.
  induction series as [|u series IH]; [by intros ?%elem_of_nil|].
  intros [->|Hin]%elem_of_cons; simpl.
  - exists u. split; [by left | done].
  - destruct (IH Hin) as (v' & Hv' & Hkey).
    destruct (decide (key_of v' = key_of u)) as [Heq|Hne].
    + exists u. split; [by left | congruence].
    + exists v'. split; [|done]. right. by apply list_elem_of_filter.
Qed.

Lemma wrong_length_truthy v : wrong_length v = true → truthy v = true.
Proof. unfold Normalizer.wrong_length. by destruct (truthy v). Qed.

Lemma truthy_not_empty v : truthy v = true → empty_to_none v = v.
Proof.
  unfold empty_to_none. destruct v; simpl; try done.
  - destruct s; [done|]. done.
  - destruct l; done.
  - intros H. destruct (size d) eqn:Hs; [done|]. done.
Qed.

Lemma truthy_empty_to_none v : truthy (empty_to_none v) = truthy v.
Proof.
  destruct (truthy v) eqn:Ht; [by rewrite truthy_not_empty|].
  unfold empty_to_none. destruct (py_len v) as [[|n]|]; done.
Qed.

Lemma wrong_length_empty_to_none v : wrong_length (empty_to_none v) = wrong_length v.
Proof.
  destruct (truthy v) eqn:Ht; [by rewrite truthy_not_empty|].
  unfold Normalizer.wrong_length. by rewrite truthy_empty_to_none, Ht.
Qed.

Lemma nonempty_first_occurrences_filter (P : pyval → bool) series :
  nonempty (first_occurrences (filter (fun v => P v = true) series)) = existsb P series.
Proof.
  induction series as [|v series IH]; [done|].
  rewrite filter_cons. destruct (decide (P v = true)) as [HP|HP]; simpl.
  - by rewrite HP.
  - apply not_true_is_false in HP. by rewrite HP.
Qed.

(** What [check_field] does to the state besides raising. *)
Lemma check_field_spec f fd st st' :
  check_field f fd st = Ok st' →
  columns (dataframe st') = columns (dataframe st) ∧
  (∀ g, g ≠ f → cells (dataframe st') !! g = cells (dataframe st) !! g) ∧
  (∃ new, error_messages st' = error_messages st ++ new ∧
          (String.eqb (fd_Type fd) "id" && existsb wrong_length (column (dataframe st) f) = true
           → new ≠ [])) ∧
  error_fatal st'
  = error_fatal st
    || (String.eqb (fd_Type fd) "id" && existsb wrong_length (column (dataframe st) f)).
Proof.
  unfold Normalizer.check_field. intros H.
  destruct (String.eqb_spec (fd_Type fd) "id") as [Hid|Hid].
  - rewrite Hid in H. vm_compute bool_decide in H. cbn [String.eqb Ascii.eqb Bool.eqb] in H.
    destruct (masked _ _) as [selected|e] eqn:Hm; [|done]. apply masked_ok in Hm as [-> _].
    destruct (unique _) as [wrong|e] eqn:Hu; [|done]. injection H as <-.
    apply unique_ok in Hu as [-> _].
    rewrite nonempty_first_occurrences_filter.
    destruct (existsb wrong_length (column (dataframe st) f)); simpl;
      (repeat split; [intros g Hg; by rewrite lookup_insert_ne| |by rewrite ?orb_true_r, ?orb_false_r]).
    + eexists. split; [done|]. by intros _.
    + exists []. split; [by rewrite app_nil_r | done].
  - cbn [andb]. rewrite orb_false_r.
    assert (∀ c (s : norm_state) e,
              columns (dataframe (add_error_if c s e)) = columns (dataframe s) ∧
              cells (dataframe (add_error_if c s e)) = cells (dataframe s) ∧
              (∃ new, error_messages (add_error_if c s e) = error_messages s ++ new) ∧
              error_fatal (add_error_if c s e) = error_fatal s) as Hadd.
    { intros [] s e; simpl; repeat split; eauto. exists []. by rewrite app_nil_r. }
    repeat case_match; simplify_eq; simpl;
      repeat match goal with
      | |- context [add_error_if ?c ?s ?e] =>
          let Hc := fresh in let Hd := fresh in let Hm := fresh in let Hf := fresh in
          let new := fresh "new" in
          destruct (Hadd c s e) as (Hc & Hd & [new Hm] & Hf);
          rewrite ?Hc, ?Hd, ?Hm, ?Hf; clear Hc Hd Hf;
          generalize dependent (add_error_if c s e); intros
      end;
      (split; [done|split; [|split]];
       [try done; intros g Hg; by rewrite ?lookup_insert_ne
       |try (eexists; split; [by rewrite <- ?app_assoc | done])
       |try done]).
    all: try (exists []; split; [by rewrite app_nil_r | done]).
Qed.

Lemma add_error_if_dataframe cond st e : dataframe (add_error_if cond st e) = dataframe st.
Proof. by destruct cond. Qed.

Lemma check_picklist_values_unhashable picklist v :
  hashable (_check_picklist_values container_repr picklist v) = false → hashable v = false.
Proof.
  unfold _check_picklist_values. destruct (isna v); [done|].
  destruct v as [| | | |[|c s']| | | |]; try done; by destruct (in_picklist _ _).
Qed.

(** The two exceptions of [check_field]: [TypeError] for a cell of the
    column that cannot be hashed, [KeyError] for a mask on a frame without
    rows. *)
Lemma check_field_raises f fd st e :
  check_field f fd st = Raise e →
  (e = TypeError ∧ ∃ v, v ∈ column (dataframe st) f ∧ hashable v = false) ∨
  (e = KeyError ∧ no_rows (dataframe st) = true).
Proof.
  unfold Normalizer.check_field. intros H.
  repeat case_match; simplify_eq;
    repeat match goal with
           | Hm : masked _ _ = Ok _ |- _ => apply masked_ok in Hm as [-> _]
           | Hm : masked _ _ = Raise _ |- _ => apply masked_raises in Hm as [-> Hm]
           | Hu : unique _ = Raise _ |- _ => apply unique_unhashable in Hu as [-> (v & Hv & Hh)]
           end;
    rewrite ?add_error_if_dataframe in *;
    try (by right);
    left; (split; [done|]);
    first [ apply list_elem_of_filter in Hv as [_ Hv]; by exists v
          | apply list_elem_of_fmap in Hv as (u & -> & Hu);
            exists u; split; [done|]; by eapply check_picklist_values_unhashable ].
Qed.

Lemma column_set_column df f series : column (set_column df f series) f = series.
Proof. unfold column, set_column. simpl. by rewrite lookup_insert_eq. Qed.

Lemma existsb_fmap {A B} (p : B → bool) (g : A → B) (l : list A) :
  existsb p (g <$> l) = existsb (fun x => p (g x)) l.
Proof. induction l as [|x l IH]; [done|]. rewrite fmap_cons. simpl. by rewrite IH. Qed.

Lemma existsb_agree {A} (p q : A → bool) (l : list A) :
  (∀ x, x ∈ l → p x = q x) → existsb p l = existsb q l.
Proof.
  induction l as [|x l IH]; intros H; simpl; [done|].
  rewrite (H x) by (by left). rewrite IH; [done|]. intros y Hy. apply H. by right.
Qed.

Lemma fatal_field_agree df1 df2 g :
  cells df1 !! g = cells df2 !! g → fatal_field df1 g = fatal_field df2 g.
Proof. intros H. unfold Normalizer.fatal_field, column. by rewrite H. Qed.

(** One pass of the column loop that does not raise. *)
Lemma normalize_field_ok f st t t' st' :
  normalize_field f st t = (t', Ok st') →
  t' = t ∧
  columns (dataframe st') = columns (dataframe st) ∧
  (∀ g, g ≠ f → cells (dataframe st') !! g = cells (dataframe st) !! g) ∧
  (∃ new, error_messages st' = error_messages st ++ new ∧
          (fatal_field (dataframe st) f = true → new ≠ [])) ∧
  error_fatal st' = error_fatal st || fatal_field (dataframe st) f.
Proof.
  unfold Normalizer.normalize_field, Normalizer.fatal_field.
  destruct (field_definitions !! f) as [fd|] eqn:Hfd.
  - set (st0 := if negb (String.eqb (fd_Type fd) "bool") then _ else st).
    destruct (existsb is_list (dropna (column (dataframe st0) f))).
    { unfold bind, emit, raise. done. }
    unfold lift. intros [= <- Hcheck].
    apply check_field_spec in Hcheck as (Hcols & Hcells & Hmsgs & Hfatal).
    assert (columns (dataframe st0) = columns (dataframe st) ∧
            (∀ g, g ≠ f → cells (dataframe st0) !! g = cells (dataframe st) !! g) ∧
            error_messages st0 = error_messages st ∧
            error_fatal st0 = error_fatal st ∧
            (String.eqb (fd_Type fd) "id" = true →
             column (dataframe st0) f = empty_to_none <$> column (dataframe st) f))
      as (Hcols0 & Hcells0 & Hmsgs0 & Hfatal0 & Hcol0).
    { subst st0. destruct (String.eqb_spec (fd_Type fd) "bool") as [Hb|Hb]; simpl.
      - repeat split; try done. rewrite Hb. done.
      - repeat split; try done.
        + intros g Hg. by rewrite lookup_insert_ne.
        + intros _. unfold column. simpl. by rewrite lookup_insert_eq. }
    assert (String.eqb (fd_Type fd) "id" && existsb wrong_length (column (dataframe st0) f)
            = String.eqb (fd_Type fd) "id" && existsb wrong_length (column (dataframe st) f))
      as Hsame.
    { destruct (String.eqb (fd_Type fd) "id") eqn:Hid; [|done]. simpl.
      rewrite Hcol0 by done. rewrite existsb_fmap.
      apply existsb_agree. intros v _. apply wrong_length_empty_to_none. }
    rewrite Hsame in Hmsgs, Hfatal.
    split; [done|]. split; [congruence|]. split.
    { intros g Hg. rewrite Hcells by done. by apply Hcells0. }
    split; [by rewrite <- Hmsgs0 | by rewrite <- Hfatal0].
  - destruct (String.eqb_spec f "quorum_side_primary_key") as [Hk|Hk]; unfold ret;
      intros [= <- <-]; simpl.
    + repeat split; try done; [|by rewrite orb_false_r].
      exists []. by rewrite app_nil_r.
    + repeat split; try done; [|by rewrite orb_true_r].
      eexists. split; [done|]. by intros _.
Qed.

Lemma column_set_column_ne df f g series : g ≠ f → column (set_column df f series) g = column df g.
Proof. intros Hg. unfold column, set_column. simpl. by rewrite lookup_insert_ne. Qed.

Lemma length_column_set_column df f g series :
  length series = length (column df f) →
  length (column (set_column df f series) g) = length (column df g).
Proof.
  intros Hlen. destruct (decide (g = f)) as [->|Hg].
  - by rewrite column_set_column.
  - by rewrite column_set_column_ne.
Qed.

Lemma check_field_shape f fd st st' :
  check_field f fd st = Ok st' →
  ∀ g, length (column (dataframe st') g) = length (column (dataframe st) g).
Proof.
  unfold Normalizer.check_field. intros H g.
  repeat case_match; simplify_eq; simpl;
    rewrite ?add_error_if_dataframe; try done;
    apply length_column_set_column; by rewrite ?add_error_if_dataframe, length_fmap.
Qed.

Lemma normalize_field_shape f st t t' st' :
  normalize_field f st t = (t', Ok st') →
  columns (dataframe st') = columns (dataframe st) ∧
  ∀ g, length (column (dataframe st') g) = length (column (dataframe st) g).
Proof.
  intros H. split.
  { by apply normalize_field_ok in H as (_ & ? & _). }
  revert H. unfold Normalizer.normalize_field.
  destruct (field_definitions !! f) as [fd|].
  - match goal with |- context [existsb is_list ?l] => destruct (existsb is_list l) end.
    { unfold bind, emit, raise. done. }
    unfold lift. intros [= _ Hcheck] g.
    rewrite (check_field_shape _ _ _ _ Hcheck g).
    destruct (negb (String.eqb (fd_Type fd) "bool")); [|done].
    simpl. apply length_column_set_column. by rewrite length_fmap.
  - destruct (String.eqb f "quorum_side_primary_key"); unfold ret; by intros [= _ <-].
Qed.

Lemma normalize_fields_shape names st t t' st' :
  normalize_fields names st t = (t', Ok st') →
  columns (dataframe st') = columns (dataframe st) ∧
  ∀ g, length (column (dataframe st') g) = length (column (dataframe st) g).
Proof.
  revert st t. induction names as [|f names IH]; intros st t; simpl.
  - unfold ret. by intros [= _ <-].
  - unfold bind. destruct (normalize_field f st t) as [t1 [st1|e]] eqn:Hstep; [|done].
    intros Hrest. apply normalize_field_shape in Hstep as [Hc1 Hl1].
    apply IH in Hrest as [Hc Hl]. split; [congruence|]. intros g. by rewrite Hl, Hl1.
Qed.

Lemma no_rows_shape df df' :
  columns df' = columns df →
  (∀ g, length (column df' g) = length (column df g)) →
  no_rows df' = no_rows df.
Proof.
  intros Hc Hl. unfold no_rows. rewrite Hc. clear Hc.
  induction (columns df) as [|g names IH]; [done|]. simpl. rewrite IH.
  specialize (Hl g). revert Hl. by destruct (column df' g), (column df g).
Qed.

Lemma no_rows_column df g v : g ∈ columns df → v ∈ column df g → no_rows df = false.
Proof.
  intros Hg Hv. unfold no_rows. apply not_true_is_false. intros Hall.
  rewrite forallb_forall in Hall. specialize (Hall g (proj1 (list_elem_of_In _ _) Hg)).
  destruct (column df g); [by apply elem_of_nil in Hv | done].
Qed.

Lemma empty_to_none_unhashable v : hashable (empty_to_none v) = false → hashable v = false.
Proof. unfold empty_to_none. by destruct (py_len v) as [[|n]|]. Qed.

(** The two exceptions of a pass of the column loop: [TypeError] for a cell
    of the column that is a list or cannot be hashed, [KeyError] for a mask
    on a frame without rows. *)
Lemma normalize_field_raises f st t t' e :
  normalize_field f st t = (t', Raise e) →
  (e = TypeError ∧ ∃ v, v ∈ column (dataframe st) f ∧ hashable v = false) ∨
  (e = KeyError ∧ no_rows (dataframe st) = true).
Proof.
  unfold Normalizer.normalize_field.
  destruct (field_definitions !! f) as [fd|].
  2:{ destruct (String.eqb f "quorum_side_primary_key"); unfold ret; done. }
  set (st0 := if negb (String.eqb (fd_Type fd) "bool") then _ else st).
  assert (no_rows (dataframe st0) = no_rows (dataframe st)) as Hrows.
  { subst st0. destruct (negb (String.eqb (fd_Type fd) "bool")); [|done].
    apply no_rows_shape; [done|]. intros g. simpl.
    apply length_column_set_column. by rewrite length_fmap. }
  assert (∀ v, v ∈ column (dataframe st0) f → hashable v = false →
               ∃ u, u ∈ column (dataframe st) f ∧ hashable u = false) as Hcells.
  { subst st0. destruct (negb (String.eqb (fd_Type fd) "bool")); [|by eauto].
    simpl. rewrite column_set_column. intros v (u & -> & Hu)%list_elem_of_fmap Hh.
    exists u. split; [done|]. by apply empty_to_none_unhashable. }
  destruct (existsb is_list (dropna (column (dataframe st0) f))) eqn:Hlist.
  - unfold bind, emit, raise. intros [= _ <-]. left. split; [done|].
    apply existsb_exists in Hlist as (v & Hv & Hl).
    apply list_elem_of_In, list_elem_of_filter in Hv as [_ Hv].
    apply (Hcells v Hv). by destruct v.
  - unfold lift. intros [= _ H]. apply check_field_raises in H as [[-> (v & Hv & Hh)]|[-> H]].
    + left. split; [done|]. by apply (Hcells v).
    + right. split; [done|]. by rewrite <- Hrows.
Qed.

Lemma normalize_fields_ok names st t t' st' :
  NoDup names →
  normalize_fields names st t = (t', Ok st') →
  t' = t ∧
  columns (dataframe st') = columns (dataframe st) ∧
  (∀ g, g ∉ names → cells (dataframe st') !! g = cells (dataframe st) !! g) ∧
  (∃ new, error_messages st' = error_messages st ++ new ∧
          (existsb (fatal_field (dataframe st)) names = true → new ≠ [])) ∧
  error_fatal st' = error_fatal st || existsb (fatal_field (dataframe st)) names.
Proof.
  intros Hnd. revert st t. induction Hnd as [|f names Hf Hnd IH]; intros st t; simpl.
  - unfold ret. intros [= <- <-]. repeat split; try done; [|by rewrite orb_false_r].
    exists []. by rewrite app_nil_r.
  - unfold bind. destruct (normalize_field f st t) as [t1 [st1|e1]] eqn:Hstep; [|done].
    intros Hrest.
    apply normalize_field_ok in Hstep as (-> & Hcols1 & Hcells1 & (new1 & Hmsgs1 & Hne1) & Hfatal1).
    apply IH in Hrest as (-> & Hcols & Hcells & (new & Hmsgs & Hne) & Hfatal).
    assert (existsb (fatal_field (dataframe st1)) names
            = existsb (fatal_field (dataframe st)) names) as Hsame.
    { apply existsb_agree. intros g Hg. apply fatal_field_agree, Hcells1. by intros ->. }
    rewrite Hsame in Hne, Hfatal.
    split; [done|]. split; [congruence|]. split.
    { intros g Hg. apply not_elem_of_cons in Hg as [Hgf Hg].
      rewrite Hcells by done. by apply Hcells1. }
    split.
    + exists (new1 ++ new). split; [by rewrite Hmsgs, Hmsgs1, app_assoc|].
      intros [H1|H2]%orb_true_iff.
      * intros [Hn _]%app_eq_nil. by apply Hne1.
      * intros [_ Hn]%app_eq_nil. by apply Hne.
    + by rewrite Hfatal, Hfatal1, orb_assoc.
Qed.

Lemma normalize_fields_raises names st t t' e :
  NoDup names →
  normalize_fields names st t = (t', Raise e) →
  (e = TypeError ∧
   ∃ g v, g ∈ names ∧ v ∈ column (dataframe st) g ∧ hashable v = false) ∨
  (e = KeyError ∧ no_rows (dataframe st) = true).
Proof.
  intros Hnd. revert st t. induction Hnd as [|f names Hf Hnd IH]; intros st t; simpl; [done|].
  unfold bind. destruct (normalize_field f st t) as [t1 [st1|e1]] eqn:Hstep.
  - intros Hrest. pose proof Hstep as Hshape.
    apply normalize_field_shape in Hshape as [Hcols Hlen].
    apply normalize_field_ok in Hstep as (_ & _ & Hcells & _).
    apply IH in Hrest as [[-> (g & v & Hg & Hv & Hh)]|[-> Hrows]].
    + left. split; [done|]. exists g, v. split; [by right|]. split; [|done].
      unfold column in *. rewrite <- Hcells; [done|]. by intros ->.
    + right. split; [done|]. by rewrite <- (no_rows_shape _ _ Hcols Hlen).
  - intros [= _ <-]. apply normalize_field_raises in Hstep as [[-> (v & Hv & Hh)]|[-> Hrows]].
    + left. split; [done|]. exists f, v. split; [by left | done].
    + by right.
Qed.

Lemma normalize_fields_app names1 names2 st t :
  normalize_fields (names1 ++ names2) st t
  = bind (normalize_fields names1 st) (fun st1 => normalize_fields names2 st1) t.
Proof.
  revert st t. induction names1 as [|f names1 IH]; intros st t; [done|].
  simpl. unfold bind.
  destruct (normalize_field f st t) as [t1 [st1|e]]; [|done]. rewrite IH. by unfold bind.
Qed.

(** The pass over the column [f] inside a run of the loop: the column is
    still the caller's when the pass starts, and is not touched after it. *)
Lemma normalize_fields_at f names st t t' st' :
  NoDup names → f ∈ names →
  normalize_fields names st t = (t', Ok st') →
  ∃ st1 st2,
    normalize_field f st1 t = (t, Ok st2) ∧
    cells (dataframe st1) !! f = cells (dataframe st) !! f ∧
    cells (dataframe st') !! f = cells (dataframe st2) !! f ∧
    ∃ more, error_messages st' = error_messages st2 ++ more.
Proof.
  intros Hnd Hf Hrun.
  apply list_elem_of_split in Hf as (pre & post & ->).
  apply NoDup_app in Hnd as (Hpre & Hdisj & Hpost).
  apply NoDup_cons in Hpost as [Hfpost Hpost].
  rewrite normalize_fields_app in Hrun. unfold bind in Hrun.
  destruct (normalize_fields pre st t) as [t1 [st1|e]] eqn:Hrun1; [|done].
  apply normalize_fields_ok in Hrun1 as (-> & _ & Hcells1 & _ & _); [|done].
  simpl in Hrun. unfold bind in Hrun.
  destruct (normalize_field f st1 t) as [t2 [st2|e]] eqn:Hstep; [|done].
  pose proof Hstep as Hstep'.
  apply normalize_field_ok in Hstep' as (-> & _).
  apply normalize_fields_ok in Hrun as (-> & _ & Hcells & (more & Hmsgs & _) & _); [|done].
  exists st1, st2. split; [done|]. split.
  { apply Hcells1. intros Hin. apply (Hdisj f Hin). by left. }
  split; [by apply Hcells | by exists more].
Qed.

(** The pass over a column of type [id] or [reference]. *)
Lemma normalize_field_id f fd st t t' st' :
  field_definitions !! f = Some fd →
  fd_Type fd = "id" ∨ fd_Type fd = "reference" →
  normalize_field f st t = (t', Ok st') →
  column (dataframe st') f
  = (fun v => if truthy v then v else VNone) <$> column (dataframe st) f ∧
  ∀ v, v ∈ column (dataframe st) f → wrong_length v = true →
       ∃ wrong v', IdLength f wrong ∈ error_messages st' ∧ v' ∈ wrong ∧ key_of v' = key_of v.
Proof.
  intros Hfd Htype. unfold Normalizer.normalize_field. rewrite Hfd.
  assert (negb (String.eqb (fd_Type fd) "bool") = true) as -> by (by destruct Htype as [-> | ->]).
  match goal with |- context [existsb is_list ?l] => destruct (existsb is_list l) end.
  { unfold bind, emit, raise. done. }
  unfold lift. intros [= _ Hcheck]. revert Hcheck.
  unfold Normalizer.check_field, assign. cbn [dataframe error_messages error_fatal].
  rewrite !column_set_column.
  assert (bool_decide (fd_Type fd ∈ ["date"; "datetime"]) = false) as ->
    by (by destruct Htype as [-> | ->]).
  assert (String.eqb (fd_Type fd) "picklist" = false) as -> by (by destruct Htype as [-> | ->]).
  assert (bool_decide (fd_Type fd ∈ ["id"; "reference"]) = true) as ->
    by (by destruct Htype as [-> | ->]; vm_compute).
  destruct (masked _ _) as [selected|e] eqn:Hm; [|done]. apply masked_ok in Hm as [-> _].
  destruct (unique _) as [wrong|e] eqn:Hu; [|done].
  apply unique_ok in Hu as [-> _]. intros [= <-]. split.
  - simpl. rewrite column_set_column, <- list_fmap_compose.
    apply list_fmap_ext. intros i v _. simpl. rewrite truthy_empty_to_none.
    destruct (truthy v) eqn:Ht; [by apply truthy_not_empty | done].
  - intros v Hv Hwrong.
    assert (v ∈ filter (fun x => wrong_length x = true) (empty_to_none <$> column (dataframe st) f))
      as Hin.
    { apply list_elem_of_filter. split; [done|]. apply list_elem_of_fmap. exists v.
      split; [|done]. symmetry. by apply truthy_not_empty, wrong_length_truthy. }
    destruct (first_occurrences_represent _ _ Hin) as (v' & Hv' & Hkey).
    exists (first_occurrences
              (filter (fun x => wrong_length x = true)
                      (empty_to_none <$> column (dataframe st) f))), v'.
    split; [|done].
    assert (nonempty (first_occurrences
              (filter (fun x => wrong_length x = true)
                      (empty_to_none <$> column (dataframe st) f))) = true) as ->.
    { apply nonempty_true. intros Hnil. rewrite Hnil in Hv'. by apply elem_of_nil in Hv'. }
    destruct (String.eqb (fd_Type fd) "id"); simpl; apply elem_of_app; right; by left.
Qed.

(** No branch of [check_field] turns a [None] cell into something else. *)
Lemma check_field_keeps_none f fd st st' i :
  check_field f fd st = Ok st' →
  column (dataframe st) f !! i = Some VNone →
  column (dataframe st') f !! i = Some VNone.
Proof.
  unfold Normalizer.check_field. intros H Hcell.
  repeat case_match; simplify_eq; simpl;
    rewrite ?add_error_if_dataframe, ?column_set_column, ?list_lookup_fmap, ?Hcell;
    try done.
Qed.

(** The pass over a column whose declared type is not the text [bool]
    leaves [None] where the column had a sized value without elements. *)
Lemma normalize_field_empties f fd st t t' st' i v :
  field_definitions !! f = Some fd →
  fd_Type fd ≠ "bool" →
  normalize_field f st t = (t', Ok st') →
  column (dataframe st) f !! i = Some v →
  py_len v = Some 0 →
  column (dataframe st') f !! i = Some VNone.
Proof.
  intros Hfd Htype. unfold Normalizer.normalize_field. rewrite Hfd.
  apply String.eqb_neq in Htype. rewrite Htype. cbn [negb].
  match goal with |- context [existsb is_list ?l] => destruct (existsb is_list l) end.
  { unfold bind, emit, raise. done. }
  unfold lift. intros [= _ Hcheck] Hcell Hlen.
  apply (check_field_keeps_none _ _ _ _ i) in Hcheck; [done|].
  unfold assign. cbn [dataframe]. rewrite column_set_column, list_lookup_fmap, Hcell. simpl.
  unfold empty_to_none. by rewrite Hlen.
Qed.

End WithRepr.

Section Frame.
Variable w : world.
Variable container_repr : pyval -> string.

(** The run of [normalize_sf_field_types] once the description has been
    fetched. *)
Lemma normalize_after_describe df salesforce_model description t :
  describe w t salesforce_model = Ok description →
  normalize_sf_field_types container_repr w df salesforce_model t
  = match normalize_fields container_repr (field_def_dict_of description) salesforce_model
            (columns df) {| dataframe := df; error_messages := []; error_fatal := false |}
            (t ++ [Called (Describe salesforce_model)]) with
    | (t1, Raise e) => (t1, Raise e)
    | (t1, Ok st) =>
        if nonempty (error_messages st) then
          (t1 ++ [LogError (ErrorsOnTheRun (error_messages st))],
           if error_fatal st then Raise ValueError else Ok (dataframe st))
        else (t1, Ok (dataframe st))
    end.
Proof.
  intros Hd. unfold normalize_sf_field_types, get_sf_field_definition_dict.
  unfold bind at 1. unfold bind at 1. unfold call. rewrite Hd. unfold ret at 1.
  unfold bind at 1.
  destruct (normalize_fields _ _ _ _ _ _) as [t1 [st|e]]; [|done].
  unfold bind at 1.
  destruct (nonempty (error_messages st)); [|done].
  unfold bind at 1. unfold emit.
  destruct (error_fatal st); done.
Qed.

(** The ways in which normalization ends: a [TypeError] for a cell that is
    a list or cannot be hashed, a [KeyError] for a mask on a frame without
    rows, a [ValueError] when some column is fatal, the frame when none
    is. *)
Lemma normalize_outcome df salesforce_model description t :
  NoDup (columns df) →
  describe w t salesforce_model = Ok description →
  let fds := field_def_dict_of description in
  ∃ t' r,
    normalize_sf_field_types container_repr w df salesforce_model t = (t', r) ∧
    match r with
    | Raise e =>
        (e = TypeError ∧ ∃ g v, g ∈ columns df ∧ v ∈ column df g ∧ hashable v = false) ∨
        (e = KeyError ∧ no_rows df = true) ∨
        (e = ValueError ∧
         ∃ f, f ∈ columns df ∧ fatal_field container_repr fds df f = true)
    | Ok df' => ∀ f, f ∈ columns df → fatal_field container_repr fds df f = false
    end.
Proof.
  intros Hnd Hd fds. rewrite (normalize_after_describe _ _ _ _ Hd). fold fds.
  destruct (normalize_fields _ _ _ _ _ _) as [t1 [st|e]] eqn:Hrun.
  - apply normalize_fields_ok in Hrun as (-> & _ & _ & (new & Hmsgs & Hne) & Hfatal); [|done].
    simpl in Hmsgs, Hfatal, Hne.
    destruct (existsb (fatal_field container_repr fds df) (columns df)) eqn:Hex.
    + assert (nonempty (error_messages st) = true) as ->.
      { rewrite Hmsgs. apply nonempty_true. by apply Hne. }
      rewrite Hfatal. eexists _, _. split; [done|]. right. right. split; [done|].
      apply existsb_exists in Hex as (f & Hf & Hff). exists f. split; [|done].
      by apply list_elem_of_In.
    + rewrite Hfatal.
      assert (∀ f, f ∈ columns df → fatal_field container_repr fds df f = false) as Hall.
      { intros f Hf. apply not_true_is_false. intros Hff.
        assert (existsb (fatal_field container_repr fds df) (columns df) = true); [|congruence].
        apply existsb_exists. exists f. split; [by apply list_elem_of_In | done]. }
      destruct (nonempty (error_messages st)); eexists _, _; (split; [done|]); done.
  - apply normalize_fields_raises in Hrun as [[-> Hcell]|[-> Hrows]]; [| |done];
      eexists _, _; (split; [done|]); [by left | right; by left].
Qed.

Lemma fatal_field_reference fds df f fd :
  fds !! f = Some fd → fd_Type fd = "reference" → fatal_field container_repr fds df f = false.
Proof. intros Hfd Ht. unfold fatal_field. by rewrite Hfd, Ht. Qed.

Lemma fatal_field_id fds df f fd v :
  fds !! f = Some fd → fd_Type fd = "id" →
  v ∈ column df f → wrong_length container_repr v = true →
  fatal_field container_repr fds df f = true.
Proof.
  intros Hfd Ht Hv Hw. unfold fatal_field. rewrite Hfd, Ht. simpl.
  apply existsb_exists. exists v. split; [by apply list_elem_of_In | done].
Qed.

Lemma fatal_field_exists fds df names :
  existsb (fatal_field container_repr fds df) names = true →
  ∃ g, g ∈ names ∧ fatal_field container_repr fds df g = true.
Proof.
  intros (g & Hg & Hf)%existsb_exists. exists g. split; [by apply list_elem_of_In | done].
Qed.

Lemma fatal_field_existsb fds df names g :
  g ∈ names → fatal_field container_repr fds df g = true →
  existsb (fatal_field container_repr fds df) names = true.
Proof.
  intros Hg Hf. apply existsb_exists. exists g. split; [by apply list_elem_of_In | done].
Qed.

(** C7, as the code has it.  Normalization ends with [TypeError] only when
    some cell of the frame is a list or cannot be hashed, and with
    [KeyError] only when the frame has no rows.  Otherwise, in a column of
    type [id] or [reference]: every truthy cell whose text is not 0, 15 or
    18 characters long is listed in an [IdLength] error of the logged
    report; in a column of type [id] such a cell makes the run raise
    [ValueError]; a [ValueError] is always due to a fatal column, which a
    [reference] column never is; and when the frame is returned every falsy
    cell of the column, the empty string included, has become [None]. *)
Theorem id_columns_checked (df : DataFrame) (salesforce_model : string)
    (description : list model_field) (t : trace) (f : string) (fd : field_definition) :
  NoDup (columns df) →
  describe w t salesforce_model = Ok description →
  f ∈ columns df →
  field_def_dict_of description !! f = Some fd →
  fd_Type fd = "id" ∨ fd_Type fd = "reference" →
  ∃ t' r,
    normalize_sf_field_types container_repr w df salesforce_model t = (t', r) ∧
    ((r = Raise TypeError ∧
      ∃ g v, g ∈ columns df ∧ v ∈ column df g ∧ hashable v = false) ∨
     (r = Raise KeyError ∧ no_rows df = true) ∨
     ((∀ e, r = Raise e → e = ValueError) ∧
      (∀ v, v ∈ column df f → wrong_length container_repr v = true →
         ∃ msgs wrong v',
           LogError (ErrorsOnTheRun msgs) ∈ t' ∧ IdLength f wrong ∈ msgs ∧
           v' ∈ wrong ∧ key_of v' = key_of v) ∧
      (fd_Type fd = "id" →
       (∃ v, v ∈ column df f ∧ wrong_length container_repr v = true) →
       r = Raise ValueError) ∧
      (r = Raise ValueError →
       ∃ g, g ∈ columns df ∧
            fatal_field container_repr (field_def_dict_of description) df g = true ∧
            (fd_Type fd = "reference" → g ≠ f)) ∧
      (∀ df', r = Ok df' →
         column df' f = (fun v => if truthy v then v else VNone) <$> column df f))).
Proof.
  intros Hnd Hd Hf Hfd Htype. rewrite (normalize_after_describe _ _ _ _ Hd).
  set (fds := field_def_dict_of description) in *.
  destruct (normalize_fields _ _ _ _ _ _) as [t1 [st|e]] eqn:Hrun.
  2:{ apply normalize_fields_raises in Hrun as [[-> Hcell]|[-> Hrows]]; [| |done];
        eexists _, _; (split; [done|]); [by left | right; by left]. }
  pose proof Hrun as Hat.
  apply normalize_fields_at with (f := f) in Hat
    as (st1 & st2 & Hstep & Hcells1 & Hcells2 & more & Hmore); [|done..].
  apply normalize_fields_ok in Hrun as (-> & _ & _ & (new & Hmsgs & Hne) & Hfatal); [|done].
  simpl in Hcells1, Hmsgs, Hne, Hfatal.
  destruct (normalize_field_id _ _ _ _ _ _ _ _ _ Hfd Htype Hstep) as [Hcol Hrep].
  assert (column (dataframe st1) f = column df f) as Hcol1 by (unfold column; by rewrite Hcells1).
  assert (column (dataframe st) f = column (dataframe st2) f) as Hcol2
    by (unfold column; by rewrite Hcells2).
  rewrite Hcol1 in Hcol, Hrep.
  set (out := if nonempty (error_messages st) then _ else _).
  exists out.1, out.2. split; [by destruct out|]. right. right.
  split; [|split; [|split; [|split]]].
  - intros e Hr. subst out. destruct (nonempty (error_messages st)); simpl in Hr; [|done].
    destruct (error_fatal st); congruence.
  - intros v Hv Hw. destruct (Hrep v Hv Hw) as (wrong & v' & Hin & Hv' & Hkey).
    assert (IdLength f wrong ∈ error_messages st) as Hin'
      by (rewrite Hmore; apply elem_of_app; by left).
    exists (error_messages st), wrong, v'. split; [|done].
    subst out. destruct (error_messages st) as [|m ms]; [by apply elem_of_nil in Hin'|].
    simpl. apply elem_of_app. right. by left.
  - intros Hid (v & Hv & Hw).
    assert (existsb (fatal_field container_repr fds df) (columns df) = true) as Hex.
    { apply (fatal_field_existsb _ _ _ f); [done|]. by apply (fatal_field_id _ _ _ fd v). }
    subst out. rewrite Hfatal, Hex.
    assert (nonempty (error_messages st) = true) as ->; [|done].
    rewrite Hmsgs. apply nonempty_true. by apply Hne.
  - intros Hr.
    assert (existsb (fatal_field container_repr fds df) (columns df) = true) as Hex.
    { subst out. rewrite Hfatal in Hr.
      destruct (existsb (fatal_field container_repr fds df) (columns df)); [done|].
      by destruct (nonempty (error_messages st)). }
    apply fatal_field_exists in Hex as (g & Hg & Hgf). exists g. repeat split; try done.
    intros Href ->. by rewrite (fatal_field_reference _ _ _ _ Hfd Href) in Hgf.
  - intros df' Hr.
    assert (df' = dataframe st) as ->.
    { subst out. destruct (nonempty (error_messages st)); simpl in Hr; [|congruence].
      destruct (error_fatal st); congruence. }
    by rewrite Hcol2.
Qed.

(** A column that the schema lacks makes normalization raise, unless it is
    the bookkeeping key: [ValueError] after the report that names the column
    has been logged, unless a list cell or a frame without rows ends the
    loop before. *)
Lemma unknown_column_raises (df : DataFrame) (salesforce_model : string)
    (description : list model_field) (t : trace) (f : string) :
  NoDup (columns df) →
  describe w t salesforce_model = Ok description →
  f ∈ columns df →
  field_def_dict_of description !! f = None →
  f ≠ "quorum_side_primary_key" →
  ∃ t' e,
    normalize_sf_field_types container_repr w df salesforce_model t = (t', Raise e) ∧
    ((e = ValueError ∧
      ∃ msgs, LogError (ErrorsOnTheRun msgs) ∈ t' ∧ ColumnNotValid f salesforce_model ∈ msgs) ∨
     (e = TypeError ∧ ∃ g v, g ∈ columns df ∧ v ∈ column df g ∧ hashable v = false) ∨
     (e = KeyError ∧ no_rows df = true)).
Proof.
  intros Hnd Hd Hf Hfd Hkey. rewrite (normalize_after_describe _ _ _ _ Hd).
  set (fds := field_def_dict_of description) in *.
  destruct (normalize_fields _ _ _ _ _ _) as [t1 [st|e]] eqn:Hrun.
  2:{ apply normalize_fields_raises in Hrun as [[-> Hcell]|[-> Hrows]]; [| |done];
        eexists _, _; (split; [done|]); [right; by left | right; by right]. }
  pose proof Hrun as Hat.
  apply normalize_fields_at with (f := f) in Hat
    as (st1 & st2 & Hstep & _ & _ & more & Hmore); [|done..].
  apply normalize_fields_ok in Hrun as (-> & _ & _ & _ & Hfatal); [|done].
  simpl in Hfatal.
  unfold normalize_field in Hstep. rewrite Hfd in Hstep.
  apply String.eqb_neq in Hkey. rewrite Hkey in Hstep.
  unfold ret in Hstep. injection Hstep as <-.
  assert (ColumnNotValid f salesforce_model ∈ error_messages st) as Hin.
  { rewrite Hmore. simpl. apply elem_of_app. left. apply elem_of_app. right. by left. }
  assert (existsb (fatal_field container_repr fds df) (columns df) = true) as Hex.
  { apply (fatal_field_existsb _ _ _ f); [done|]. unfold fatal_field. by rewrite Hfd, Hkey. }
  rewrite Hfatal, Hex.
  destruct (error_messages st) as [|m ms] eqn:Hmsgs; [by apply elem_of_nil in Hin|].
  simpl. eexists _, _. split; [done|]. left. split; [done|].
  exists (m :: ms). split; [|done]. apply elem_of_app. right. by left.
Qed.

(** In a column whose declared type is not the text [bool], a sized value
    without elements is [None] in the frame that normalization returns. *)
Lemma empty_cells_become_none (df df' : DataFrame) (salesforce_model : string)
    (description : list model_field) (t t' : trace) (f : string) (fd : field_definition)
    (i : nat) (v : pyval) :
  NoDup (columns df) →
  describe w t salesforce_model = Ok description →
  f ∈ columns df →
  field_def_dict_of description !! f = Some fd →
  fd_Type fd ≠ "bool" →
  normalize_sf_field_types container_repr w df salesforce_model t = (t', Ok df') →
  column df f !! i = Some v →
  py_len v = Some 0 →
  column df' f !! i = Some VNone.
Proof.
  intros Hnd Hd Hf Hfd Htype Hrun Hcell Hlen.
  rewrite (normalize_after_describe _ _ _ _ Hd) in Hrun.
  destruct (normalize_fields _ _ _ _ _ _) as [t1 [st|e]] eqn:Hloop; [|done].
  assert (df' = dataframe st) as ->.
  { destruct (nonempty (error_messages st)); [|congruence].
    destruct (error_fatal st); congruence. }
  apply normalize_fields_at with (f := f) in Hloop
    as (st1 & st2 & Hstep & Hcells1 & Hcells2 & _); [|done..].
  simpl in Hcells1.
  assert (column (dataframe st1) f !! i = Some v) as Hcell1
    by (unfold column in *; by rewrite Hcells1).
  pose proof (normalize_field_empties _ _ _ _ _ _ _ _ _ _ _ Hfd Htype Hstep Hcell1 Hlen) as Hnone.
  unfold column in *. by rewrite Hcells2.
Qed.

Variable type_text : pyval -> string.

(** C8: a column of the frame that the schema lacks makes normalization
    raise, so the frame is never handed on: [ValueError] after the logged
    report has named the column, or, when the loop ends before, [TypeError]
    for a cell that is a list or cannot be hashed, or [KeyError] for a
    frame without rows.  The one exception is the column
    [quorum_side_primary_key], which the loop skips without touching the
    state and which is never the cause of the [ValueError].
    [_run_upsert_chunk] pops that key from every record: no record sent to
    Salesforce has it, and the records sent are exactly the records of the
    chunk without the key, in order (for [ContentNote] matched on [Id]:
    those that have an [Id], without it). *)
Theorem unknown_columns_are_fatal (df : DataFrame) (salesforce_model : string)
    (description : list model_field) (t : trace) (f : string)
    (chunk : list pydict) (match_on : string) (t0 : trace) :
  NoDup (columns df) →
  describe w t salesforce_model = Ok description →
  f ∈ columns df →
  field_def_dict_of description !! f = None →
  (f ≠ "quorum_side_primary_key" →
   ∃ t' e,
     normalize_sf_field_types container_repr w df salesforce_model t = (t', Raise e) ∧
     ((e = ValueError ∧
       ∃ msgs, LogError (ErrorsOnTheRun msgs) ∈ t' ∧
               ColumnNotValid f salesforce_model ∈ msgs) ∨
      (e = TypeError ∧ ∃ g v, g ∈ columns df ∧ v ∈ column df g ∧ hashable v = false) ∨
      (e = KeyError ∧ no_rows df = true))) ∧
  (f = "quorum_side_primary_key" →
   (∀ st t1,
      normalize_field container_repr (field_def_dict_of description) salesforce_model f st t1
      = (t1, Ok st)) ∧
   (∀ t',
      normalize_sf_field_types container_repr w df salesforce_model t = (t', Raise ValueError) →
      ∃ g, g ∈ columns df ∧ g ≠ f ∧
           fatal_field container_repr (field_def_dict_of description) df g = true)) ∧
  (∃ new r,
     Upsert._run_upsert_chunk w container_repr type_text salesforce_model chunk match_on t0
     = (t0 ++ new, r) ∧
     (∀ record, record ∈ Upsert.transmitted new →
                record !! "quorum_side_primary_key" = None) ∧
     (salesforce_model ≠ "ContentNote" →
      Upsert.transmitted new = delete "quorum_side_primary_key" <$> chunk) ∧
     (salesforce_model = "ContentNote" → match_on = "Id" →
      Upsert.transmitted new
      = delete "Id" <$> filter (fun record => is_Some (record !! "Id"))
                          (delete "quorum_side_primary_key" <$> chunk))).
Proof.
  intros Hnd Hd Hf Hfd. split; [|split].
  - intros Hkey. by apply (unknown_column_raises df salesforce_model description t f).
  - intros ->. split.
    + intros st t1. unfold normalize_field. by rewrite Hfd.
    + intros t' Hrun.
      destruct (normalize_outcome df salesforce_model description t Hnd Hd)
        as (t'' & r & Hrun' & Hr).
      rewrite Hrun in Hrun'. injection Hrun' as <- <-.
      destruct Hr as [[? _]|[[? _]|[_ (g & Hg & Hfatal)]]]; [done..|].
      exists g. repeat split; try done. intros ->.
      unfold fatal_field in Hfatal. by rewrite Hfd in Hfatal.
  - destruct (UpsertFacts.run_upsert_chunk_transmits w container_repr type_text salesforce_model
                chunk match_on t0) as (new & r & Hrun & Hall & Hbulk & Hnote).
    exists new, r. split; [done|]. split; [|done].
    intros record. by apply UpsertFacts.stripped_events_transmitted.
Qed.

End Frame.
End NormalizerFacts.

(** ** The normalizer on the scenarios *)

Module NormalizerScenarios.
Import Normalizer Scenarios.

Lemma id_columns_checked_witness :
  ∃ t' r,
    normalize_sf_field_types plain_repr schema (one_column "Id" [VStr "abc"]) "Contact" []
    = (t', r) ∧
    ((r = Raise TypeError ∧
      ∃ g v, g ∈ columns (one_column "Id" [VStr "abc"]) ∧
             v ∈ column (one_column "Id" [VStr "abc"]) g ∧ hashable v = false) ∨
     (r = Raise KeyError ∧ no_rows (one_column "Id" [VStr "abc"]) = true) ∨
     ((∀ e, r = Raise e → e = ValueError) ∧
      (∀ v, v ∈ column (one_column "Id" [VStr "abc"]) "Id" → wrong_length plain_repr v = true →
         ∃ msgs wrong v',
           LogError (ErrorsOnTheRun msgs) ∈ t' ∧ IdLength "Id" wrong ∈ msgs ∧
           v' ∈ wrong ∧ key_of v' = key_of v) ∧
      (fd_Type (field_definition_of (plain_field "Id" "id" 18)) = "id" →
       (∃ v, v ∈ column (one_column "Id" [VStr "abc"]) "Id" ∧ wrong_length plain_repr v = true) →
       r = Raise ValueError) ∧
      (r = Raise ValueError →
       ∃ g, g ∈ columns (one_column "Id" [VStr "abc"]) ∧
            fatal_field plain_repr (field_def_dict_of contact_description)
              (one_column "Id" [VStr "abc"]) g = true ∧
            (fd_Type (field_definition_of (plain_field "Id" "id" 18)) = "reference" → g ≠ "Id")) ∧
      (∀ df', r = Ok df' →
         column df' "Id"
         = (fun v => if truthy v then v else VNone)
             <$> column (one_column "Id" [VStr "abc"]) "Id"))).
Proof.
  apply (NormalizerFacts.id_columns_checked schema plain_repr (one_column "Id" [VStr "abc"])
           "Contact" contact_description [] "Id"
           (field_definition_of (plain_field "Id" "id" 18))).
  - vm_compute. apply NoDup_singleton.
  - reflexivity.
  - vm_compute. left.
  - by vm_compute.
  - left. reflexivity.
Defined.

(** C7 as stated fails: the integer 0 in the Id column is not absent and its
    text has one character, yet nothing is reported and nothing is raised;
    the cell is silently replaced by [None]. *)
Lemma zero_id_not_reported :
  String.length (unicode plain_repr (VInt 0)) = 1 ∧
  normalize_sf_field_types plain_repr schema (one_column "Id" [VInt 0]) "Contact" []
  = ([Called (Describe "Contact")], Ok (one_column "Id" [VNone])).
Proof. split; by vm_compute. Qed.

Lemma unknown_columns_are_fatal_witness :
  (∃ t' e,
     normalize_sf_field_types plain_repr schema (one_column "Bogus" [VStr "x"]) "Contact" []
     = (t', Raise e) ∧
     ((e = ValueError ∧
       ∃ msgs, LogError (ErrorsOnTheRun msgs) ∈ t' ∧ ColumnNotValid "Bogus" "Contact" ∈ msgs) ∨
      (e = TypeError ∧
       ∃ g v, g ∈ columns (one_column "Bogus" [VStr "x"]) ∧
              v ∈ column (one_column "Bogus" [VStr "x"]) g ∧ hashable v = false) ∨
      (e = KeyError ∧ no_rows (one_column "Bogus" [VStr "x"]) = true))) ∧
  (∃ new r,
     Upsert._run_upsert_chunk schema plain_repr plain_repr "Contact" [contact 1] "Id" []
     = ([] ++ new, r) ∧
     (∀ record, record ∈ Upsert.transmitted new →
                record !! "quorum_side_primary_key" = None) ∧
     ("Contact" ≠ "ContentNote" →
      Upsert.transmitted new = delete "quorum_side_primary_key" <$> [contact 1]) ∧
     ("Contact" = "ContentNote" → "Id" = "Id" →
      Upsert.transmitted new
      = delete "Id" <$> filter (fun record => is_Some (record !! "Id"))
                          (delete "quorum_side_primary_key" <$> [contact 1]))).
Proof.
  destruct (NormalizerFacts.unknown_columns_are_fatal schema plain_repr plain_repr
              (one_column "Bogus" [VStr "x"]) "Contact" contact_description [] "Bogus"
              [contact 1] "Id" []) as (Hraise & _ & Hsent).
  - vm_compute. apply NoDup_singleton.
  - reflexivity.
  - vm_compute. left.
  - by vm_compute.
  - split; [|exact Hsent]. apply Hraise. discriminate.
Defined.

(** C9 fails on the code: the field type that Salesforce reports is
    [boolean], the guard compares it with [bool], so an empty string in a
    boolean column is turned into [None] like anywhere else, and the check of
    the boolean values that follows no longer sees it. *)
Lemma boolean_column_not_exempt :
  fd_Type (field_definition_of (plain_field "IsActive" "boolean" 0)) = "boolean" ∧
  not_bool_literal (VStr EmptyString) = true ∧
  normalize_sf_field_types plain_repr schema (one_column "IsActive" [VStr EmptyString]) "Contact" []
  = ([Called (Describe "Contact")], Ok (one_column "IsActive" [VNone])).
Proof. split; [done|]. split; [done|]. by vm_compute. Qed.

End NormalizerScenarios.

(** ** Reading from Salesforce *)

Module QueryFacts.
Import Query RunFacts.

Section Reader.
Variable w : world.
Variable container_repr : pyval -> string.
Variable tests_in_progress : bool.
Variable as_completed : list (string * result (list pydict)) -> list (string * result (list pydict)).
Variable convert_objects : list pyval -> list pyval.
(** [as_completed] yields every future once, in some order. *)
Hypothesis as_completed_perm : ∀ futures, as_completed futures ≡ₚ futures.

Local Abbreviation _run_sf_query := (_run_sf_query w tests_in_progress).
Local Abbreviation query_loop := (query_loop w tests_in_progress).
Local Abbreviation submit_all := (submit_all w tests_in_progress).
Local Abbreviation query_sf := (query_sf w container_repr tests_in_progress as_completed convert_objects).

Lemma refused_handler_appends e : appends (fun _ => True) (refused_handler e).
Proof. unfold refused_handler. destruct e as [| | | | | | |[code|]| | |]; repeat appends_step. Qed.

Lemma run_sf_query_appends where_clause object_type select_fields include_deleted :
  appends (fun _ => True) (_run_sf_query where_clause object_type select_fields include_deleted).
Proof.
  unfold Query._run_sf_query. destruct tests_in_progress; [appends_step|].
  apply appends_try_except; [by apply appends_call | apply refused_handler_appends].
Qed.

Lemma query_loop_appends object_type select_fields include_deleted where_clauses all_records :
  appends (fun _ => True)
    (query_loop object_type select_fields include_deleted where_clauses all_records).
Proof.
  revert all_records. induction where_clauses as [|c rest IH]; intros all_records; simpl.
  - appends_step.
  - apply appends_bind; [apply run_sf_query_appends | intros records; apply IH].
Qed.

Lemma submit_all_appends object_type select_fields include_deleted where_clauses :
  appends (fun _ => True) (submit_all object_type select_fields include_deleted where_clauses).
Proof.
  induction where_clauses as [|c rest IH]; simpl.
  - appends_step.
  - apply appends_bind.
    + intros t.
      destruct (run_sf_query_appends c object_type select_fields include_deleted t)
        as (new & Hnew & Hall).
      exists new. simpl. by split.
    + intros r. apply appends_bind; [apply IH | intros rs; appends_step].
Qed.

Lemma run_sf_query_starts where_clause object_type select_fields include_deleted :
  tests_in_progress = false →
  starts_with (Called (QueryAll (soql where_clause object_type select_fields) include_deleted))
    (_run_sf_query where_clause object_type select_fields include_deleted).
Proof.
  intros Htests. unfold Query._run_sf_query. rewrite Htests.
  apply starts_with_try_except; [apply starts_with_call | apply refused_handler_appends].
Qed.

(** C10: without [where_clauses], and with [search_values] or
    [field_mapping] missing, [query_sf] raises [ValueError] and the trace is
    unchanged, so no query was sent; with [where_clauses] it runs without the
    other two: an empty list gives the empty frame, and otherwise the query
    of the first clause is sent. *)
Theorem query_sf_guard (object_type : string) (select_fields : list string)
    (search_values : option (list pydict)) (field_mapping : option (list (string * string)))
    (include_deleted async_queries : bool) (t : trace) :
  (search_values = None ∨ field_mapping = None →
   query_sf object_type select_fields search_values field_mapping None
     include_deleted async_queries t
   = (t, Raise ValueError)) ∧
  query_sf object_type select_fields None None (Some []) include_deleted async_queries t
  = (t, Ok empty_frame) ∧
  (∀ clause rest,
     tests_in_progress = false →
     ∃ new r,
       query_sf object_type select_fields None None (Some (clause :: rest))
         include_deleted async_queries t
       = (t ++ Called (QueryAll (soql clause object_type select_fields) include_deleted) :: new,
          r)).
Proof.
  split; [|split].
  - intros Hmissing. unfold Query.query_sf.
    rewrite (bool_decide_eq_true_2 _ eq_refl).
    assert (supplied search_values && supplied field_mapping = false) as ->; [|done].
    destruct Hmissing as [-> | ->]; [done | apply andb_false_r].
  - unfold Query.query_sf.
    rewrite bool_decide_eq_false_2 by done. destruct async_queries; [|done].
    simpl. unfold bind, ret, gather. simpl.
    by rewrite (proj1 (Permutation_nil_r _) (as_completed_perm [])).
  - intros clause rest Htests. unfold Query.query_sf.
    rewrite bool_decide_eq_false_2 by done. cbn [andb].
    match goal with
    | |- ∃ new r, ?m t = _ =>
        assert (starts_with
                  (Called (QueryAll (soql clause object_type select_fields) include_deleted)) m)
          as Hstart
    end.
    { apply starts_with_bind.
      - destruct async_queries.
        + apply starts_with_bind; [|intros futures; appends_step]. simpl.
          apply starts_with_bind.
          * intros t0.
            destruct (run_sf_query_starts clause object_type select_fields include_deleted
                        Htests t0) as (new & Hnew).
            exists new. simpl. done.
          * intros r. apply appends_bind; [apply submit_all_appends | intros rs; appends_step].
        + simpl. apply starts_with_bind; [by apply run_sf_query_starts|].
          intros records. apply query_loop_appends.
      - intros [|record all_records]; repeat appends_step. }
    destruct (Hstart t) as (new & Hnew).
    match goal with |- ∃ new r, ?m t = _ => destruct (m t) as [t' r] end.
    simpl in Hnew. subst t'. by exists new, r.
Qed.

End Reader.
End QueryFacts.

(** ** Reading on the scenarios *)

Module QueryScenarios.
Import Query Scenarios.

Lemma query_sf_guard_witness :
  query_sf quiet plain_repr false (fun futures => futures) (fun cells => cells) "Contact" ["Id"]
    None (Some crossed_mapping) None false false []
  = ([], Raise ValueError) ∧
  query_sf quiet plain_repr false (fun futures => futures) (fun cells => cells) "Contact" ["Id"]
    None None (Some []) false false []
  = ([], Ok empty_frame) ∧
  ∃ new r,
    query_sf quiet plain_repr false (fun futures => futures) (fun cells => cells) "Contact" ["Id"]
      None None (Some ["Name = 'A'"]) false false []
    = ([] ++ Called (QueryAll (soql "Name = 'A'" "Contact" ["Id"]) false) :: new, r).
Proof.
  destruct (QueryFacts.query_sf_guard quiet plain_repr false (fun futures => futures) (fun cells => cells)
              ltac:(done) "Contact" ["Id"] None (Some crossed_mapping) false false [])
    as (Hguard & _ & _).
  destruct (QueryFacts.query_sf_guard quiet plain_repr false (fun futures => futures) (fun cells => cells)
              ltac:(done) "Contact" ["Id"] None None false false [])
    as (_ & Hempty & Hfirst).
  split; [apply Hguard; by left|]. split; [exact Hempty|].
  apply Hfirst. reflexivity.
Defined.

End QueryScenarios.

(** ** The reconciler and the file import *)

Module ReconcilerFacts.
Import Reconciler.

Section Sender.
Variable w : world.
Variable container_repr : pyval -> string.
Variable type_text : pyval -> string.
Variable chunked_list : list pydict -> nat -> nat -> list (list pydict).

(** C6, as the code has it: when the task is set to store the Salesforce ids
    in Quorum, the upsert succeeded with at least one outcome that carries
    both ids, and the model has neither a custom slug nor an entry in the
    identifier dictionary, [send_external_df_to_external] notifies the
    services channel with the orphaned pairs attached and raises
    [ValueError]. *)
Theorem orphaned_ids_are_fatal (self : NewSalesforceIntegration) (task_name : string) (task : task)
    (external_df : list pydict) (t t1 : trace) (results : list Upsert.upsert_outcome) :
  all_tasks self !! task_name = Some task →
  sf_store_ids_in_quorum task = true →
  Upsert.run_upsert_to_sf w container_repr type_text chunked_list (external_model task)
    (nan_to_none <$> external_df) (batch_size_of task) (sf_match_on task) t
  = (t1, Ok (true, results)) →
  id_update_df results ≠ [] →
  has_custom_slug self (quorum_model task) = false →
  external_id_dictionary self !! quorum_model task = None →
  send_external_df_to_external w container_repr type_text chunked_list self task_name
    external_df t
  = (t1 ++ [NotifyProfSvcs (NowhereToStoreIds task_name (id_update_df results))],
     Raise ValueError).
Proof.
  intros Htask Hstore Hrun Hids Hslug Hdict.
  unfold send_external_df_to_external. rewrite Htask.
  unfold bind at 1. fold (batch_size_of task). rewrite Hrun. rewrite Hstore. simpl negb. cbv iota.
  destruct results as [|r results]; [done|].
  destruct (id_update_df (r :: results)) as [|p ps] eqn:Hdf; [done|].
  rewrite Hslug. rewrite bool_decide_eq_false_2 by (rewrite Hdict; by intros [? ?]).
  done.
Qed.

End Sender.
End ReconcilerFacts.

Module SftpFacts.
Import Sftp.

Lemma saves_follow_delivery_weaken previous t :
  saves_follow_delivery None t → saves_follow_delivery previous t.
Proof. destruct t as [|[] t]; simpl; try done. by intros [[? ?] _]. Qed.

Lemma saves_follow_delivery_app previous t1 t2 :
  saves_follow_delivery previous t1 → saves_follow_delivery None t2 →
  saves_follow_delivery previous (t1 ++ t2).
Proof.
  revert previous. induction t1 as [|ev t1 IH]; intros previous; simpl.
  - intros _. apply saves_follow_delivery_weaken.
  - intros [Hev H1] H2. split; [done|]. by apply IH.
Qed.

Lemma delivers_first_ret {A} (a : A) : delivers_first (ret a).
Proof. intros t. exists []. by rewrite app_nil_r. Qed.

Lemma delivers_first_raise {A} e : delivers_first (@raise step A e).
Proof. intros t. exists []. by rewrite app_nil_r. Qed.

Lemma delivers_first_bind {A B} (m : Run step A) (k : A → Run step B) :
  delivers_first m → (∀ a, delivers_first (k a)) → delivers_first (bind m k).
Proof.
  intros Hm Hk t. unfold bind. destruct (Hm t) as (new & Ht & Hnew).
  destruct (m t) as [t1 [a|e]]; simpl in *; subst.
  - destruct (Hk a (t ++ new)) as (new' & -> & Hnew').
    exists (new ++ new'). split; [by rewrite app_assoc | by apply saves_follow_delivery_app].
  - by exists new.
Qed.

Lemma delivers_first_emit ev :
  (∀ f, ev ≠ SaveFile f) → delivers_first (emit ev).
Proof.
  intros Hev t. exists [ev]. split; [done|]. simpl. split; [|done].
  destruct ev; try done. by destruct (Hev local_filepath).
Qed.

Lemma delivers_first_step_with {A} ev (answer : list step → result A) :
  (∀ f, ev ≠ SaveFile f) → delivers_first (step_with ev answer).
Proof.
  intros Hev t. exists [ev]. split; [done|]. simpl. split; [|done].
  destruct ev; try done. by destruct (Hev local_filepath).
Qed.

Section Pipeline.
Variable c : collaborators.
Variable self : NewSFTPIntegration.

Lemma get_filepaths_delivers_first : delivers_first (_get_sftp_filepaths_with_change c self).
Proof.
  unfold _get_sftp_filepaths_with_change.
  destruct (server_type self); [by apply delivers_first_step_with|..];
    (destruct (credentials_are_dict c); simpl;
     [|apply delivers_first_bind; [by apply delivers_first_emit|intros; apply delivers_first_raise]]).
  - by apply delivers_first_step_with.
  - apply delivers_first_bind; [by apply delivers_first_step_with|].
    intros file_paths. by apply delivers_first_step_with.
  - apply delivers_first_raise.
Qed.

Lemma get_filepaths_no_checksum t :
  ∃ new, (_get_sftp_filepaths_with_change c self t).1 = t ++ new ∧
         Forall no_checksum_stored new.
Proof.
  unfold _get_sftp_filepaths_with_change, step_with, bind, emit, raise.
  destruct (server_type self); simpl.
  - eexists [_]. split; [done|]. by repeat constructor.
  - destruct (credentials_are_dict c); simpl; eexists [_]; (split; [done|]); by repeat constructor.
  - destruct (credentials_are_dict c); simpl.
    + destruct (download_files_from_ftp c t) as [file_paths|e].
      * eexists [_; _]. split; [by rewrite <- app_assoc|]. by repeat constructor.
      * eexists [_]. split; [done|]. by repeat constructor.
    + eexists [_]. split; [done|]. by repeat constructor.
  - destruct (credentials_are_dict c); simpl.
    + exists []. split; [by rewrite app_nil_r | constructor].
    + eexists [_]. split; [done|]. by repeat constructor.
Qed.

Lemma process_file_delivers_first file st : delivers_first (process_file c self file st).
Proof.
  unfold process_file.
  destruct (file.2 || force self || dry_run self); [|apply delivers_first_ret].
  apply delivers_first_bind; [by apply delivers_first_step_with|]. intros external_df.
  apply delivers_first_bind; [by apply delivers_first_step_with|]. intros converted_df.
  apply delivers_first_bind; [|intros; apply delivers_first_ret].
  destruct (dry_run self).
  { apply delivers_first_bind; [by apply delivers_first_emit|intros; apply delivers_first_ret]. }
  intros t. unfold bind, step_with, ret.
  destruct (send_df_to_quorum c t converted_df) as [answer|e]; simpl.
  - destruct file.2; simpl.
    + destruct (save_file c _ file.1); simpl;
        (eexists [_; _]; split; [by rewrite <- app_assoc|]; simpl; eauto).
    + eexists [_]. split; [done|]. simpl. done.
  - eexists [_]. split; [done|]. simpl. done.
Qed.

Lemma process_files_delivers_first files st : delivers_first (process_files c self files st).
Proof.
  revert st. induction files as [|file files IH]; intros st; simpl.
  - apply delivers_first_ret.
  - apply delivers_first_bind; [apply process_file_delivers_first | intros; apply IH].
Qed.

Lemma remove_files_delivers_first files : delivers_first (remove_files files).
Proof.
  induction files as [|file files IH]; simpl.
  - apply delivers_first_ret.
  - apply delivers_first_bind; [by apply delivers_first_emit | intros; apply IH].
Qed.

(** Along every run, a checksum is stored only right after the delivery of
    the same file has returned, and the download step asks for no checksum to
    be stored. *)
Lemma checksum_follows_delivery (t : list step) :
  (∃ new r, run_task_from_external_crm_to_quorum c self t = (t ++ new, r) ∧
            saves_follow_delivery None new) ∧
  (∃ new, (_get_sftp_filepaths_with_change c self t).1 = t ++ new ∧
          Forall no_checksum_stored new).
Proof.
  split; [|apply get_filepaths_no_checksum].
  assert (delivers_first (run_task_from_external_crm_to_quorum c self)) as Hrun.
  { unfold run_task_from_external_crm_to_quorum.
    apply delivers_first_bind; [apply get_filepaths_delivers_first|].
    intros [|file files]; [apply delivers_first_ret|].
    apply delivers_first_bind; [apply process_files_delivers_first|].
    intros [results some_change].
    apply delivers_first_bind.
    { destruct some_change; simpl; [apply delivers_first_ret | by apply delivers_first_emit]. }
    intros _. apply delivers_first_bind; [apply remove_files_delivers_first|].
    intros _. destruct (dry_run self); [apply delivers_first_ret|].
    destruct (has_failure results); apply delivers_first_ret. }
  destruct (Hrun t) as (new & Hnew & Hok).
  destruct (run_task_from_external_crm_to_quorum c self t) as [t' r].
  simpl in Hnew. subst t'. by exists new, r.
Qed.

End Pipeline.
End SftpFacts.

(** ** The reconciler and the file import on the scenarios *)

Module ReconcilerScenarios.
Import Reconciler Scenarios.

Lemma orphaned_ids_are_fatal_witness :
  send_external_df_to_external accepting plain_repr plain_repr Upsert.chunked_list_spec
    (homeless true) "contacts" [contact 7] []
  = ([Called (BulkUpsert "Contact" [stripped_contact] "Id")]
     ++ [NotifyProfSvcs
           (NowhereToStoreIds "contacts"
              (id_update_df [Upsert.mk_outcome true (VInt 7) (VStr "001")]))],
     Raise ValueError).
Proof.
  apply (ReconcilerFacts.orphaned_ids_are_fatal accepting plain_repr plain_repr
           Upsert.chunked_list_spec (homeless true) "contacts" (contact_task true)
           [contact 7] []).
  - by vm_compute.
  - reflexivity.
  - by vm_compute.
  - by vm_compute.
  - by vm_compute.
  - by vm_compute.
Defined.

(** C6 as stated fails: with a task that is set not to store the Salesforce
    ids, the same successful run with the same orphaned pair returns [True]
    and notifies nobody. *)
Lemma unstored_ids_pass_silently :
  id_update_df [Upsert.mk_outcome true (VInt 7) (VStr "001")] = [(VInt 7, VStr "001")] ∧
  has_custom_slug (homeless false) "Supporter" = false ∧
  external_id_dictionary (homeless false) !! "Supporter" = None ∧
  Upsert.run_upsert_to_sf accepting plain_repr plain_repr Upsert.chunked_list_spec "Contact"
    [contact 7] Upsert.SF_API_MAX_BATCH_SIZE None []
  = ([Called (BulkUpsert "Contact" [stripped_contact] "Id")],
     Ok (true, [Upsert.mk_outcome true (VInt 7) (VStr "001")])) ∧
  send_external_df_to_external accepting plain_repr plain_repr Upsert.chunked_list_spec
    (homeless false) "contacts" [contact 7] []
  = ([Called (BulkUpsert "Contact" [stripped_contact] "Id")], Ok true).
Proof. repeat split; by vm_compute. Qed.

End ReconcilerScenarios.

Module SftpScenarios.
Import Sftp Scenarios.

(** C5 fails on the code: the delivery of the file answers [False], and the
    checksum of the file is stored all the same; the run then reports the
    failure. *)
Lemma checksum_saved_after_failed_delivery :
  run_task_from_external_crm_to_quorum failing_delivery live_import []
  = ([DownloadAndCheckForUpdate quorum_sftp false;
      GetExternalDf "f.csv";
      ConvertExtDf "f.csv";
      SendDfToQuorum "f.csv" (Ok false);
      SaveFile "f.csv";
      OsRemove "f.csv"],
     Ok (Finished false)).
Proof. by vm_compute. Qed.

End SftpScenarios.

(** ** Strings *)

Module PyStrFacts.
Import PyStr.

Lemma append_cons c (s1 s2 : string) : String c s1 +:+ s2 = String c (s1 +:+ s2).
Proof. done. Qed.

Lemma append_empty_r (s : string) : s +:+ EmptyString = s.
Proof. induction s as [|c s IH]; [done|]. by rewrite append_cons, IH. Qed.

Lemma append_assoc (s1 s2 s3 : string) : (s1 +:+ s2) +:+ s3 = s1 +:+ (s2 +:+ s3).
Proof. induction s1 as [|c s1 IH]; [done|]. by rewrite !append_cons, IH. Qed.

Lemma rev_app_spec (s acc : string) : String.rev_app s acc = String.rev s +:+ acc.
Proof.
  unfold String.rev. revert acc. induction s as [|c s IH]; intros acc; [done|].
  simpl. rewrite (IH (String c acc)), (IH (String c EmptyString)).
  by rewrite append_assoc.
Qed.

Lemma rev_append (s1 s2 : string) : String.rev (s1 +:+ s2) = String.rev s2 +:+ String.rev s1.
Proof.
  induction s1 as [|c s1 IH]; [by rewrite append_empty_r|].
  rewrite append_cons. unfold String.rev at 1 3. simpl.
  rewrite !rev_app_spec, IH. by rewrite append_assoc.
Qed.

Lemma prefix_append (s1 s2 : string) : String.prefix s1 (s1 +:+ s2) = true.
Proof.
  induction s1 as [|c s1 IH]; [by destruct s2|].
  rewrite append_cons. simpl. destruct (Ascii.ascii_dec c c); [done|congruence].
Qed.

Lemma endswith_append (base suffix : string) : endswith (base +:+ suffix) suffix = true.
Proof. unfold endswith. rewrite rev_append. apply prefix_append. Qed.

Lemma drop_last_append (n : nat) (base suffix : string) :
  n = String.length suffix → drop_last n (base +:+ suffix) = base.
Proof.
  intros ->. unfold drop_last. induction base as [|c base IH].
  - simpl. rewrite Nat.sub_diag. by destruct suffix.
  - rewrite append_cons. simpl String.length.
    assert (S (String.length (base +:+ suffix)) - String.length suffix
            = S (String.length (base +:+ suffix) - String.length suffix)) as ->.
    { rewrite WhereClausesFacts.length_append. lia. }
    simpl. by rewrite IH.
Qed.

End PyStrFacts.

(** ** The WHERE clauses as groups of predicates *)

Module BuilderFacts.
Import WhereClauses WhereClausesFacts Notions PyStrFacts.

Lemma concat_snoc (sep : string) (l : list string) (x : string) :
  l ≠ [] → String.concat sep (l ++ [x]) = String.concat sep l +:+ sep +:+ x.
Proof.
  induction l as [|a l IH]; [done|]. intros _.
  destruct l as [|b l]; [done|].
  change (String.concat sep ((a :: b :: l) ++ [x]))
    with (a +:+ sep +:+ String.concat sep ((b :: l) ++ [x])).
  rewrite IH by done.
  change (String.concat sep (a :: b :: l)) with (a +:+ sep +:+ String.concat sep (b :: l)).
  by rewrite !append_assoc.
Qed.

Lemma concat_nonempty (sep : string) (l : list string) :
  l ≠ [] → Forall (fun s => s ≠ EmptyString) l → String.concat sep l ≠ EmptyString.
Proof.
  destruct l as [|a l]; [done|]. intros _ Hall.
  apply Forall_cons in Hall as [Ha _].
  destruct l; simpl; [done|]. destruct a; [done|]. done.
Qed.

Section Groups.
Variable container_repr : pyval -> string.
Variable max_where : nat.
Variable fm : list (string * string).

Local Abbreviation clause := (current_clause container_repr).
Local Abbreviation items := (where_items container_repr).

Local Abbreviation clauses_of := (clauses_of container_repr fm).

Lemma clause_nonempty r : clause r fm ≠ EmptyString.
Proof. done. Qed.

Lemma grouped_open_empty st groups open :
  grouped st groups open → (String.eqb (current_where st) EmptyString = true ↔ open = []).
Proof.
  intros (_ & Hne & _ & Hcur). rewrite String.eqb_eq, Hcur. split.
  - intros Hempty. destruct open as [|a open]; [done|]. exfalso.
    apply (concat_nonempty " OR " (a :: open)); [done| |done].
    apply Forall_app in Hne as [_ ?]. done.
  - by intros ->.
Qed.

Lemma grouped_flush st groups open :
  open ≠ [] → grouped st groups open → grouped (flush st) (groups ++ [open]) [].
Proof.
  intros Hopen (Hg & Hne & Hclosed & Hcur). split; [|split; [|split]].
  - apply Forall_app. split; [done | by apply Forall_singleton].
  - rewrite app_nil_r. rewrite join_app. simpl. by rewrite app_nil_r.
  - simpl. by rewrite Hclosed, Hcur, fmap_app.
  - done.
Qed.

Lemma clauses_of_app l1 l2 : clauses_of (l1 ++ l2) = clauses_of l1 ++ clauses_of l2.
Proof. unfold clauses_of. by rewrite filter_app, fmap_app. Qed.

Lemma concat_length_mono (sep : string) (l1 l2 : list string) :
  String.length (String.concat sep l1) ≤ String.length (String.concat sep (l1 ++ l2)).
Proof.
  induction l1 as [|a l1 IH]; [simpl; lia|].
  destruct l1 as [|b l1].
  - destruct l2 as [|c l2]; [done|].
    change (String.concat sep ([a] ++ c :: l2)) with (a +:+ sep +:+ String.concat sep (c :: l2)).
    rewrite length_append. simpl. lia.
  - change (String.concat sep ((a :: b :: l1) ++ l2))
      with (a +:+ sep +:+ String.concat sep ((b :: l1) ++ l2)).
    change (String.concat sep (a :: b :: l1)) with (a +:+ sep +:+ String.concat sep (b :: l1)).
    rewrite !length_append. lia.
Qed.

Lemma build_step_grouped total idx record st groups open :
  grouped st groups open →
  ∃ groups' open',
    grouped (build_step container_repr max_where total fm idx record st) groups' open' ∧
    mjoin groups' ++ open' = (mjoin groups ++ open) ++ clauses_of [record] ∧
    (items record fm ≠ [] → idx = total - 1 → open' = []) ∧
    (String.length (String.concat " OR " (open ++ clauses_of [record])) ≤ max_where →
     items record fm = [] ∨ idx ≠ total - 1 →
     groups' = groups ∧ open' = open ++ clauses_of [record]).
Proof.
  intros Hst. unfold build_step.
  set (st1 := if max_where <? String.length (current_where st) then flush st else st).
  assert (∃ groups1 open1, grouped st1 groups1 open1 ∧
            mjoin groups1 ++ open1 = mjoin groups ++ open ∧
            (String.length (String.concat " OR " open) ≤ max_where →
             groups1 = groups ∧ open1 = open))
    as (groups1 & open1 & Hst1 & Hsame & Hkeep).
  { subst st1. destruct (max_where <? String.length (current_where st)) eqn:Hlong.
    - apply Nat.ltb_lt in Hlong.
      assert (current_where st = String.concat " OR " open) as Hcur by (by destruct Hst as (_ & _ & _ & ?)).
      assert (open ≠ []) as Hopen.
      { intros ->. rewrite Hcur in Hlong. simpl in Hlong. lia. }
      exists (groups ++ [open]), []. split; [by apply grouped_flush|]. split.
      + rewrite join_app. simpl. by rewrite !app_nil_r.
      + rewrite Hcur in Hlong. lia.
    - by exists groups, open. }
  rewrite <- Hsame. clear Hsame Hst.
  unfold clauses_of. rewrite filter_cons, filter_nil.
  destruct (decide (items record fm ≠ [])) as [Hitems|Hitems].
  - destruct (items record fm) as [|item its] eqn:Heq; [done|].
    set (joined := if String.eqb (current_where st1) EmptyString then clause record fm
                   else String.concat " OR " [current_where st1; clause record fm]).
    assert (joined = String.concat " OR " (open1 ++ [clause record fm])) as Hjoined.
    { subst joined. destruct (String.eqb (current_where st1) EmptyString) eqn:Hempty.
      - apply (grouped_open_empty _ _ _ Hst1) in Hempty as ->. done.
      - assert (open1 ≠ []) as Hopen.
        { intros Hnil. apply (grouped_open_empty _ _ _ Hst1) in Hnil. congruence. }
        rewrite concat_snoc by done. destruct Hst1 as (_ & _ & _ & ->). done. }
    assert (grouped {| current_where := joined; sf_where_clauses := sf_where_clauses st1 |}
              groups1 (open1 ++ [clause record fm])) as Hst2.
    { destruct Hst1 as (Hg & Hne & Hclosed & Hcur). split; [done|]. split; [|by split].
      rewrite app_assoc. apply Forall_app. split; [done|]. by apply Forall_singleton. }
    cbn [fmap list_fmap].
    destruct ((max_where <? String.length joined) || (idx =? total - 1)) eqn:Hclose.
    + exists (groups1 ++ [open1 ++ [clause record fm]]), []. split; [|split; [|split]].
      * apply grouped_flush; [|done]. by destruct open1.
      * rewrite join_app. simpl. by rewrite !app_nil_r, app_assoc.
      * done.
      * intros Hfits [?|Hidx]; [done|]. exfalso.
        pose proof (concat_length_mono " OR " open [clause record fm]) as Hmono.
        destruct (Hkeep ltac:(lia)) as [-> ->].
        apply orb_true_iff in Hclose as [Hlong|Hlast].
        -- apply Nat.ltb_lt in Hlong. rewrite Hjoined in Hlong. lia.
        -- apply Nat.eqb_eq in Hlast. lia.
    + exists groups1, (open1 ++ [clause record fm]). split; [done|]. split; [by rewrite app_assoc|].
      split.
      * intros _ Hidx. apply orb_false_iff in Hclose as [_ Hne]. apply Nat.eqb_neq in Hne. lia.
      * intros Hfits _.
        pose proof (concat_length_mono " OR " open [clause record fm]) as Hmono.
        by destruct (Hkeep ltac:(lia)) as [-> ->].
  - assert (items record fm = []) as -> by (by destruct (items record fm); [|destruct Hitems]).
    exists groups1, open1. split; [done|]. split; [by rewrite app_nil_r|]. split; [done|].
    cbn [fmap list_fmap]. rewrite app_nil_r. intros Hfits _. by apply Hkeep.
Qed.

Lemma build_loop_grouped total idx records st groups open :
  grouped st groups open →
  ∃ groups' open',
    grouped (build_loop container_repr max_where total fm idx records st) groups' open' ∧
    mjoin groups' ++ open' = (mjoin groups ++ open) ++ clauses_of records ∧
    (∀ front last, records = front ++ [last] → items last fm ≠ [] →
                   idx + length front = total - 1 → open' = []).
Proof.
  revert idx st groups open. induction records as [|record records IH]; intros idx st groups open Hst.
  - exists groups, open. split; [done|]. split; [by rewrite app_nil_r|].
    intros front last Heq. by destruct front.
  - simpl.
    destruct (build_step_grouped total idx record st groups open Hst)
      as (groups1 & open1 & Hst1 & Hsame1 & Hlast1 & _).
    destruct (IH (S idx) _ _ _ Hst1) as (groups2 & open2 & Hst2 & Hsame2 & Hlast2).
    exists groups2, open2. split; [done|]. split.
    + rewrite Hsame2, Hsame1. change (record :: records) with ([record] ++ records).
      by rewrite clauses_of_app, !app_assoc.
    + intros front last Heq Hitems Hidx. destruct front as [|r front].
      * simpl in Heq. injection Heq as -> ->. simpl in Hidx.
        specialize (Hlast1 Hitems ltac:(lia)). subst open1.
        simpl in Hst2. apply (grouped_open_empty _ _ _ Hst2).
        destruct Hst1 as (_ & _ & _ & ->). done.
      * simpl in Heq. injection Heq as <- ->. simpl in Hidx.
        apply (Hlast2 front last); [done|done|lia].
Qed.

Lemma build_loop_app total idx records1 records2 st :
  build_loop container_repr max_where total fm idx (records1 ++ records2) st
  = build_loop container_repr max_where total fm (idx + length records1) records2
      (build_loop container_repr max_where total fm idx records1 st).
Proof.
  revert idx st. induction records1 as [|r records1 IH]; intros idx st; simpl.
  - by rewrite Nat.add_0_r.
  - rewrite IH. f_equal. lia.
Qed.

(** While everything fits and the last index is not reached, nothing is
    closed. *)
Lemma build_loop_open total idx records st open :
  grouped st [] open →
  idx + length records ≤ total - 1 →
  String.length (String.concat " OR " (open ++ clauses_of records)) ≤ max_where →
  grouped (build_loop container_repr max_where total fm idx records st) []
    (open ++ clauses_of records).
Proof.
  revert idx st open. induction records as [|record records IH]; intros idx st open Hst Hidx Hfits.
  - simpl. unfold clauses_of. rewrite filter_nil. simpl. by rewrite app_nil_r.
  - simpl. simpl in Hidx.
    change (record :: records) with ([record] ++ records) in *.
    rewrite clauses_of_app, app_assoc in *.
    destruct (build_step_grouped total idx record st [] open Hst)
      as (groups1 & open1 & Hst1 & _ & _ & Hkeep).
    pose proof (concat_length_mono " OR " (open ++ clauses_of [record]) (clauses_of records)).
    destruct Hkeep as [-> ->]; [lia | right; lia |].
    apply IH; [done | lia | done].
Qed.

End Groups.

(** X1: [_sf_build_where_clauses] loses nothing when the last candidate
    has a value for some mapped field: the WHERE clauses are the predicates
    of the candidates that have such a value, in the order of the
    candidates, cut into non-empty groups that are joined with OR. *)
Theorem where_clauses_cover_candidates (container_repr : pyval -> string) (max_where : nat)
    (search_values : list pydict) (last : pydict) (field_mapping : list (string * string)) :
  where_items container_repr last field_mapping ≠ [] →
  ∃ groups,
    Forall (fun g => g ≠ []) groups ∧
    mjoin groups = clauses_of container_repr field_mapping (search_values ++ [last]) ∧
    _sf_build_where_clauses container_repr max_where (search_values ++ [last]) field_mapping
    = String.concat " OR " <$> groups.
Proof.
  intros Hlast. unfold _sf_build_where_clauses.
  assert (grouped {| current_where := EmptyString; sf_where_clauses := [] |} [] []) as Hinit
    by (by repeat split).
  destruct (build_loop_grouped container_repr max_where field_mapping
              (length (search_values ++ [last])) 0 (search_values ++ [last]) _ _ _ Hinit)
    as (groups & open & Hst & Hsame & Hclosed).
  assert (open = []) as ->.
  { apply (Hclosed search_values last); [done | done |]. rewrite length_app. simpl. lia. }
  exists groups. destruct Hst as (Hg & _ & Hout & _).
  split; [done|]. split; [|done]. by rewrite app_nil_r in Hsame.
Qed.

(** X2: when the last candidate has no value for any mapped field and
    the predicates of the candidates before it fit in one chunk,
    [_sf_build_where_clauses] returns no WHERE clause at all: the loop
    continues before the test for the last candidate, so the chunk that was
    being filled is never closed. *)
Theorem trailing_blank_record_drops_chunk (container_repr : pyval -> string) (max_where : nat)
    (search_values : list pydict) (blank : pydict) (field_mapping : list (string * string)) :
  where_items container_repr blank field_mapping = [] →
  String.length (String.concat " OR " (clauses_of container_repr field_mapping search_values))
    ≤ max_where →
  _sf_build_where_clauses container_repr max_where (search_values ++ [blank]) field_mapping = [].
Proof.
  intros Hblank Hfits. unfold _sf_build_where_clauses.
  assert (grouped {| current_where := EmptyString; sf_where_clauses := [] |} [] []) as Hinit
    by (by repeat split).
  assert (clauses_of container_repr field_mapping (search_values ++ [blank])
          = clauses_of container_repr field_mapping search_values) as Hsame.
  { rewrite clauses_of_app. unfold clauses_of at 2. rewrite filter_cons, filter_nil.
    rewrite decide_False by (by rewrite Hblank; intros ?). by rewrite app_nil_r. }
  pose proof (build_loop_open container_repr max_where field_mapping
                (length (search_values ++ [blank])) 0 search_values _ [] Hinit) as Hopen.
  rewrite length_app in Hopen. simpl in Hopen.
  specialize (Hopen ltac:(lia) Hfits).
  rewrite length_app. simpl.
  rewrite build_loop_app. simpl.
  destruct (build_step_grouped container_repr max_where field_mapping
              (length search_values + 1) (length search_values) blank _ _ _ Hopen)
    as (groups1 & open1 & Hst1 & _ & _ & Hkeep).
  destruct Hkeep as [-> ->].
  - unfold clauses_of at 2. rewrite filter_cons, filter_nil.
    rewrite decide_False by (by rewrite Hblank; intros ?). simpl. by rewrite app_nil_r.
  - by left.
  - by destruct Hst1 as (_ & _ & -> & _).
Qed.

End BuilderFacts.

(** ** Quoting, and what a read sends *)

Module EscapeFacts.

(** X3: in the text that the builder puts between quotes, every quote
    is preceded by a backslash, and a text without a quote is left as it
    is. *)
Theorem escaped_quotes_follow_backslash (s : string) (i : nat) :
  (String.get i (escape_quotes s) = Some "'"%char →
   ∃ j, i = S j ∧ String.get j (escape_quotes s) = Some backslash) ∧
  ((∀ k, String.get k s ≠ Some "'"%char) → escape_quotes s = s).
Proof.
  split.
  - revert i. induction s as [|c s IH]; intros i; simpl; [done|].
    destruct (Ascii.eqb_spec c "'"%char) as [->|Hc].
    + destruct i as [|[|i]]; simpl.
      * intros H. exfalso. vm_compute in H. discriminate.
      * intros _. by exists 0.
      * intros (j & -> & Hj)%IH. by exists (S (S j)).
    + destruct i as [|i]; simpl.
      * intros H. exfalso. apply Hc. congruence.
      * intros (j & -> & Hj)%IH. by exists (S j).
  - induction s as [|c s IH]; intros Hnone; simpl; [done|].
    destruct (Ascii.eqb_spec c "'"%char) as [->|Hc].
    + by destruct (Hnone 0).
    + f_equal. apply IH. intros k. apply (Hnone (S k)).
Qed.

End EscapeFacts.

Module ReaderFacts.
Import Query RunFacts QueryFacts Notions.

Section Reader.
Variable w : world.
Variable container_repr : pyval -> string.
Variable as_completed : list (string * result (list pydict)) -> list (string * result (list pydict)).
Variable convert_objects : list pyval -> list pyval.


Lemma calls_app t1 t2 : calls (t1 ++ t2) = calls t1 ++ calls t2.
Proof. unfold calls. by rewrite omap_app. Qed.

Lemma refused_handler_no_call e t :
  ∃ new, refused_handler e t = (t ++ new, Raise e) ∧ calls new = [].
Proof.
  destruct e as [| | | | | | |[code|]| | |]; simpl; unfold raise, bind, emit;
    try (exists []; by rewrite app_nil_r).
  - eexists [_; _]. by rewrite <- app_assoc.
  - by eexists [_].
Qed.

Lemma run_sf_query_one_call where_clause object_type select_fields include_deleted t :
  ∃ new r,
    _run_sf_query w false where_clause object_type select_fields include_deleted t = (t ++ new, r) ∧
    calls new = [query_of object_type select_fields include_deleted where_clause] ∧
    (∀ records, r = Ok records →
       query_all w t (soql where_clause object_type select_fields) include_deleted = Ok records) ∧
    (∀ e, r = Raise e →
       query_all w t (soql where_clause object_type select_fields) include_deleted = Raise e).
Proof.
  unfold _run_sf_query, try_except, call. simpl.
  destruct (query_all w t _ include_deleted) as [records|e] eqn:Hq.
  - eexists [_], _. split; [done|]. split; [done|]. split; congruence.
  - destruct (refused_handler_no_call e (t ++ [Called (QueryAll (soql where_clause object_type
                 select_fields) include_deleted)])) as (new & -> & Hnew).
    eexists (_ :: new), _. split; [by rewrite <- app_assoc|]. split.
    + change (Called ?r :: new) with ([Called r] ++ new). by rewrite calls_app, Hnew.
    + split; congruence.
Qed.

Lemma run_sf_query_ok where_clause object_type select_fields include_deleted t records :
  query_all w t (soql where_clause object_type select_fields) include_deleted = Ok records →
  _run_sf_query w false where_clause object_type select_fields include_deleted t
  = (t ++ [Called (query_of object_type select_fields include_deleted where_clause)], Ok records).
Proof. intros Hq. unfold _run_sf_query, try_except, call. simpl. by rewrite Hq. Qed.

Lemma answer_at_cons object_type select_fields include_deleted c rest t i sf_where :
  answer_at w object_type select_fields include_deleted rest
    (t ++ [Called (query_of object_type select_fields include_deleted c)]) i sf_where
  = answer_at w object_type select_fields include_deleted (c :: rest) t (S i) sf_where.
Proof. unfold answer_at, sent_before. simpl. by rewrite <- app_assoc. Qed.

Lemma answer_at_first object_type select_fields include_deleted where_clauses t sf_where :
  answer_at w object_type select_fields include_deleted where_clauses t 0 sf_where
  = query_all w t (soql sf_where object_type select_fields) include_deleted.
Proof. unfold answer_at, sent_before. rewrite take_0. simpl. by rewrite app_nil_r. Qed.

(** The loop sends the queries of the clauses in order until one raises:
    what it raises is what that query raised, and it returns only when every
    query was answered. *)
Lemma query_loop_answers object_type select_fields include_deleted where_clauses all_records t :
  ∃ new r n,
    query_loop w false object_type select_fields include_deleted where_clauses all_records t
    = (t ++ new, r) ∧
    calls new = query_of object_type select_fields include_deleted <$> take n where_clauses ∧
    (∀ records, r = Ok records →
       n = length where_clauses ∧
       ∀ i c, where_clauses !! i = Some c →
              ∃ answered, answer_at w object_type select_fields include_deleted
                            where_clauses t i c = Ok answered) ∧
    (∀ e, r = Raise e →
       ∃ i c, n = S i ∧ where_clauses !! i = Some c ∧
              answer_at w object_type select_fields include_deleted where_clauses t i c
              = Raise e ∧
              ∀ j c', j < i → where_clauses !! j = Some c' →
                      ∃ answered, answer_at w object_type select_fields include_deleted
                                    where_clauses t j c' = Ok answered).
Proof.
  revert all_records t. induction where_clauses as [|c rest IH]; intros all_records t;
    cbn [query_loop].
  - exists [], (Ok all_records), 0. unfold ret. rewrite app_nil_r. repeat split; done.
  - unfold bind at 1.
    destruct (query_all w t (soql c object_type select_fields) include_deleted)
      as [records|e] eqn:Hq.
    + rewrite (run_sf_query_ok _ _ _ _ _ _ Hq).
      destruct (IH (all_records ++ records)
                  (t ++ [Called (query_of object_type select_fields include_deleted c)]))
        as (new2 & r & n & -> & Hcalls2 & Hok & Hraise).
      exists (Called (query_of object_type select_fields include_deleted c) :: new2), r, (S n).
      split; [by rewrite <- app_assoc|]. split.
      { change (Called ?q :: new2) with ([Called q] ++ new2). by rewrite calls_app, Hcalls2. }
      split.
      * intros records' Hr. destruct (Hok records' Hr) as [-> Hall]. split; [done|].
        intros [|i] c' Hc'.
        -- injection Hc' as <-. exists records. by rewrite answer_at_first.
        -- rewrite <- answer_at_cons. by apply Hall.
      * intros e He. destruct (Hraise e He) as (i & c' & -> & Hc' & Hans & Hbefore).
        exists (S i), c'. split; [done|]. split; [done|].
        split; [by rewrite <- answer_at_cons|].
        intros [|j] c'' Hj Hc''.
        -- injection Hc'' as <-. exists records. by rewrite answer_at_first.
        -- rewrite <- answer_at_cons. apply Hbefore; [lia | done].
    + destruct (run_sf_query_one_call c object_type select_fields include_deleted t)
        as (new1 & r1 & -> & Hcalls1 & Hok1 & Hraise1).
      destruct r1 as [records|e1]; [specialize (Hok1 records eq_refl); congruence|].
      specialize (Hraise1 e1 eq_refl). rewrite Hq in Hraise1. injection Hraise1 as <-.
      exists new1, (Raise e), 1. split; [done|]. split; [by rewrite Hcalls1|].
      split; [done|]. intros e' [= <-]. exists 0, c. split; [done|]. split; [done|].
      split; [by rewrite answer_at_first|]. intros j c' Hj. lia.
Qed.

(** X4: a synchronous [query_sf] outside the tests sends one query for
    each WHERE clause, in the order of the clauses, and nothing else.  It
    stops at the first clause whose query raises: when it raises, either the
    last query sent is the one of the first clause that Salesforce answered
    with an exception, and that exception is the one raised, or every clause
    was sent and answered and the exception is the [KeyError] of the
    selection of the columns.  A frame is returned only after every clause
    was sent and answered. *)
Theorem sync_queries_follow_clauses (object_type : string) (select_fields : list string)
    (search_values : option (list pydict)) (field_mapping : option (list (string * string)))
    (where_clauses : list string) (include_deleted : bool) (t : trace) :
  ∃ new r n,
    query_sf w container_repr false as_completed convert_objects object_type select_fields search_values
      field_mapping (Some where_clauses) include_deleted false t
    = (t ++ new, r) ∧
    calls new = query_of object_type select_fields include_deleted <$> take n where_clauses ∧
    (∀ frame, r = Ok frame →
       n = length where_clauses ∧
       ∀ i c, where_clauses !! i = Some c →
              ∃ answered, answer_at w object_type select_fields include_deleted
                            where_clauses t i c = Ok answered) ∧
    (∀ e, r = Raise e →
       (∃ i c, n = S i ∧ where_clauses !! i = Some c ∧
               answer_at w object_type select_fields include_deleted where_clauses t i c
               = Raise e ∧
               ∀ j c', j < i → where_clauses !! j = Some c' →
                       ∃ answered, answer_at w object_type select_fields include_deleted
                                     where_clauses t j c' = Ok answered) ∨
       (e = KeyError ∧ n = length where_clauses ∧
        ∀ i c, where_clauses !! i = Some c →
               ∃ answered, answer_at w object_type select_fields include_deleted
                             where_clauses t i c = Ok answered)).
Proof.
  unfold query_sf. rewrite bool_decide_eq_false_2 by done. cbn [andb].
  unfold bind at 1.
  destruct (query_loop_answers object_type select_fields include_deleted where_clauses [] t)
    as (new & r & n & -> & Hcalls & Hok & Hraise).
  destruct r as [all_records|e].
  - destruct (Hok all_records eq_refl) as [-> Hall].
    destruct all_records as [|record all_records].
    + exists new, (Ok empty_frame), (length where_clauses). by repeat split.
    + unfold bind, lift, ret.
      destruct (from_records_select convert_objects (record :: all_records) select_fields) as [rows|e] eqn:Hsel.
      * eexists new, _, (length where_clauses). by repeat split.
      * exists new, (Raise e), (length where_clauses). split; [done|]. split; [done|].
        split; [done|]. intros e' [= <-]. right. split; [|done].
        unfold from_records_select in Hsel. destruct (forallb _ _); congruence.
  - exists new, (Raise e), n. split; [done|]. split; [done|]. split; [done|].
    intros e' [= <-]. left. by apply Hraise.
Qed.

Lemma submit_all_returns tests object_type select_fields include_deleted where_clauses t :
  ∃ t' futures,
    submit_all w tests object_type select_fields include_deleted where_clauses t
    = (t', Ok futures) ∧
    (tests = true → t' = t ∧ Forall (fun f => f.2 = Ok []) futures).
Proof.
  revert t. induction where_clauses as [|c rest IH]; intros t; cbn [submit_all].
  - exists t, []. split; [done|]. by intros _.
  - unfold bind at 1. cbn [fst snd].
    destruct (IH (_run_sf_query w tests c object_type select_fields include_deleted t).1)
      as (t2 & futures & Hrest & Htests).
    unfold bind at 1. rewrite Hrest. unfold ret.
    eexists _, _. split; [done|]. intros ->.
    destruct (Htests eq_refl) as [-> Hall]. split; [done|]. by constructor.
Qed.

(** In asynchronous mode only the selection of the columns can raise. *)
Lemma async_raises_key_error tests object_type select_fields search_values field_mapping
    where_clauses include_deleted t e :
  (query_sf w container_repr tests as_completed convert_objects object_type select_fields
     search_values field_mapping (Some where_clauses) include_deleted true t).2 = Raise e →
  e = KeyError.
Proof.
  unfold query_sf. rewrite bool_decide_eq_false_2 by done. cbn [andb].
  unfold bind at 1. unfold bind at 1.
  destruct (submit_all_returns tests object_type select_fields include_deleted
              where_clauses t) as (t' & futures & -> & _).
  unfold ret at 1.
  destruct (gather as_completed futures) as [|record all_records]; [done|].
  unfold bind, lift, ret.
  destruct (from_records_select convert_objects (record :: all_records) select_fields) as [rows|e'] eqn:Hsel;
    [done|].
  simpl. intros [= <-].
  unfold from_records_select in Hsel. destruct (forallb _ _); congruence.
Qed.

(** X5: an asynchronous [query_sf] never raises what a query raised:
    the exception of a future is logged and dropped, and the only exception
    left is the [KeyError] of the selection of the columns. *)
Theorem async_queries_never_raise (tests_in_progress : bool) (object_type : string)
    (select_fields : list string) (search_values : option (list pydict))
    (field_mapping : option (list (string * string))) (where_clauses : list string)
    (include_deleted : bool) (t : trace) :
  ∃ t' r,
    query_sf w container_repr tests_in_progress as_completed convert_objects object_type select_fields
      search_values field_mapping (Some where_clauses) include_deleted true t
    = (t', r) ∧
    ∀ e, r = Raise e → e = KeyError.
Proof.
  pose proof (async_raises_key_error tests_in_progress object_type select_fields search_values
                field_mapping where_clauses include_deleted t) as Hraise.
  destruct (query_sf _ _ _ _ _ _ _ _ _ _ _ _ _) as [t' r].
  exists t', r. split; [done|]. intros e ->. by apply Hraise.
Qed.

Hypothesis as_completed_perm : ∀ futures, as_completed futures ≡ₚ futures.

Lemma async_nothing_to_ask tests object_type select_fields search_values field_mapping
    include_deleted t :
  query_sf w container_repr tests as_completed convert_objects object_type select_fields
    search_values field_mapping (Some []) include_deleted true t
  = (t, Ok empty_frame).
Proof.
  unfold query_sf. rewrite bool_decide_eq_false_2 by done. cbn [andb submit_all].
  unfold bind, ret, gather. cbn [fmap list_fmap].
  by rewrite (proj1 (Permutation_nil_r _) (as_completed_perm [])).
Qed.

(** X6: with [TESTS_IN_PROGRESS] set, [query_sf] sends nothing to
    Salesforce and returns the empty frame, in both modes, whatever the
    WHERE clauses are.  [as_completed] is assumed to yield the futures it
    was given. *)
Theorem tests_in_progress_sends_nothing (object_type : string) (select_fields : list string)
    (search_values : option (list pydict)) (field_mapping : option (list (string * string)))
    (where_clauses : list string) (include_deleted async_queries : bool) (t : trace) :
  query_sf w container_repr true as_completed convert_objects object_type select_fields search_values
    field_mapping (Some where_clauses) include_deleted async_queries t
  = (t, Ok empty_frame).
Proof.
  unfold query_sf. rewrite bool_decide_eq_false_2 by done. cbn [andb].
  destruct async_queries.
  - unfold bind at 1. unfold bind at 1.
    destruct (submit_all_returns true object_type select_fields include_deleted where_clauses t)
      as (t' & futures & -> & Htests).
    destruct (Htests eq_refl) as [-> Hall]. unfold ret at 1.
    assert (gather as_completed futures = []) as ->; [|done].
    unfold gather. rewrite <- (as_completed_perm futures) in Hall.
    generalize dependent (as_completed futures). intros l Hall.
    induction Hall as [|f fs Hf Hall IH]; [done|]. rewrite fmap_cons. simpl. by rewrite Hf, IH.
  - unfold bind at 1.
    assert (∀ acc, query_loop w true object_type select_fields include_deleted where_clauses acc t
                   = (t, Ok acc)) as ->; [|done].
    induction where_clauses as [|c rest IH]; intros acc; cbn [query_loop]; [done|].
    unfold bind, _run_sf_query, ret. rewrite IH. by rewrite app_nil_r.
Qed.

(** X7: [_run_sf_query] sends one query and returns or raises what
    Salesforce answered.  A refused request is notified to the services
    channel before it is raised again: twice when its error code can be
    read (the [raise e] of the inner [try] is caught by its own [except]),
    once when it cannot; no other exception is notified. *)
Theorem refusal_notified_and_reraised (where_clause object_type : string)
    (select_fields : list string) (include_deleted : bool) (t : trace) :
  let query := soql where_clause object_type select_fields in
  ∃ notes,
    _run_sf_query w false where_clause object_type select_fields include_deleted t
    = (t ++ Called (QueryAll query include_deleted) :: (NotifyProfSvcs <$> notes),
       query_all w t query include_deleted) ∧
    notes = match query_all w t query include_deleted with
            | Raise (SalesforceRefusedRequest (Some code) as e) =>
                [if String.eqb code "INVALID_OPERATION_WITH_EXPIRED_PASSWORD"
                 then ExpiredPassword else RefusedRequest e;
                 RefusedRequest e]
            | Raise (SalesforceRefusedRequest None as e) => [RefusedRequest e]
            | _ => []
            end.
Proof.
  intros query. eexists. split; [|done].
  unfold _run_sf_query, try_except, call. fold query.
  destruct (query_all w t query include_deleted) as [records|e]; [done|].
  destruct e as [| | | | | | |[code|]| | |]; try done;
    unfold refused_handler, bind, emit, raise; by rewrite <- ?app_assoc.
Qed.

End Reader.
End ReaderFacts.

(** ** The shape of a normalized frame *)

Module ShapeFacts.
Import Normalizer RunFacts NormalizerFacts.

Section WithRepr.
Variable container_repr : pyval -> string.

Variable w : world.

(** X8: a frame that [normalize_sf_field_types] returns has the columns
    of the frame it was given, in the same order, and as many cells in every
    column: the normalization changes cells only. *)
Theorem normalize_keeps_shape (df df' : DataFrame) (salesforce_model : string) (t t' : trace) :
  normalize_sf_field_types container_repr w df salesforce_model t = (t', Ok df') →
  columns df' = columns df ∧
  ∀ g, length (column df' g) = length (column df g).
Proof.
  unfold normalize_sf_field_types, get_sf_field_definition_dict.
  unfold bind at 1. unfold bind at 1. unfold call.
  destruct (describe w t salesforce_model) as [description|e]; [|done].
  unfold ret at 1. unfold bind at 1.
  destruct (normalize_fields _ _ _ _ _ _) as [t1 [st|e]] eqn:Hrun; [|done].
  apply normalize_fields_shape in Hrun. simpl in Hrun.
  unfold bind at 1.
  destruct (nonempty (error_messages st)).
  - unfold bind at 1. unfold emit. destruct (error_fatal st); [done|].
    unfold ret. by intros [= _ <-].
  - unfold ret. by intros [= _ <-].
Qed.

Lemma format_date_empty_to_none b v : format_date b (empty_to_none v) = format_date b v.
Proof. destruct v; try done; unfold empty_to_none; simpl; by case_match. Qed.

(** The pass over a column of type [date] or [datetime]. *)
Lemma normalize_field_date fds salesforce_model f fd st t t' st' :
  fds !! f = Some fd →
  fd_Type fd = "date" ∨ fd_Type fd = "datetime" →
  normalize_field container_repr fds salesforce_model f st t = (t', Ok st') →
  column (dataframe st') f
  = format_date (negb (String.eqb (fd_Type fd) "date")) <$> column (dataframe st) f ∧
  ∀ v, v ∈ column (dataframe st) f → is_date v = false →
       NotDates f (reported_nondates (column (dataframe st) f)) ∈ error_messages st' ∧
       ∃ v', v' ∈ reported_nondates (column (dataframe st) f) ∧
             key_of v' = key_of (empty_to_none v).
Proof.
  intros Hfd Htype. unfold normalize_field. rewrite Hfd.
  assert (negb (String.eqb (fd_Type fd) "bool") = true) as -> by (by destruct Htype as [-> | ->]).
  match goal with |- context [existsb is_list ?l] => destruct (existsb is_list l) end.
  { unfold bind, emit, raise. done. }
  unfold lift. intros [= _ Hcheck]. revert Hcheck.
  unfold check_field, assign. cbn [dataframe error_messages error_fatal].
  rewrite !column_set_column.
  assert (bool_decide (fd_Type fd ∈ ["date"; "datetime"]) = true) as ->
    by (by destruct Htype as [-> | ->]; vm_compute).
  destruct (masked _ _) as [selected|e] eqn:Hm; [|done]. apply masked_ok in Hm as [-> _].
  destruct (unique _) as [nondates|e] eqn:Hu; [|done].
  apply unique_ok in Hu as [-> _]. intros [= <-]. split.
  - simpl. rewrite add_error_if_dataframe. simpl.
    rewrite column_set_column, <- list_fmap_compose.
    apply list_fmap_ext. intros i v _. simpl. apply format_date_empty_to_none.
  - intros v Hv Hnot. unfold reported_nondates.
    set (series := empty_to_none <$> column (dataframe st) f).
    assert (empty_to_none v ∈ filter (fun v => is_date_value v = false) series) as Hin.
    { apply list_elem_of_filter. split.
      - unfold is_date_value.
        assert (is_date (empty_to_none v) = false) as ->; [|apply andb_false_r].
        destruct v; try done; unfold empty_to_none; simpl; by repeat case_match.
      - apply list_elem_of_fmap. by exists v. }
    destruct (first_occurrences_represent _ _ Hin) as (v' & Hv' & Hkey).
    split; [|by exists v'].
    assert (nonempty (first_occurrences (filter (fun v => is_date_value v = false) series)) = true)
      as ->.
    { apply nonempty_true. intros Hnil. rewrite Hnil in Hv'. by apply elem_of_nil in Hv'. }
    simpl. apply elem_of_app. right. by left.
Qed.

(** X9: in a column whose Salesforce type is date or datetime, a
    returned frame holds the text of every date under the format of the
    type and [None] for every other cell; and when some cell is not a date,
    the report that is logged names the column together with exactly the
    cells of the column that are not dates, each once, in the order of their
    first occurrence and with an empty sized value given as [None]: the cell
    at hand is among them, up to the equality that [unique] uses. *)
Theorem date_cells_formatted (df df' : DataFrame) (salesforce_model : string)
    (description : list model_field) (t t' : trace) (f : string) (fd : field_definition) :
  NoDup (columns df) →
  describe w t salesforce_model = Ok description →
  f ∈ columns df →
  field_def_dict_of description !! f = Some fd →
  fd_Type fd = "date" ∨ fd_Type fd = "datetime" →
  normalize_sf_field_types container_repr w df salesforce_model t = (t', Ok df') →
  column df' f = format_date (negb (String.eqb (fd_Type fd) "date")) <$> column df f ∧
  ∀ v, v ∈ column df f → is_date v = false →
       (∃ msgs, LogError (ErrorsOnTheRun msgs) ∈ t' ∧
                NotDates f (reported_nondates (column df f)) ∈ msgs) ∧
       (∃ v', v' ∈ reported_nondates (column df f) ∧ key_of v' = key_of (empty_to_none v)).
Proof.
  intros Hnd Hd Hf Hfd Htype Hrun.
  rewrite (normalize_after_describe _ _ _ _ _ _ Hd) in Hrun.
  destruct (normalize_fields _ _ _ _ _ _) as [t1 [st|e]] eqn:Hloop; [|done].
  pose proof Hloop as Hat.
  apply normalize_fields_at with (f := f) in Hat
    as (st1 & st2 & Hstep & Hcells1 & Hcells2 & more & Hmore); [|done..].
  simpl in Hcells1.
  destruct (normalize_field_date _ _ _ _ _ _ _ _ Hfd Htype Hstep) as [Hcol Hrep].
  assert (column (dataframe st1) f = column df f) as Hcol1 by (unfold column; by rewrite Hcells1).
  assert (column (dataframe st) f = column (dataframe st2) f) as Hcol2
    by (unfold column; by rewrite Hcells2).
  rewrite Hcol1 in Hcol, Hrep.
  assert (df' = dataframe st ∧
          (error_messages st ≠ [] → LogError (ErrorsOnTheRun (error_messages st)) ∈ t'))
    as [-> Hlog].
  { destruct (error_messages st) as [|m ms] eqn:Hm; simpl in Hrun.
    - by injection Hrun as <- <-.
    - destruct (error_fatal st); [done|]. injection Hrun as <- <-. split; [done|].
      intros _. apply elem_of_app. right. by left. }
  split; [by rewrite Hcol2|].
  intros v Hv Hnot. destruct (Hrep v Hv Hnot) as (Hin & Hv').
  split; [|done].
  assert (NotDates f (reported_nondates (column df f)) ∈ error_messages st) as Hin'
    by (rewrite Hmore; apply elem_of_app; by left).
  exists (error_messages st). split; [|done].
  apply Hlog. intros Hnil. rewrite Hnil in Hin'. by apply elem_of_nil in Hin'.
Qed.

End WithRepr.
End ShapeFacts.

(** ** The schema and the cells that cannot be normalized *)

Module SchemaFacts.
Import Normalizer RunFacts NormalizerFacts Notions.

Lemma foldl_field_defs (description : list model_field) (acc : gmap string field_definition)
    (name : string) :
  foldl (fun field_def_dict model_field =>
           <[mf_name model_field := field_definition_of model_field]> field_def_dict)
        acc description !! name
  = match last (filter (fun mf => mf_name mf = name) description) with
    | Some mf => Some (field_definition_of mf)
    | None => acc !! name
    end.
Proof.
  revert acc. induction description as [|mf description IH]; intros acc; [done|].
  simpl. rewrite IH. rewrite filter_cons.
  destruct (decide (mf_name mf = name)) as [Heq|Hne].
  - destruct (filter _ description) as [|mf' l] eqn:Hf.
    + simpl. by rewrite <- Heq, lookup_insert_eq.
    + rewrite last_cons_cons.
      destruct (last (mf' :: l)) eqn:Hl; [done | by apply last_None in Hl].
  - destruct (last _); [done|]. by rewrite lookup_insert_ne.
Qed.

(** X10: [get_sf_field_definition_dict] asks Salesforce once for the
    description of the model, and the definition it gives for a name is the
    one of the last field of the description with that name; a name that the
    description does not have is absent. *)
Theorem field_definitions_last_wins (w : world) (salesforce_model : string)
    (description : list model_field) (t : trace) (name : string) :
  describe w t salesforce_model = Ok description →
  ∃ field_def_dict,
    get_sf_field_definition_dict w salesforce_model t
    = (t ++ [Called (Describe salesforce_model)], Ok field_def_dict) ∧
    field_def_dict !! name
    = field_definition_of <$> last (filter (fun mf => mf_name mf = name) description).
Proof.
  intros Hd. unfold get_sf_field_definition_dict, bind, call, ret. rewrite Hd.
  eexists. split; [done|]. unfold field_def_dict_of. rewrite foldl_field_defs.
  by destruct (last _).
Qed.

Lemma field_def_dict_of_picklist description name fd :
  field_def_dict_of description !! name = Some fd →
  fd_Type fd = "picklist" → is_Some (fd_Pick_List fd).
Proof.
  unfold field_def_dict_of. rewrite foldl_field_defs.
  destruct (last _) as [mf|]; [|done]. intros [= <-]. simpl. by intros ->.
Qed.

Section WithRepr.
Variable container_repr : pyval -> string.
Variable w : world.


(** The only branch of [check_field] that reports a picklist without
    values is the one for a picklist definition that carries no list. *)
Lemma check_field_messages f fd st st' :
  check_field container_repr f fd st = Ok st' →
  ∃ new, error_messages st' = error_messages st ++ new ∧
         ∀ g, PicklistUndefined g ∈ new → fd_Type fd = "picklist" ∧ fd_Pick_List fd = None.
Proof.
  unfold check_field, add_error_if, add_error, set_fatal, assign. intros H.
  repeat case_match; simplify_eq; cbn [error_messages];
    first [ exists []; split; [by rewrite app_nil_r|]
          | eexists [_]; split; [done|]
          | eexists [_; _]; split; [by rewrite <- app_assoc|] ];
    intros g Hin;
    repeat (apply elem_of_cons in Hin as [Hin|Hin]; [try done|]);
    try (by apply elem_of_nil in Hin).
  split; [by apply String.eqb_eq | done].
Qed.

Lemma normalize_field_defined fds salesforce_model f st t t' st' :
  (∀ fd, fds !! f = Some fd → fd_Type fd = "picklist" → is_Some (fd_Pick_List fd)) →
  normalize_field container_repr fds salesforce_model f st t = (t', Ok st') →
  defined_picklists (error_messages st) → defined_picklists (error_messages st').
Proof.
  intros Hpick. unfold normalize_field.
  destruct (fds !! f) as [fd|].
  - match goal with |- context [existsb is_list ?l] => destruct (existsb is_list l) end.
    { unfold bind, emit, raise. done. }
    unfold lift. intros [= _ Hcheck] Hst g.
    apply check_field_messages in Hcheck as (new & -> & Hnew).
    rewrite elem_of_app. intros [Hin|Hin].
    + revert Hin. destruct (negb _); apply Hst.
    + destruct (Hnew g Hin) as [Htype Hnone].
      destruct (Hpick fd eq_refl Htype) as [picklist Hsome]. congruence.
  - destruct (String.eqb f "quorum_side_primary_key"); unfold ret; intros [= _ <-] Hst g;
      [apply Hst|].
    simpl. rewrite elem_of_app, list_elem_of_singleton. intros [Hin|?]; [by apply (Hst g) | done].
Qed.

Lemma normalize_fields_defined fds salesforce_model names st t t' st' :
  (∀ f fd, fds !! f = Some fd → fd_Type fd = "picklist" → is_Some (fd_Pick_List fd)) →
  normalize_fields container_repr fds salesforce_model names st t = (t', Ok st') →
  defined_picklists (error_messages st) → defined_picklists (error_messages st').
Proof.
  intros Hpick. revert st t. induction names as [|f names IH]; intros st t; simpl.
  - unfold ret. by intros [= _ <-].
  - unfold bind. destruct (normalize_field _ _ _ f st t) as [t1 [st1|e]] eqn:Hstep; [|done].
    intros Hrest Hst. apply (IH _ _ Hrest).
    apply (normalize_field_defined _ _ _ _ _ _ _ (Hpick f) Hstep Hst).
Qed.

Lemma normalize_fields_quiet fds salesforce_model names st :
  appends (fun ev => ∀ msgs, ev ≠ LogError (ErrorsOnTheRun msgs))
    (normalize_fields container_repr fds salesforce_model names st).
Proof.
  revert st. induction names as [|f names IH]; intros st; simpl; [apply appends_ret|].
  apply appends_bind; [|intros st1; apply IH].
  unfold normalize_field. destruct (fds !! f) as [fd|].
  - match goal with |- context [existsb is_list ?l] => destruct (existsb is_list l) end;
      repeat appends_step.
  - destruct (String.eqb f "quorum_side_primary_key"); apply appends_ret.
Qed.

(** X11: the report of [normalize_sf_field_types] never says that a
    picklist has no values defined: [get_sf_field_definition_dict] gives a
    list, possibly empty, to every field of type picklist, so that branch of
    the normalizer is never taken. *)
Theorem picklists_always_defined (df : DataFrame) (salesforce_model : string) (t : trace) :
  ∃ new r,
    normalize_sf_field_types container_repr w df salesforce_model t = (t ++ new, r) ∧
    ∀ msgs, LogError (ErrorsOnTheRun msgs) ∈ new → defined_picklists msgs.
Proof.
  unfold normalize_sf_field_types, get_sf_field_definition_dict.
  unfold bind at 1. unfold bind at 1. unfold call.
  destruct (describe w t salesforce_model) as [description|e].
  2:{ eexists [_], _. split; [done|]. intros msgs Hin.
      apply list_elem_of_singleton in Hin. done. }
  unfold ret at 1. unfold bind at 1.
  destruct (normalize_fields_quiet (field_def_dict_of description) salesforce_model (columns df)
              {| dataframe := df; error_messages := []; error_fatal := false |}
              (t ++ [Called (Describe salesforce_model)])) as (new1 & Ht1 & Hnew1).
  destruct (normalize_fields _ _ _ _ _ _) as [t1 [st|e]] eqn:Hrun; simpl in Ht1; subst t1.
  - apply normalize_fields_defined in Hrun;
      [|intros f fd; apply field_def_dict_of_picklist|by intros g Hg; apply elem_of_nil in Hg].
    assert (∀ msgs, LogError (ErrorsOnTheRun msgs) ∈ Called (Describe salesforce_model) :: new1
                    → False) as Hquiet.
    { intros msgs [?|Hin]%elem_of_cons; [done|].
      rewrite Forall_forall in Hnew1. by apply (Hnew1 _ Hin msgs). }
    unfold bind at 1. destruct (nonempty (error_messages st)).
    + unfold bind at 1. unfold emit.
      exists (Called (Describe salesforce_model) :: new1
               ++ [LogError (ErrorsOnTheRun (error_messages st))]),
        (if error_fatal st then Raise ValueError else Ok (dataframe st)).
      split.
      { destruct (error_fatal st); unfold raise, bind, ret;
          by rewrite <- !app_assoc. }
      intros msgs Hin. rewrite app_comm_cons in Hin.
      apply elem_of_app in Hin as [Hin|Hin]; [by destruct (Hquiet msgs)|].
      apply list_elem_of_singleton in Hin. by injection Hin as ->.
    + eexists (Called (Describe salesforce_model) :: new1), _.
      split; [unfold ret; by rewrite <- app_assoc|].
      intros msgs Hin. by destruct (Hquiet msgs).
  - eexists (Called (Describe salesforce_model) :: new1), _.
    split; [by rewrite <- app_assoc|].
    intros msgs [?|Hin]%elem_of_cons; [done|].
    rewrite Forall_forall in Hnew1. by destruct (Hnew1 _ Hin msgs).
Qed.

Lemma existsb_is_list_dropna series :
  (∃ items, VList items ∈ series) → existsb is_list (dropna series) = true.
Proof.
  intros (items & Hin). apply existsb_exists. exists (VList items). split; [|done].
  apply list_elem_of_In. by apply list_elem_of_filter.
Qed.

(** X12: a non-empty list in a cell of a column that Salesforce
    describes makes [normalize_sf_field_types] raise [TypeError], whatever
    the type of the field and whatever the other columns hold. *)
Theorem list_cell_is_type_error (df : DataFrame) (salesforce_model : string)
    (description : list model_field) (t : trace) (f : string) (fd : field_definition)
    (item : pyval) (items : list pyval) :
  NoDup (columns df) →
  describe w t salesforce_model = Ok description →
  f ∈ columns df →
  field_def_dict_of description !! f = Some fd →
  VList (item :: items) ∈ column df f →
  ∃ t', normalize_sf_field_types container_repr w df salesforce_model t = (t', Raise TypeError).
Proof.
  intros Hnd Hd Hf Hfd Hcell.
  rewrite (normalize_after_describe _ _ _ _ _ _ Hd).
  apply list_elem_of_split in Hf as (pre & post & Hcols).
  rewrite Hcols in *.
  apply NoDup_app in Hnd as (Hpre & Hdisj & Hpost).
  rewrite normalize_fields_app. unfold bind at 1.
  destruct (normalize_fields _ _ _ pre _ _) as [t1 [st1|e]] eqn:Hrun1.
  2:{ apply normalize_fields_raises in Hrun1 as [[-> _]|[-> Hrows]]; [by eexists| |done].
      simpl in Hrows.
      rewrite (no_rows_column df f (VList (item :: items))) in Hrows; [done| |done].
      rewrite Hcols. apply elem_of_app. right. by left. }
  apply normalize_fields_ok in Hrun1 as (-> & _ & Hcells1 & _ & _); [|done].
  simpl in Hcells1. cbn [normalize_fields]. unfold bind at 1.
  assert (column (dataframe st1) f = column df f) as Hcol.
  { unfold column. rewrite Hcells1; [done|]. intros Hin. apply (Hdisj f Hin). by left. }
  assert (∃ t2, normalize_field container_repr (field_def_dict_of description) salesforce_model
                  f st1 (t ++ [Called (Describe salesforce_model)]) = (t2, Raise TypeError))
    as (t2 & ->); [|by eexists].
  unfold normalize_field. rewrite Hfd.
  match goal with
  | |- context [existsb is_list ?l] => assert (existsb is_list l = true) as ->
  end.
  { apply existsb_is_list_dropna. exists (item :: items).
    destruct (negb (String.eqb (fd_Type fd) "bool")); [|by rewrite Hcol].
    simpl. rewrite column_set_column, Hcol.
    apply list_elem_of_fmap. by exists (VList (item :: items)). }
  unfold bind, emit, raise. by eexists.
Qed.

End WithRepr.
End SchemaFacts.

(** ** Records sent one at a time *)

Module OneAtATimeFacts.
Import Upsert RunFacts UpsertFacts.

Section Engine.
Variable w : world.
Variable container_repr : pyval -> string.
Variable type_text : pyval -> string.

Lemma not_no_content {A} (code : pyval) (a b : A) :
  code ≠ VInt 204 → match code with VInt 204 => a | _ => b end = b.
Proof.
  intros Hne. destruct code as [| |n| | | | | |]; try done.
  destruct n as [|p|p]; try done.
  repeat (destruct p as [p|p|]; try done).
Qed.

Lemma result_item_lookups (id success errors : pyval) (created : bool) :
  dict_get "id" {[ "id" := id; "success" := success; "errors" := errors;
                   "created" := VBool created ]} = id ∧
  dict_get "success" {[ "id" := id; "success" := success; "errors" := errors;
                        "created" := VBool created ]} = success.
Proof. split; by vm_compute. Qed.

(** An update that Salesforce answers with 204. *)
Lemma send_one_updated salesforce_model record sf_id outcome t :
  record !! "Id" = Some sf_id → truthy sf_id = true →
  sf_update w t salesforce_model ("Id/" +:+ unicode container_repr sf_id) (delete "Id" record)
  = Ok (VInt 204) →
  send_one w container_repr type_text salesforce_model "Id" record outcome t
  = (t ++ [Called (Update salesforce_model ("Id/" +:+ unicode container_repr sf_id)
                     (delete "Id" record))],
     Ok (result_item sf_id (VBool true) (VList []) true,
         Some (result_item sf_id (VBool true) (VList []) false))).
Proof.
  intros Hid Htruthy Hupdate.
  unfold send_one, try_except, bind, lift, dict_pop. rewrite Hid. simpl.
  unfold send_matched, bind, call. rewrite Htruthy.
  change ("Id" +:+ "/" +:+ unicode container_repr sf_id)
    with ("Id/" +:+ unicode container_repr sf_id).
  rewrite Hupdate. unfold ret.
  unfold result_item at 1.
  destruct (result_item_lookups sf_id (VBool true) (VList []) false) as [-> ->]. done.
Qed.

(** An update that Salesforce answers with another status. *)
Lemma send_one_stale salesforce_model record sf_id code d t :
  record !! "Id" = Some sf_id → truthy sf_id = true →
  sf_update w t salesforce_model ("Id/" +:+ unicode container_repr sf_id) (delete "Id" record)
  = Ok code →
  code ≠ VInt 204 →
  send_one w container_repr type_text salesforce_model "Id" record (Some (VDict d)) t
  = (t ++ [Called (Update salesforce_model ("Id/" +:+ unicode container_repr sf_id)
                     (delete "Id" record))],
     Ok (result_item (dict_get "id" d) (dict_get "success" d) (VList []) true,
         Some (VDict d))).
Proof.
  intros Hid Htruthy Hupdate Hcode.
  unfold send_one, try_except, bind, lift, dict_pop. rewrite Hid. simpl.
  unfold send_matched, bind, call. rewrite Htruthy.
  change ("Id" +:+ "/" +:+ unicode container_repr sf_id)
    with ("Id/" +:+ unicode container_repr sf_id).
  rewrite Hupdate. unfold ret.
  by rewrite (not_no_content code _ _ Hcode).
Qed.


Lemma send_one_repeats salesforce_model record sf_id code id success errors created t :
  record !! "Id" = Some sf_id → truthy sf_id = true →
  sf_update w t salesforce_model ("Id/" +:+ unicode container_repr sf_id) (delete "Id" record)
  = Ok code →
  code ≠ VInt 204 →
  send_one w container_repr type_text salesforce_model "Id" record
    (Some (result_item id success errors created)) t
  = (t ++ [Called (Update salesforce_model ("Id/" +:+ unicode container_repr sf_id)
                     (delete "Id" record))],
     Ok (result_item id success (VList []) true,
         Some (result_item id success errors created))).
Proof.
  intros Hid Htruthy Hupdate Hcode. unfold result_item at 1.
  rewrite (send_one_stale _ _ _ _ _ _ Hid Htruthy Hupdate Hcode).
  by destruct (result_item_lookups id success errors created) as [-> ->].
Qed.

Lemma record_result_accepted salesforce_model qid id created t :
  truthy id = true →
  record_result salesforce_model qid (result_item id (VBool true) (VList []) created) t
  = (t, Ok (mk_outcome true qid id)).
Proof.
  intros Htruthy. unfold record_result, result_item, try_except, bind, lift, dict_item.
  assert (({[ "id" := id; "success" := VBool true; "errors" := VList [];
              "created" := VBool created ]} : pydict) !! "success" = Some (VBool true)) as ->
    by (by vm_compute).
  assert (({[ "id" := id; "success" := VBool true; "errors" := VList [];
              "created" := VBool created ]} : pydict) !! "id" = Some id) as ->
    by (by vm_compute).
  cbn [truthy]. unfold ret. by rewrite Htruthy.
Qed.

(** X13: on the one-at-a-time path, when the update of a note is
    answered with a code other than 204 after an earlier update was answered
    204, [outcome] still holds the result of the earlier note: the failed
    note is reported as a success, with the Salesforce id of the earlier
    one. *)
Theorem stale_outcome_reported (first second : pydict) (id1 id2 code : pyval) (t : trace) :
  let note1 := delete "Id" (delete "quorum_side_primary_key" first) in
  let note2 := delete "Id" (delete "quorum_side_primary_key" second) in
  let call1 := Update "ContentNote" ("Id/" +:+ unicode container_repr id1) note1 in
  let call2 := Update "ContentNote" ("Id/" +:+ unicode container_repr id2) note2 in
  first !! "Id" = Some id1 → truthy id1 = true →
  second !! "Id" = Some id2 → truthy id2 = true →
  sf_update w t "ContentNote" ("Id/" +:+ unicode container_repr id1) note1 = Ok (VInt 204) →
  sf_update w (t ++ [Called call1]) "ContentNote" ("Id/" +:+ unicode container_repr id2) note2
  = Ok code →
  code ≠ VInt 204 →
  _run_upsert_chunk w container_repr type_text "ContentNote" [first; second] "Id" t
  = (t ++ [Called call1; Called call2],
     Ok [mk_outcome true (dict_get "quorum_side_primary_key" first) id1;
         mk_outcome true (dict_get "quorum_side_primary_key" second) id1]).
Proof.
  intros note1 note2 call1 call2 Hid1 Ht1 Hid2 Ht2 Hup1 Hup2 Hcode.
  subst note1 note2 call1 call2.
  assert (delete "quorum_side_primary_key" first !! "Id" = Some id1) as Hid1'
    by (by rewrite lookup_delete_ne).
  assert (delete "quorum_side_primary_key" second !! "Id" = Some id2) as Hid2'
    by (by rewrite lookup_delete_ne).
  unfold _run_upsert_chunk, split_quorum_ids, dict_pop_default.
  cbn [fmap list_fmap fst snd String.eqb Ascii.eqb Bool.eqb].
  unfold bind at 1. unfold _send_records_one_at_a_time. cbn [send_loop].
  unfold bind at 1.
  rewrite (send_one_updated _ _ id1 None t Hid1' Ht1 Hup1).
  unfold bind at 1.
  rewrite (send_one_repeats _ _ id2 code _ _ _ _ _ Hid2' Ht2 Hup2 Hcode).
  unfold ret at 1. cbn [app length Nat.eqb negb].
  unfold bind at 1. unfold ret at 1. cbn [zip zip_with record_results fst snd].
  unfold bind at 1. rewrite (record_result_accepted _ _ _ _ _ Ht1).
  unfold bind at 1. rewrite (record_result_accepted _ _ _ _ _ Ht1).
  unfold ret. by rewrite <- app_assoc.
Qed.

End Engine.
End OneAtATimeFacts.

(** ** The queries of an import *)

Module ImporterFacts.
Import PyStr PyStrFacts Query Ask Preprocess Importer RunFacts.

(** X14: a filter key that ends in [__gte], [__gt], [__lte] or [__lt]
    is split by [convert_field_mapping_to_query] into the field name before
    the suffix and the operator of the suffix, whatever the field name
    is. *)
Theorem modifier_splits_suffix (base : string) :
  modifier (base +:+ "__gte") = (">=", base) ∧
  modifier (base +:+ "__gt") = (">", base) ∧
  modifier (base +:+ "__lte") = ("<=", base) ∧
  modifier (base +:+ "__lt") = ("<", base).
Proof.
  assert (∀ s1 s2, endswith (base +:+ s1) s2
                   = String.prefix (String.rev s2) (String.rev s1 +:+ String.rev base)) as Hends
    by (intros; unfold endswith; by rewrite rev_append).
  unfold modifier. repeat split.
  - by rewrite endswith_append, drop_last_append.
  - rewrite (Hends "__gt" "__gte"), endswith_append. cbn. rewrite !append_cons. cbn.
    by rewrite drop_last_append.
  - rewrite (Hends "__lte" "__gte"), (Hends "__lte" "__gt"), endswith_append. cbn.
    rewrite !append_cons. cbn. by rewrite drop_last_append.
  - rewrite (Hends "__lt" "__gte"), (Hends "__lt" "__gt"), (Hends "__lt" "__lte"),
      endswith_append. cbn. rewrite !append_cons. cbn.
    by rewrite drop_last_append.
Qed.

Section Reader.
Variable w : world.
Variable container_repr : pyval -> string.
Variable as_completed : list (string * result (list pydict)) -> list (string * result (list pydict)).
Variable convert_objects : list pyval -> list pyval.
Variable get_how_far_to_go_back : result pyval.

Lemma filter_get_elem key v (d : list (string * pyval)) :
  filter_get key d = Some v → (key, v) ∈ d.
Proof.
  unfold filter_get. destruct (List.find _ d) as [[k v']|] eqn:Hfind; [|done].
  intros [= <-]. apply find_some in Hfind as [Hin Hkey].
  apply String.eqb_eq in Hkey. simpl in Hkey. subst k. by apply list_elem_of_In.
Qed.

Lemma filter_get_is_Some key v (d : list (string * pyval)) :
  (key, v) ∈ d → is_Some (filter_get key d).
Proof.
  intros Hin. unfold filter_get.
  destruct (List.find _ d) as [item|] eqn:Hfind; [by eexists|].
  apply list_elem_of_In in Hin. apply (find_none _ _ Hfind) in Hin.
  simpl in Hin. by rewrite String.eqb_refl in Hin.
Qed.

(** X15: a filter with the key [updated_after] gives
    [convert_field_mapping_to_query] two conditions: the date condition on
    [LastModifiedDate], which comes first, and, because the loop over the
    filter does not skip the key, the literal condition [updated_after='...']
    on a field of that name. *)
Theorem updated_after_gives_two_conditions (self : NewSalesforceIntegration)
    (task_name : string) (task : task_config) (query object_type : string)
    (select_fields where_clause_list : list string) (updated_after : pyval) :
  all_tasks self !! task_name = Some task →
  convert_field_mapping_to_query container_repr self task_name
  = Ok (query, object_type, select_fields, where_clause_list) →
  ("updated_after", updated_after) ∈ external_filter task →
  length where_clause_list = S (length (external_filter task)) ∧
  "updated_after='" +:+ unicode container_repr updated_after +:+ "'" ∈ where_clause_list ∧
  ∃ condition, head where_clause_list = Some condition ∧
               String.prefix "LastModifiedDate >= '" condition = true.
Proof.
  intros Htask Hrun Hin. unfold convert_field_mapping_to_query in Hrun. rewrite Htask in Hrun.
  destruct (collect _ _) as [fields|e]; [|done]. simpl in Hrun.
  injection Hrun as _ _ _ <-.
  destruct (filter_get_is_Some _ _ _ Hin) as [v Hv].
  assert (∃ condition, date_condition container_repr self task = [condition] ∧
                       String.prefix "LastModifiedDate >= '" condition = true)
    as (condition & Hdate & Hprefix).
  { unfold date_condition. rewrite Hv.
    destruct (if is_text _ v then _ else None); eexists; (split; [done|]);
      apply (prefix_append "LastModifiedDate >= '"). }
  rewrite Hdate. split; [by rewrite length_app, length_fmap|]. split.
  - apply elem_of_app. right. apply list_elem_of_fmap.
    by exists ("updated_after", updated_after).
  - by exists condition.
Qed.

Local Abbreviation get_all_objects_of_type :=
  (get_all_objects_of_type w container_repr false as_completed convert_objects).

(** X16: [get_all_objects_of_type] outside the tests sends one query,
    whose WHERE clause is the date criterion and the filter criterion joined
    with AND, when one of them is given; when none is given it sends no
    query at all and returns the empty frame, not all the objects. *)
Theorem all_objects_need_a_criterion (sf_object_type : string) (select_fields : list string)
    (updated_after : option pydate) (filter_criteria : string) (include_deleted : bool)
    (t : trace) :
  let criteria :=
    match updated_after with
    | Some d => ["LastModifiedDate >= " +:+ strftime_datetime d]
    | None => []
    end ++ (if String.eqb filter_criteria EmptyString then [] else [filter_criteria]) in
  ∃ new r,
    get_all_objects_of_type sf_object_type select_fields updated_after filter_criteria
      include_deleted t
    = (t ++ new, r) ∧
    calls new
    = match criteria with
      | [] => []
      | _ :: _ => [QueryAll (soql (String.concat " AND " criteria) sf_object_type select_fields)
                            include_deleted]
      end ∧
    (criteria = [] → r = Ok empty_frame).
Proof.
  intros criteria. unfold Importer.get_all_objects_of_type.
  set (date_criteria := match updated_after with Some d => _ | None => EmptyString end).
  set (where_clauses := if _ || _ then _ else []).
  assert (where_clauses = match criteria with
                          | [] => []
                          | _ :: _ => [String.concat " AND " criteria]
                          end) as ->.
  { subst where_clauses criteria date_criteria.
    assert (∀ x, "LastModifiedDate >= " +:+ x ≠ EmptyString) as Hdate by done.
    destruct updated_after as [d|]; destruct (String.eqb_spec filter_criteria EmptyString)
      as [->|Hne]; cbn [negb app];
      repeat first [ rewrite filter_cons_True by (first [apply Hdate | done])
                   | rewrite filter_cons_False by (by intros ?) ];
      rewrite ?filter_nil;
      first [ rewrite bool_decide_eq_true_2 by eauto
            | rewrite bool_decide_eq_false_2 by (by intros [? ?]) ];
      done. }
  destruct criteria as [|c cs].
  - exists [], (Ok empty_frame). by rewrite app_nil_r.
  - set (clause := String.concat " AND " (c :: cs)).
    unfold query_sf. rewrite bool_decide_eq_false_2 by done. cbn [andb].
    unfold bind at 1. cbn [query_loop]. unfold bind at 1.
    destruct (ReaderFacts.run_sf_query_one_call w clause sf_object_type select_fields
                include_deleted t) as (new & r & -> & Hcalls & _).
    destruct r as [records|e]; [|by exists new, (Raise e)].
    unfold ret at 1. rewrite app_nil_l.
    destruct records as [|record records]; [by exists new, (Ok empty_frame)|].
    unfold bind, lift, ret.
    destruct (from_records_select convert_objects (record :: records) select_fields); by eexists new, _.
Qed.

End Reader.
End ImporterFacts.

(** ** Reading for an import *)

Module ImportRunFacts.
Import PyStr PyStrFacts Query Ask Preprocess Importer RunFacts ImporterFacts.

Lemma collect_item_at_raises {A} i (l : list (list A)) e :
  collect (item_at i) l = Raise e → e = IndexError.
Proof.
  induction l as [|x l IH]; [done|]. simpl. unfold item_at at 1.
  destruct (x !! i); simpl; [|congruence].
  destruct (collect (item_at i) l); simpl; [done|]. intros [= <-]. by apply IH.
Qed.

Lemma collect_item_at_ok {A} i (l : list (list A)) :
  Forall (fun x => i < length x) l → ∃ ys, collect (item_at i) l = Ok ys.
Proof.
  induction 1 as [|x l Hx Hall [ys IH]]; [by eexists|]. simpl. unfold item_at at 1.
  destruct (lookup_lt_is_Some_2 x i Hx) as [y ->]. simpl. rewrite IH. by eexists.
Qed.

Section Reader.
Variable w : world.
Variable container_repr : pyval -> string.
Variable tests_in_progress : bool.
Variable as_completed : list (string * result (list pydict)) -> list (string * result (list pydict)).
Variable convert_objects : list pyval -> list pyval.
Variable get_how_far_to_go_back : result pyval.

Local Abbreviation get_external_df_from_external :=
  (get_external_df_from_external w container_repr tests_in_progress as_completed convert_objects
     get_how_far_to_go_back).

Lemma add_filters_raises filters acc e :
  add_filters get_how_far_to_go_back filters acc = Raise e → get_how_far_to_go_back = Raise e.
Proof.
  revert acc. induction filters as [|item filters IH]; intros acc; [done|]. simpl.
  unfold add_filter at 1.
  destruct (String.eqb item.1 "updated_after" && is_text "Last Successful Run" item.2).
  - destruct get_how_far_to_go_back as [d|e']; simpl; [apply IH | congruence].
  - simpl. apply IH.
Qed.

(** X17: [get_external_df_from_external] of the Salesforce
    integration never raises what Salesforce raised, because it queries
    asynchronously: it raises [ValueError] for an unknown task, [IndexError]
    for a mapping with too few entries, what [get_how_far_to_go_back]
    raised, or [KeyError]. *)
Theorem import_read_hides_salesforce_errors (self : NewSalesforceIntegration)
    (task_name : string) (t : trace) :
  ∃ t' r,
    get_external_df_from_external self task_name t = (t', r) ∧
    ∀ e, r = Raise e →
         (e = ValueError ∧ all_tasks self !! task_name = None) ∨
         e = IndexError ∨ get_how_far_to_go_back = Raise e ∨ e = KeyError.
Proof.
  unfold Importer.get_external_df_from_external.
  destruct (all_tasks self !! task_name) as [task|].
  2:{ eexists _, _. split; [done|]. intros e [= <-]. by left. }
  unfold bind at 1. unfold lift at 1.
  destruct (collect (item_at 0) _) as [fields|e0] eqn:Hfields.
  2:{ eexists _, _. split; [done|]. intros e [= <-]. right. left.
      by apply collect_item_at_raises in Hfields. }
  unfold bind at 1. unfold lift at 1.
  destruct (add_filters _ _ _) as [filtered|e0] eqn:Hfilters.
  2:{ eexists _, _. split; [done|]. intros e [= <-]. right. right. left.
      by apply add_filters_raises in Hfilters. }
  unfold bind at 1. unfold lift at 1.
  destruct (collect (item_at 1) _) as [names|e0] eqn:Hnames.
  2:{ eexists _, _. split; [done|]. intros e [= <-]. right. left.
      by apply collect_item_at_raises in Hnames. }
  match goal with |- ∃ t' r, ?m = _ ∧ _ => destruct m as [t' r] eqn:Hrun end.
  exists t', r. split; [done|]. intros e ->. right. right. right.
  eapply ReaderFacts.async_raises_key_error. by rewrite Hrun.
Qed.

Hypothesis as_completed_perm : ∀ futures, as_completed futures ≡ₚ futures.

(** X18: for a task without an external filter,
    [get_external_df_from_external] builds no WHERE clause, sends no query
    and returns the empty frame.  [as_completed] is assumed to yield the
    futures it was given. *)
Theorem import_without_filter_reads_nothing (self : NewSalesforceIntegration)
    (task_name : string) (task : task_config) (t : trace) :
  all_tasks self !! task_name = Some task →
  Forall (fun mapping => 2 ≤ length mapping.2) (fields_mapping task) →
  external_filter task = [] →
  get_external_df_from_external self task_name t = (t, Ok empty_frame).
Proof.
  intros Htask Hmapping Hfilter. unfold Importer.get_external_df_from_external.
  rewrite Htask, Hfilter.
  destruct (collect_item_at_ok 0 (snd <$> fields_mapping task)) as [fields Hfields].
  { apply Forall_fmap. eapply Forall_impl; [done|]. simpl. lia. }
  destruct (collect_item_at_ok 1 (snd <$> fields_mapping task)) as [names Hnames].
  { apply Forall_fmap. eapply Forall_impl; [done|]. simpl. lia. }
  rewrite Hfields, Hnames. unfold bind at 1. unfold lift at 1.
  unfold bind at 1. unfold lift at 1. cbn [add_filters fst snd].
  unfold bind at 1. unfold lift at 1.
  rewrite map_to_list_empty.
  assert (WhereClauses._sf_build_where_clauses container_repr WhereClauses.MAX_WHERE_CLAUSE
            [∅] [] = []) as -> by (by vm_compute).
  by apply ReaderFacts.async_nothing_to_ask.
Qed.

End Reader.

(** *** The preprocessors *)

Section Preprocessors.
Variable h : helpers.

Lemma apply_preprocessors_spec preprocessors_list external_df t :
  ∃ new r,
    apply_preprocessors h preprocessors_list external_df t = (t ++ new, r) ∧
    (∀ name df argument,
       ApplyPreprocessor name df argument ∈ new → df = external_df ∨ empty df = false) ∧
    (∀ ev, ev ∈ new → ∃ name df argument, ev = ApplyPreprocessor name df argument) ∧
    (∀ df, r = Ok (inl df) → empty df = true) ∧
    (∀ df, r = Ok (inr df) →
           (df = external_df ∧ new = []) ∨ empty df = false).
Proof.
  revert external_df t.
  induction preprocessors_list as [|[name argument] rest IH]; intros external_df t.
  - exists [], (Ok (inr external_df)). simpl. unfold ret. rewrite app_nil_r.
    split; [done|]. split; [by intros ? ? ? ?%elem_of_nil|].
    split; [by intros ? ?%elem_of_nil|]. split; [done|]. intros df [= <-]. by left.
  - simpl. unfold bind at 1.
    destruct (get_external_preprocessor h name) as [apply|].
    + unfold ask at 1.
      destruct (apply t external_df argument) as [df1|e].
      * destruct (empty df1) eqn:Hempty.
        -- eexists [_], _. unfold ret. split; [done|]. split.
           { intros n d a [= -> -> ->]%list_elem_of_singleton. by left. }
           split; [intros ev ->%list_elem_of_singleton; by eexists _, _, _|].
           split; [by intros df [= <-] | done].
        -- destruct (IH df1 (t ++ [ApplyPreprocessor name external_df argument]))
             as (new & r & -> & Hin & Hev & Hinl & Hinr).
           exists (ApplyPreprocessor name external_df argument :: new), r.
           split; [by rewrite <- app_assoc|]. split.
           { intros n d a [[= -> -> ->]|Hd]%elem_of_cons; [by left|].
             destruct (Hin _ _ _ Hd) as [->|?]; by right. }
           split.
           { intros ev [->|Hd]%elem_of_cons; [by eexists _, _, _ | by apply Hev]. }
           split; [done|]. intros df Hr. right.
           destruct (Hinr df Hr) as [[-> _]|?]; done.
      * eexists [_], _. split; [done|]. split.
        { intros n d a [= -> -> ->]%list_elem_of_singleton. by left. }
        split; [intros ev ->%list_elem_of_singleton; by eexists _, _, _|]. done.
    + unfold ret at 1. destruct (empty external_df) eqn:Hempty.
      * exists [], (Ok (inl external_df)). unfold ret. rewrite app_nil_r.
        split; [done|]. split; [by intros ? ? ? ?%elem_of_nil|].
        split; [by intros ? ?%elem_of_nil|]. split; [by intros df [= <-] | done].
      * destruct (IH external_df t) as (new & r & -> & Hin & Hev & Hinl & Hinr).
        exists new, r. split; [done|]. split; [done|]. split; [done|]. split; [done|].
        intros df Hr. destruct (Hinr df Hr) as [[-> ->]|?]; [by left | by right].
Qed.

End Preprocessors.

End ImportRunFacts.

(** ** The conversion of an imported frame *)

Module ConvertFacts.
Import PyStr Query Ask Preprocess RunFacts ImportRunFacts Notions.


Section Converters.
Variable h : helpers.

Local Abbreviation clean_unless_returned := (clean_unless_returned h).

Lemma clean_after_loop task_name external_df df0 fields preprocessors_list t :
  ∃ new r,
    bind (apply_preprocessors h preprocessors_list df0) (clean_unless_returned fields)
      (t ++ [ApplyLiteralFields task_name external_df])
    = (t ++ ApplyLiteralFields task_name external_df :: new, r) ∧
    stops_when_emptied task_name external_df (ApplyLiteralFields task_name external_df :: new) r.
Proof.
  unfold bind, clean_unless_returned.
  destruct (apply_preprocessors_spec h preprocessors_list df0
              (t ++ [ApplyLiteralFields task_name external_df]))
    as (new & r & -> & _ & Hev & Hinl & Hinr).
  assert (∀ d, CleanDfColumns d ∉ ApplyLiteralFields task_name external_df :: new) as Hnone.
  { intros d [?|Hd]%elem_of_cons; [done|]. by destruct (Hev _ Hd) as (? & ? & ? & ?). }
  destruct r as [[df|df]|e].
  - exists new, (Ok df). unfold ret. split; [by rewrite <- app_assoc|]. split.
    + intros d Hd. by destruct (Hnone d).
    + intros d [= <-]. left. by apply Hinl.
  - unfold ask. eexists (new ++ [CleanDfColumns df]), _.
    split; [by rewrite <- !app_assoc|]. split.
    + intros d Hd. rewrite app_comm_cons in Hd.
      apply elem_of_app in Hd as [Hd|Hd]; [by destruct (Hnone d)|].
      apply list_elem_of_singleton in Hd as [= ->].
      exists (ApplyLiteralFields task_name external_df :: new). split; [done|].
      destruct (Hinr df eq_refl) as [[_ ->]|?]; [by right | by left].
    + intros d _. right. exists df. rewrite app_comm_cons. apply elem_of_app. right. by left.
  - exists new, (Raise e). split; [by rewrite <- app_assoc|]. split; [|done].
    intros d Hd. by destruct (Hnone d).
Qed.

(** X19: in both [convert_ext_df_to_quorum_df] methods,
    [clean_df_columns] is the last step when it is called, it is given an
    empty frame only when no preprocessor ran before it, and a frame that is
    returned without it is empty. *)
Theorem conversion_stops_when_emptied (sf : Importer.NewSalesforceIntegration)
    (file : FileImport.NewSFTPIntegration) (task_name : string) (external_df : QueryFrame)
    (t : list pipeline_event) :
  (∃ new r,
     Importer.convert_ext_df_to_quorum_df h sf task_name external_df t = (t ++ new, r) ∧
     stops_when_emptied task_name external_df new r) ∧
  (∃ new r,
     FileImport.convert_ext_df_to_quorum_df h file task_name external_df t = (t ++ new, r) ∧
     stops_when_emptied task_name external_df new r).
Proof.
  assert (∀ r, (∀ d, r ≠ Ok d) → stops_when_emptied task_name external_df [] r) as Hnil.
  { intros r Hr. split; [by intros d Hd%elem_of_nil | intros d ->; by destruct (Hr d)]. }
  assert (∀ e, stops_when_emptied task_name external_df
                 [ApplyLiteralFields task_name external_df] (Raise e)) as Hone.
  { intros e. split; [|done]. intros d Hd%list_elem_of_singleton. done. }
  split.
  - unfold Importer.convert_ext_df_to_quorum_df.
    destruct (Importer.all_tasks sf !! task_name) as [task|].
    2:{ exists [], (Raise KeyError). unfold raise. rewrite app_nil_r. split; [done|].
        by apply Hnil. }
    unfold bind at 1. unfold ask at 1.
    destruct (apply_literal_fields h t task_name external_df) as [df0|e].
    2:{ by eexists [_], _. }
    destruct (clean_after_loop task_name external_df df0 (Importer.fields_mapping task)
                (match Importer.external_processors task with
                 | Some l => l
                 | None => []
                 end) t) as (new & r & Hrun & Hstops).
    exists (ApplyLiteralFields task_name external_df :: new), r.
    split; [|done]. rewrite <- Hrun.
    destruct (Importer.external_processors task) as [[|p ps]|]; done.
  - unfold FileImport.convert_ext_df_to_quorum_df.
    destruct (FileImport.all_tasks file !! task_name) as [task|].
    2:{ exists [], (Raise KeyError). unfold raise. rewrite app_nil_r. split; [done|].
        by apply Hnil. }
    unfold bind at 1. unfold ask at 1.
    destruct (apply_literal_fields h t task_name external_df) as [df0|e].
    2:{ by eexists [_], _. }
    destruct (FileImport.external_processors task) as [preprocessors_list|].
    2:{ by eexists [_], _. }
    destruct (clean_after_loop task_name external_df df0 (FileImport.fields_mapping task)
                preprocessors_list t) as (new & r & Hrun & Hstops).
    exists (ApplyLiteralFields task_name external_df :: new), r.
    split; [|done]. by rewrite <- Hrun.
Qed.

End Converters.
End ConvertFacts.

(** ** The import of a task *)

Module ImportTaskFacts.
Import PyStr Query Ask Preprocess Importer RunFacts ImporterFacts ImportRunFacts Notions.

Lemma within_appends {E F A} (inj : E -> F) (proj : F -> option E) (m : Run E A) t :
  ∃ new, within inj proj m t = (t ++ (inj <$> new), (m (omap proj t)).2).
Proof. unfold within. by eexists. Qed.

Section Run.
Variable w : world.
Variable container_repr : pyval -> string.
Variable tests_in_progress : bool.
Variable as_completed : list (string * result (list pydict)) -> list (string * result (list pydict)).
Variable convert_objects : list pyval -> list pyval.
Variable get_how_far_to_go_back : result pyval.
Variable h : helpers.
Variable q : quorum_side_helper.

Local Abbreviation run_task_from_external_crm_to_quorum :=
  (run_task_from_external_crm_to_quorum w container_repr tests_in_progress as_completed convert_objects
     get_how_far_to_go_back h q).
Local Abbreviation import_loop :=
  (import_loop w container_repr tests_in_progress as_completed convert_objects get_how_far_to_go_back h q).

(** X20: on an integration that has no date of a last successful
    run, a task whose filter asks for the updates since the last successful
    run makes [run_task_from_external_crm_to_quorum] raise [KeyError] before
    anything is read: [filters["LastModifiedDate"]] is read from the empty
    dictionary. *)
Theorem first_run_raises_key_error (self : NewSalesforceIntegration) (task_name : string)
    (task : task_config) (updated_after : pyval) (t : list import_event) :
  all_tasks self !! task_name = Some task →
  date_of_last_successful_run self = None →
  filter_get "updated_after" (external_filter task) = Some updated_after →
  is_text "Last Successful Run" updated_after = true →
  run_task_from_external_crm_to_quorum self task_name t = (t, Raise KeyError).
Proof.
  intros Htask Hdate Hget Htext. unfold Importer.run_task_from_external_crm_to_quorum.
  rewrite Htask, Hdate, Hget, Htext.
  assert (Normalizer.nonempty (external_filter task) = true) as ->.
  { destruct (external_filter task); [done|]. done. }
  cbn [andb]. unfold bind at 1. by rewrite lookup_empty.
Qed.


Lemma import_loop_single self task_name query t :
  dry_run self = false →
  ∃ new r,
    import_loop self task_name [query] [] t = (t ++ new, r) ∧
    (∀ results, r = Ok results →
       ∃ result, results = [SendResult result] ∧ live_pass task_name new result) ∧
    (∀ name, LogWarningNoChanges name ∉ new).
Proof.
  intros Hlive. cbn [Importer.import_loop]. rewrite Hlive. unfold bind at 1.
  destruct (within_appends Salesforce salesforce_event
              (get_external_df_from_external w container_repr tests_in_progress as_completed convert_objects
                 get_how_far_to_go_back self (qi_task_name query)) t) as (reading & ->).
  assert (∀ (l : list event) name, LogWarningNoChanges name ∉ Salesforce <$> l) as Hsf.
  { intros l name (? & ? & _)%list_elem_of_fmap. done. }
  assert (∀ (l : list pipeline_event) name, LogWarningNoChanges name ∉ Preprocessing <$> l)
    as Hpre.
  { intros l name (? & ? & _)%list_elem_of_fmap. done. }
  match goal with |- context [match ?x with Ok _ => _ | Raise _ => _ end] =>
    destruct x as [external_df|e] end.
  2:{ eexists _, _. split; [done|]. split; [done | apply Hsf]. }
  unfold bind at 1.
  destruct (within_appends Preprocessing preprocessing_event
              (convert_ext_df_to_quorum_df h self task_name external_df)
              (t ++ (Salesforce <$> reading))) as (preprocessing & ->).
  match goal with |- context [match ?x with Ok _ => _ | Raise _ => _ end] =>
    destruct x as [converted_df|e] end.
  2:{ eexists _, _. split; [by rewrite <- app_assoc|]. split; [done|].
      intros name [?|?]%elem_of_app; [by eapply Hsf | by eapply Hpre]. }
  unfold bind at 1. unfold bind at 1. unfold ask_recorded.
  set (t2 := (t ++ (Salesforce <$> reading)) ++ (Preprocessing <$> preprocessing)).
  assert (∀ name, LogWarningNoChanges name
                    ∉ (Salesforce <$> reading) ++ (Preprocessing <$> preprocessing)
                      ++ [SendDfToQuorum task_name converted_df
                            (send_df_to_quorum q t2 task_name converted_df)]) as Hnone.
  { intros name [?|[?|?%list_elem_of_singleton]%elem_of_app]%elem_of_app;
      [by eapply Hsf | by eapply Hpre | done]. }
  destruct (send_df_to_quorum q t2 task_name converted_df) as [result|e] eqn:Hsend.
  - unfold ret. cbn [app].
    eexists _, _. split; [subst t2; by rewrite <- !app_assoc|]. split; [|done].
    intros results [= <-]. exists result. split; [done|]. by exists reading, preprocessing, converted_df.
  - eexists _, _. split; [subst t2; by rewrite <- !app_assoc|]. split; [done|done].
Qed.

(** X21: a live run of [run_task_from_external_crm_to_quorum]
    makes one pass: it returns [True] exactly when the one delivery to
    Quorum answered [True], otherwise the failure with that answer as its
    only error and [some_change] set; the warning that nothing changed is
    never logged. *)
Theorem live_import_reports_the_delivery (self : NewSalesforceIntegration) (task_name : string)
    (t : list import_event) :
  dry_run self = false →
  ∃ new r,
    run_task_from_external_crm_to_quorum self task_name t = (t ++ new, r) ∧
    (∀ name, LogWarningNoChanges name ∉ new) ∧
    match r with
    | Ok ImportSucceeded => live_pass task_name new (VBool true)
    | Ok (ImportFailed errors some_change) =>
        some_change = true ∧
        ∃ result, result ≠ VBool true ∧ errors = [SendResult result] ∧
                  live_pass task_name new result
    | Ok (DryRunResults _) => False
    | Raise _ => True
    end.
Proof.
  intros Hlive. unfold Importer.run_task_from_external_crm_to_quorum.
  assert (∀ e : exn, ∃ new r,
            (t, @Raise import_outcome e) = (t ++ new, r) ∧
            (∀ name, LogWarningNoChanges name ∉ new) ∧
            match r with
            | Ok ImportSucceeded => live_pass task_name new (VBool true)
            | Ok (ImportFailed errors some_change) =>
                some_change = true ∧
                ∃ result, result ≠ VBool true ∧ errors = [SendResult result] ∧
                          live_pass task_name new result
            | Ok (DryRunResults _) => False
            | Raise _ => True
            end) as Hraise.
  { intros e. exists [], (Raise e). rewrite app_nil_r. split; [done|].
    split; [by intros ? ?%elem_of_nil | done]. }
  destruct (all_tasks self !! task_name) as [task|] eqn:Htask; [|apply Hraise].
  unfold bind at 1.
  match goal with
  | |- context [match ?m t with (_, _) => _ end] => destruct (m t) as [t0 r0] eqn:Hpre
  end.
  assert (t0 = t) as ->.
  { revert Hpre. destruct (_ && _).
    - destruct (_ !! "LastModifiedDate"); unfold ret, raise; by intros [= <- <-].
    - unfold ret. by intros [= <- <-]. }
  destruct r0 as [filters|e]; [|apply Hraise].
  unfold bind at 1. unfold lift at 1.
  unfold _get_salesforce_queries_for_task. rewrite Htask.
  destruct (convert_field_mapping_to_query container_repr self task_name)
    as [[[[query object_type] select_fields] where_clause_str]|e]; [|apply Hraise].
  cbn [and_then]. unfold bind at 1.
  match goal with
  | |- context [Importer.import_loop _ _ _ _ _ _ _ _ self task_name [?qi] [] t] =>
      destruct (import_loop_single self task_name qi t Hlive) as (new & r & -> & Hok & Hnone)
  end.
  destruct r as [results|e]; [|by exists new, (Raise e)].
  destruct (Hok results eq_refl) as (result & -> & Hpass).
  cbn [Normalizer.nonempty negb]. unfold bind at 1. unfold ret at 1. rewrite Hlive.
  cbn [forallb]. unfold ret.
  destruct (is_True (SendResult result)) eqn:Htrue.
  - exists new, (Ok ImportSucceeded). split; [done|]. split; [done|].
    destruct result as [|[]| | | | | | |]; try done.
  - exists new, (Ok (ImportFailed [SendResult result] true)). split.
    { cbn [andb]. by rewrite filter_cons_True by done. }
    split; [done|]. split; [done|]. exists result. split; [|done].
    by intros ->.
Qed.

End Run.
End ImportTaskFacts.

(** ** Uploads and loads of files *)

Module AskFacts.
Import Ask RunFacts.

Lemma appends_ask {E A} (P : E -> Prop) ev (answer : list E -> result A) :
  P ev → appends P (ask ev answer).
Proof. intros H t. exists [ev]. split; [done | by constructor]. Qed.

Lemma appends_ask_recorded {E A} (P : E -> Prop) (ev : result A -> E)
    (answer : list E -> result A) :
  (∀ r, P (ev r)) → appends P (ask_recorded ev answer).
Proof. intros H t. eexists [_]. split; [done | by constructor]. Qed.

Lemma appends_run {E A} (P : E -> Prop) (m : Run E A) t :
  appends P m → ∃ new r, m t = (t ++ new, r) ∧ Forall P new.
Proof.
  intros Hm. destruct (Hm t) as (new & Hnew & Hall). destruct (m t) as [t' r].
  simpl in Hnew. subst t'. by exists new, r.
Qed.

Ltac asks_step :=
  first
    [ apply appends_ret | apply appends_raise | apply appends_lift
    | apply appends_emit; simpl; try done
    | apply appends_ask; simpl; try done
    | apply appends_ask_recorded; simpl; try done
    | apply appends_bind; [|intros ?]
    | apply appends_try_except; [|intros ?]
    | apply appends_if ].

End AskFacts.

Module UploaderFacts.
Import PyStr Query Ask Uploader RunFacts AskFacts.

Section Exports.
Variable o : outside.
Variable to_csv : bool -> QueryFrame -> string.
Variable to_dict_records : QueryFrame -> list pydict.
Variable from_records : list pydict -> QueryFrame.
Variable json_dump : list pydict -> result string.
Variable now_date : string.
Variable now_minute : string.

Local Abbreviation upload_fo_to_ftp := (upload_fo_to_ftp o).
Local Abbreviation encrypt_data := (encrypt_data o).
Local Abbreviation upload_to_remote :=
  (upload_to_remote o to_csv to_dict_records from_records json_dump).
Local Abbreviation save_dataframe_locally := (save_dataframe_locally o to_csv).
Local Abbreviation send_external_df_to_external :=
  (send_external_df_to_external o to_csv to_dict_records from_records json_dump
     now_date now_minute).
Local Abbreviation run_task_from_quorum_to_external_crm :=
  (run_task_from_quorum_to_external_crm o to_csv to_dict_records from_records json_dump
     now_date now_minute).

(** X22: with [overwrite_file] falsy, [upload_fo_to_ftp] puts a file
    only under the name it was given and only after the server answered that
    no file of that name exists; when the server answers that one exists,
    [ValueError] is raised and nothing is put. *)
Theorem existing_file_is_not_overwritten (file_object : file_object) (file_name : string)
    (ftp_endpoint ftp_username ftp_password ftp_dir overwrite_file : pyval)
    (t : list upload_event) :
  truthy overwrite_file = false →
  ∃ new r,
    upload_fo_to_ftp file_object file_name ftp_endpoint ftp_username ftp_password ftp_dir
      overwrite_file t
    = (t ++ new, r) ∧
    (∀ flo remotepath,
       PutFo flo remotepath ∈ new →
       remotepath = file_name ∧ IsFile file_name (Ok false) ∈ new) ∧
    (IsFile file_name (Ok true) ∈ new →
     r = Raise ValueError ∧ ∀ flo remotepath, PutFo flo remotepath ∉ new).
Proof.
  intros Hkeep. unfold Uploader.upload_fo_to_ftp. rewrite Hkeep. cbn [negb].
  assert (∀ e : exn, ∃ new r,
            (t, @Raise bool e) = (t ++ new, r) ∧
            (∀ flo remotepath,
               PutFo flo remotepath ∈ new →
               remotepath = file_name ∧ IsFile file_name (Ok false) ∈ new) ∧
            (IsFile file_name (Ok true) ∈ new →
             r = Raise ValueError ∧ ∀ flo remotepath, PutFo flo remotepath ∉ new)) as Hnone.
  { intros e. exists [], (Raise e). rewrite app_nil_r. split; [done|].
    split; [by intros ? ? ?%elem_of_nil | by intros ?%elem_of_nil]. }
  assert (∀ content,
            ∃ new r,
              (let* _ := ask (Connect ftp_endpoint ftp_username ftp_password) (connect o) in
               let* _ := (if truthy ftp_dir then ask (Chdir ftp_dir) (fun t => chdir o t ftp_dir)
                          else ret tt) in
               let* present := ask_recorded (IsFile file_name) (fun t => isfile o t file_name) in
               if (present : bool) then raise ValueError
               else
                 let* _ := ask (PutFo content file_name)
                               (fun t => putfo o t content file_name) in
                 ret true)%py t
              = (t ++ new, r) ∧
              (∀ flo remotepath,
                 PutFo flo remotepath ∈ new →
                 remotepath = file_name ∧ IsFile file_name (Ok false) ∈ new) ∧
              (IsFile file_name (Ok true) ∈ new →
               r = Raise ValueError ∧ ∀ flo remotepath, PutFo flo remotepath ∉ new)) as Hfile.
  { intros content. unfold bind at 1. unfold ask at 1.
    destruct (connect o t) as [[]|e].
    2:{ eexists [_], _. split; [done|]. split.
        - by intros ? ? ?%list_elem_of_singleton.
        - by intros ?%list_elem_of_singleton. }
    unfold bind at 1.
    set (t1 := t ++ [Connect ftp_endpoint ftp_username ftp_password]).
    assert (∃ pre r1,
              (if truthy ftp_dir then ask (Chdir ftp_dir) (fun t => chdir o t ftp_dir)
               else ret tt) t1 = (t ++ pre, r1) ∧
              Forall (fun ev => (∀ flo p, ev ≠ PutFo flo p) ∧ ∀ n a, ev ≠ IsFile n a) pre)
      as (pre & r1 & -> & Hpre).
    { subst t1. destruct (truthy ftp_dir); unfold ask, ret.
      - eexists [_; _], _. split; [by rewrite <- app_assoc|]. by repeat constructor.
      - eexists [_], _. split; [done|]. by repeat constructor. }
    rewrite Forall_forall in Hpre.
    destruct r1 as [[]|e].
    2:{ exists pre, (Raise e). split; [done|]. split.
        - intros flo p Hin. by destruct (proj1 (Hpre _ Hin) flo p).
        - intros Hin. by destruct (proj2 (Hpre _ Hin) file_name (Ok true)). }
    unfold bind at 1. unfold ask_recorded at 1.
    destruct (isfile o (t ++ pre) file_name) as [[|]|e].
    - exists (pre ++ [IsFile file_name (Ok true)]), (Raise ValueError).
      split; [by rewrite app_assoc|]. split.
      + intros flo p [Hin|Hin%list_elem_of_singleton]%elem_of_app; [|done].
        by destruct (proj1 (Hpre _ Hin) flo p).
      + intros _. split; [done|].
        intros flo p [Hin|Hin%list_elem_of_singleton]%elem_of_app; [|done].
        by destruct (proj1 (Hpre _ Hin) flo p).
    - unfold bind at 1. unfold ask at 1.
      exists (pre ++ [IsFile file_name (Ok false); PutFo content file_name]).
      exists (match putfo o (t ++ pre ++ [IsFile file_name (Ok false)]) content file_name with
              | Ok _ => Ok true
              | Raise e => Raise e
              end).
      split.
      { rewrite <- !app_assoc.
        destruct (putfo o _ content file_name) as [[]|e]; unfold ret;
          rewrite <- ?app_assoc; reflexivity. }
      split.
      + intros flo p [Hin|Hin]%elem_of_app.
        * by destruct (proj1 (Hpre _ Hin) flo p).
        * apply elem_of_cons in Hin as [?|Hin%list_elem_of_singleton]; [done|].
          injection Hin as -> ->. split; [done|]. apply elem_of_app. right. by left.
      + intros [Hin|Hin]%elem_of_app.
        * by destruct (proj2 (Hpre _ Hin) file_name (Ok true)).
        * apply elem_of_cons in Hin as [?|Hin%list_elem_of_singleton]; done.
    - exists (pre ++ [IsFile file_name (Raise e)]), (Raise e).
      split; [by rewrite app_assoc|]. split.
      + intros flo p [Hin|Hin%list_elem_of_singleton]%elem_of_app; [|done].
        by destruct (proj1 (Hpre _ Hin) flo p).
      + intros [Hin|Hin%list_elem_of_singleton]%elem_of_app; [|done].
        by destruct (proj2 (Hpre _ Hin) file_name (Ok true)). }
  destruct file_object as [content|content|v]; [apply Hfile | apply Hfile | apply Hnone].
Qed.

Ltac run_cases :=
  unfold bind, ask, ask_recorded, emit, ret, raise, lift; repeat case_match; simplify_eq.

Ltac in_list H :=
  repeat (apply elem_of_cons in H as [H|H]; simplify_eq); try by apply elem_of_nil in H.

Ltac all_events :=
  repeat first [ apply List.Forall_nil
               | apply List.Forall_cons; [repeat split; (done || (intros; discriminate))|] ].

Ltac run_shape :=
  rewrite <- ?app_assoc;
  first [ eexists _, _; split; [reflexivity|]
        | exists []; eexists; rewrite app_nil_r; split; [reflexivity|] ];
  simpl.

Lemma encrypt_data_outcome self data t :
  ∃ new r,
    encrypt_data self data t = (t ++ new, r) ∧
    Forall (fun ev => reaches_a_server ev = false ∧ ev ≠ LogError EncryptionFailed ∧
                      ev ≠ LogError NonCsvNotSupported ∧
                      ∀ filename data, ev ≠ WriteFile filename data) new ∧
    (∀ line, LogError line ∈ new → r = Ok None) ∧
    (r = Ok None →
     match org_details self with
     | None => new = []
     | Some (public_key, recipient_email) =>
         ∃ key_file_name output_file_name,
           new = [NamedTemporaryFile public_key;
                  SubprocessCall ["gpg"; "--import"; key_file_name];
                  NamedTemporaryFile EmptyString;
                  Communicate ["gpg"; "--encrypt"; "--trust-model"; "always"; "--yes";
                               "--recipient"; recipient_email; "--output"; output_file_name;
                               "-"] data;
                  LogError ErrorEncryptingFile]
     end) ∧
    (∀ encrypted_data, r = Ok (Some encrypted_data) →
     ∃ public_key recipient_email key_file_name output_file_name,
       org_details self = Some (public_key, recipient_email) ∧
       new = [NamedTemporaryFile public_key;
              SubprocessCall ["gpg"; "--import"; key_file_name];
              NamedTemporaryFile EmptyString;
              Communicate ["gpg"; "--encrypt"; "--trust-model"; "always"; "--yes";
                           "--recipient"; recipient_email; "--output"; output_file_name;
                           "-"] data;
              ReadFile output_file_name; OsRemove output_file_name;
              OsRemove key_file_name]).
Proof.
  unfold Uploader.encrypt_data. destruct (org_details self) as [[public_key recipient_email]|].
  2:{ exists [], (Ok None). rewrite app_nil_r. unfold ret. split; [done|].
      split; [by constructor|]. split; [by intros ? ?%elem_of_nil|]. split; [done|].
      intros ? [=]. }
  run_cases; run_shape.
  all: split; [all_events|].
  all: split; [intros line Hin; in_list Hin; done|].
  all: split; [intros [=]; eauto|].
  all: intros ? [=]; subst; eauto 10.
Qed.

(** X23: [encrypt_data] removes its two temporary files only when
    the encryption succeeded.  When gpg returns a code other than 0 the
    result is [None] and the file with the public key and the output file
    are both left behind; without organization details nothing is done. *)
Theorem temporary_files_removed_only_on_success self data t :
  ∃ new r,
    encrypt_data self data t = (t ++ new, r) ∧
    match r with
    | Ok (Some encrypted_data) =>
        ∃ public_key recipient_email key_file_name output_file_name,
          org_details self = Some (public_key, recipient_email) ∧
          new = [NamedTemporaryFile public_key;
                 SubprocessCall ["gpg"; "--import"; key_file_name];
                 NamedTemporaryFile EmptyString;
                 Communicate ["gpg"; "--encrypt"; "--trust-model"; "always"; "--yes";
                              "--recipient"; recipient_email; "--output"; output_file_name;
                              "-"] data;
                 ReadFile output_file_name; OsRemove output_file_name;
                 OsRemove key_file_name]
    | Ok None =>
        match org_details self with
        | None => new = []
        | Some (public_key, recipient_email) =>
            ∃ key_file_name output_file_name,
              new = [NamedTemporaryFile public_key;
                     SubprocessCall ["gpg"; "--import"; key_file_name];
                     NamedTemporaryFile EmptyString;
                     Communicate ["gpg"; "--encrypt"; "--trust-model"; "always"; "--yes";
                                  "--recipient"; recipient_email; "--output";
                                  output_file_name; "-"] data;
                     LogError ErrorEncryptingFile]
        end
    | Raise _ => ∀ line, LogError line ∉ new
    end.
Proof.
  destruct (encrypt_data_outcome self data t) as (new & r & Heq & _ & Hlog & Hnone & Hsome).
  exists new, r. split; [done|]. destruct r as [[encrypted_data|]|e].
  - by apply (Hsome encrypted_data).
  - by apply Hnone.
  - intros line Hin. by specialize (Hlog line Hin).
Qed.

Lemma bind_outcome {E A B} (m : Run E A) (k : A -> Run E B) t new r :
  m t = (t ++ new, r) →
  bind m k t = match r with Ok a => k a (t ++ new) | Raise e => (t ++ new, Raise e) end.
Proof. intros Heq. unfold bind. rewrite Heq. by destruct r. Qed.

Lemma Forall_reaches (new : list upload_event) :
  Forall (fun ev => reaches_a_server ev = false ∧ ev ≠ LogError EncryptionFailed ∧
                    ev ≠ LogError NonCsvNotSupported ∧
                    ∀ filename data, ev ≠ WriteFile filename data) new →
  Forall (fun ev => reaches_a_server ev = false) new ∧
  (LogError EncryptionFailed ∉ new) ∧ (LogError NonCsvNotSupported ∉ new) ∧
  ∀ filename data, WriteFile filename data ∉ new.
Proof.
  rewrite !Forall_forall. intros Hall. split; [intros ev Hin; by apply Hall|].
  split; [intros Hin; by destruct (Hall _ Hin) as (_ & ? & _)|].
  split; [intros Hin; by destruct (Hall _ Hin) as (_ & _ & ? & _)|].
  intros filename data' Hin. destruct (Hall _ Hin) as (_ & _ & _ & Hw). by eapply Hw.
Qed.

Lemma file_for_upload_outcome self output_df filename t :
  ∃ new r,
    file_for_upload o to_csv self output_df filename t = (t ++ new, r) ∧
    Forall (fun ev => reaches_a_server ev = false) new ∧
    (LogError EncryptionFailed ∈ new → r = Ok None).
Proof.
  unfold file_for_upload. destruct (endswith filename ".csv.gpg").
  - destruct (encrypt_data_outcome self (to_csv true output_df) t)
      as (new & r & Heq & Hall & _).
    apply Forall_reaches in Hall as (Hquiet & Hfailed & _).
    rewrite (bind_outcome _ _ _ _ _ Heq). destruct r as [[encrypted_data|]|e].
    + by exists new, (Ok (Some (BytesIO encrypted_data, "application/pgp-encrypted"))).
    + exists (new ++ [LogError EncryptionFailed]), (Ok None).
      unfold bind, emit, ret. rewrite app_assoc. split; [done|]. split; [|done].
      apply Forall_app. split; [done|]. by repeat constructor.
    + by exists new, (Raise e).
  - destruct (endswith filename ".csv"); unfold ret, raise.
    + eexists [], _. rewrite app_nil_r. split; [done|]. split; [by constructor|].
      by intros ?%elem_of_nil.
    + eexists [], _. rewrite app_nil_r. split; [done|]. split; [by constructor|].
      by intros ?%elem_of_nil.
Qed.

Lemma save_dataframe_locally_outcome self output_df filename t :
  ∃ new r,
    save_dataframe_locally self output_df filename t = (t ++ new, r) ∧
    Forall (fun ev => reaches_a_server ev = false) new ∧
    (∀ line, LogError line ∈ new →
             r = Ok false ∧ ∀ name data, WriteFile name data ∉ new).
Proof.
  unfold Uploader.save_dataframe_locally. destruct (endswith filename ".csv.gpg").
  - destruct (encrypt_data_outcome self (to_csv true output_df) t)
      as (new & r & Heq & Hall & Hlog & _).
    apply Forall_reaches in Hall as (Hquiet & Hfailed & _ & Hwrite).
    rewrite (bind_outcome _ _ _ _ _ Heq). destruct r as [[encrypted_data|]|e].
    + unfold bind, ask, ret.
      exists (new ++ [WriteFile filename encrypted_data]).
      exists (match write_file o (t ++ new) filename encrypted_data with
              | Ok _ => Ok true
              | Raise e => Raise e
              end).
      split; [rewrite app_assoc; by destruct (write_file o _ filename encrypted_data)|].
      split; [apply Forall_app; split; [done|by repeat constructor]|].
      intros line [Hin|Hin%list_elem_of_singleton]%elem_of_app; [|done].
      by specialize (Hlog line Hin).
    + exists (new ++ [LogError EncryptionFailed]), (Ok false).
      unfold bind, emit, ret. rewrite app_assoc. split; [done|].
      split; [apply Forall_app; split; [done|by repeat constructor]|].
      intros _ _. split; [done|].
      intros name data' [Hin|Hin%list_elem_of_singleton]%elem_of_app; [|done].
      by apply (Hwrite name data').
    + exists new, (Raise e). split; [done|]. split; [done|].
      intros line Hin. by specialize (Hlog line Hin).
  - destruct (endswith filename ".csv").
    + unfold bind, ask, ret. eexists [_].
      exists (match write_file o t filename (to_csv true output_df) with
              | Ok _ => Ok true
              | Raise e => Raise e
              end).
      split; [by destruct (write_file o t filename _)|].
      split; [by repeat constructor|].
      by intros line ?%list_elem_of_singleton.
    + unfold bind, emit, ret. eexists [_], _. split; [done|].
      split; [by repeat constructor|]. intros _ _. split; [done|].
      by intros name data' ?%list_elem_of_singleton.
Qed.

Lemma upload_records_as_csv records filename ftp_endpoint ftp_username ftp_password ftp_dir
    overwrite_file t :
  ∃ new r,
    upload_records_to_external_ftp o to_csv from_records json_dump records "csv" filename
      ftp_endpoint ftp_username ftp_password ftp_dir overwrite_file t
    = (t ++ new, r) ∧
    Forall (fun ev => (∀ line, ev ≠ LogError line) ∧
                      ∀ flo remotepath,
                        ev = PutFo flo remotepath →
                        flo = to_csv false (from_records records) ∧ remotepath = filename)
           new ∧
    (∀ b, r = Ok b → b = true ∧ PutFo (to_csv false (from_records records)) filename ∈ new).
Proof.
  unfold upload_records_to_external_ftp, convert_records_to_file_obj.
  change (String.eqb "csv" "csv") with true. cbn [fst]. unfold lift at 1.
  unfold bind at 1. cbn [fst]. unfold Uploader.upload_fo_to_ftp.
  run_cases; run_shape.
  all: split;
    [repeat first [ apply List.Forall_nil
                  | apply List.Forall_cons; [split; [done|by intros ? ? [= <- <-]]|] ]|].
  all: intros b Hb; simplify_eq; (split; [done|]).
  all: repeat first [ by left | right ].
Qed.

Lemma upload_to_remote_outcome self output_df filename t :
  ∃ new r,
    upload_to_remote self output_df filename t = (t ++ new, r) ∧
    (LogError EncryptionFailed ∈ new →
     r = Ok (Some false) ∧ Forall (fun ev => delivers ev = false) new) ∧
    (server_type self ∉ [Sftp.quorum_sftp; Sftp.external_sftp] → new = []) ∧
    (server_type self = Sftp.external_sftp →
     (∀ flo remotepath,
        PutFo flo remotepath ∈ new →
        flo = to_csv false (from_records (to_dict_records output_df)) ∧
        remotepath = filename) ∧
     (r = Ok (Some true) →
      PutFo (to_csv false (from_records (to_dict_records output_df))) filename ∈ new)).
Proof.
  unfold Uploader.upload_to_remote.
  assert (∀ (r : result (option bool)),
            ∃ new r',
              (t, r) = (t ++ new, r') ∧
              (LogError EncryptionFailed ∈ new →
               r' = Ok (Some false) ∧ Forall (fun ev => delivers ev = false) new) ∧
              new = []) as Hnothing.
  { intros r. exists [], r. rewrite app_nil_r. split; [done|]. split; [|done].
    by intros ?%elem_of_nil. }
  destruct (dry_run self).
  { destruct (Hnothing (Raise ValueError)) as (new & r & Heq & Hfailed & ->).
    exists [], r. split; [done|]. split; [done|]. split; [done|]. intros _.
    split; [by intros ? ? ?%elem_of_nil|]. injection Heq as _ <-. done. }
  destruct (server_type self) eqn:Hserver.
  - (* the Quorum server *)
    unfold bind at 1. unfold ask at 1.
    destruct (new_quorum_sftp_helper o t) as [[]|e].
    2:{ eexists [_], _. split; [done|]. split; [by intros ?%list_elem_of_singleton|].
        split; [intros Hno; exfalso; apply Hno; by left|]. done. }
    destruct (file_for_upload_outcome self output_df filename
                (t ++ [NewQuorumSFTPHelper (quorum_sftp_base_path self)]))
      as (new & r & Heq & Hquiet & Hfailed).
    rewrite (bind_outcome _ _ _ _ _ Heq).
    assert (Forall (fun ev => delivers ev = false) new) as Hkept.
    { eapply Forall_impl; [exact Hquiet|]. by intros [] ?. }
    destruct r as [[[file_obj content_type]|]|e].
    + exists (NewQuorumSFTPHelper (quorum_sftp_base_path self)
                :: new ++ [QuorumUploadFile file_obj
                             (posixpath_join (quorum_sftp_base_path self) filename)
                             content_type]).
      exists (match quorum_upload_file o
                      ((t ++ [NewQuorumSFTPHelper (quorum_sftp_base_path self)]) ++ new)
                      file_obj (posixpath_join (quorum_sftp_base_path self) filename)
                      content_type with
              | Ok _ => Ok (Some true)
              | Raise e => Raise e
              end).
      split.
      { unfold bind, ask, ret.
        destruct (quorum_upload_file o _ file_obj _ content_type);
          by rewrite <- !app_assoc. }
      split; [|split; [intros Hno; exfalso; apply Hno; by left|done]].
      intros Hin. apply elem_of_cons in Hin as [?|Hin]; [done|].
      apply elem_of_app in Hin as [Hin|Hin%list_elem_of_singleton]; [|done].
      by specialize (Hfailed Hin).
    + exists (NewQuorumSFTPHelper (quorum_sftp_base_path self) :: new), (Ok (Some false)).
      split; [unfold ret; by rewrite <- app_assoc|].
      split; [|split; [intros Hno; exfalso; apply Hno; by left|done]].
      intros _. split; [done|]. by constructor.
    + exists (NewQuorumSFTPHelper (quorum_sftp_base_path self) :: new), (Raise e).
      split; [by rewrite <- app_assoc|].
      split; [|split; [intros Hno; exfalso; apply Hno; by left|done]].
      intros Hin. apply elem_of_cons in Hin as [?|Hin]; [done|]. by specialize (Hfailed Hin).
  - destruct (Hnothing (Ok None)) as (new & r & Heq & Hfailed & ->).
    exists [], r. split; [done|]. split; [done|]. split; [done|]. by intros [=].
  - (* an external server *)
    destruct (file_for_upload_outcome self output_df filename t)
      as (new & r & Heq & Hquiet & Hfailed).
    rewrite (bind_outcome _ _ _ _ _ Heq).
    assert (Forall (fun ev => delivers ev = false) new) as Hkept.
    { eapply Forall_impl; [exact Hquiet|]. by intros [] ?. }
    assert (∀ flo remotepath, PutFo flo remotepath ∉ new) as Hnoput.
    { intros flo remotepath Hin. rewrite Forall_forall in Hquiet.
      by specialize (Hquiet _ Hin). }
    destruct r as [[prepared|]|e].
    + assert (∀ e : exn,
                ∃ new' r',
                  (t ++ new ++ [GetSsmParam (aws_ssm_path_to_credentials self)],
                   @Raise (option bool) e) = (t ++ new', r') ∧
                  (LogError EncryptionFailed ∈ new' →
                   r' = Ok (Some false) ∧ Forall (fun ev => delivers ev = false) new') ∧
                  (Sftp.external_sftp ∉ [Sftp.quorum_sftp; Sftp.external_sftp] → new' = []) ∧
                  (Sftp.external_sftp = Sftp.external_sftp →
                   (∀ flo remotepath,
                      PutFo flo remotepath ∈ new' →
                      flo = to_csv false (from_records (to_dict_records output_df)) ∧
                      remotepath = filename) ∧
                   (r' = Ok (Some true) →
                    PutFo (to_csv false (from_records (to_dict_records output_df))) filename
                    ∈ new'))) as Hraised.
      { intros e. exists (new ++ [GetSsmParam (aws_ssm_path_to_credentials self)]), (Raise e).
        split; [done|]. split.
        { intros [Hin|Hin%list_elem_of_singleton]%elem_of_app; [|done].
          by specialize (Hfailed Hin). }
        split; [intros Hno; exfalso; apply Hno; right; by left|]. intros _.
        split; [|done].
        intros flo remotepath [Hin|Hin%list_elem_of_singleton]%elem_of_app; [|done].
        by destruct (Hnoput flo remotepath). }
      unfold bind at 1. unfold ask at 1. rewrite <- app_assoc.
      destruct (get_ssm_param_by_path o (t ++ new) (aws_ssm_path_to_credentials self))
        as [external_ftp_creds|e]; [|apply Hraised].
      destruct external_ftp_creds as [| | | | | | |creds|]; try apply Hraised.
      unfold lift at 1, bind at 1.
      destruct (Upsert.dict_item "SFTP Endpoint" creds) as [ftp_endpoint|e];
        [|apply Hraised].
      unfold lift at 1, bind at 1.
      destruct (Upsert.dict_item "SFTP Username" creds) as [ftp_username|e];
        [|apply Hraised].
      unfold lift at 1, bind at 1.
      destruct (Upsert.dict_item "SFTP Password" creds) as [ftp_password|e];
        [|apply Hraised].
      destruct (upload_records_as_csv (to_dict_records output_df) filename ftp_endpoint
                  ftp_username ftp_password (dict_get "ftp_dir" creds)
                  (default (VBool false) (creds !! "overwrite_file"))
                  (t ++ new ++ [GetSsmParam (aws_ssm_path_to_credentials self)]))
        as (sent & success & Hsent & Hall & Hput).
      rewrite (bind_outcome _ _ _ _ _ Hsent). rewrite Forall_forall in Hall.
      exists (new ++ [GetSsmParam (aws_ssm_path_to_credentials self)] ++ sent).
      exists (match success with Ok _ => Ok (Some true) | Raise e => Raise e end).
      split.
      { rewrite <- !app_assoc. destruct success as [b|e]; [|done].
        destruct (Hput b eq_refl) as [-> _]. done. }
      split.
      { intros [Hin|[Hin%list_elem_of_singleton|Hin]%elem_of_app]%elem_of_app.
        - by specialize (Hfailed Hin).
        - done.
        - by destruct (proj1 (Hall _ Hin) EncryptionFailed). }
      split; [intros Hno; exfalso; apply Hno; right; by left|]. intros _. split.
      { intros flo remotepath
          [Hin|[Hin%list_elem_of_singleton|Hin]%elem_of_app]%elem_of_app.
        - by destruct (Hnoput flo remotepath).
        - done.
        - by apply (proj2 (Hall _ Hin)). }
      destruct success as [b|e]; [|done]. intros _.
      destruct (Hput b eq_refl) as [_ Hin]. apply elem_of_app. right.
      apply elem_of_app. by right.
    + exists new, (Ok (Some false)). split; [done|].
      split; [intros _; by split|].
      split; [intros Hno; exfalso; apply Hno; right; by left|]. intros _.
      split; [|done]. intros flo remotepath Hin. by destruct (Hnoput flo remotepath).
    + exists new, (Raise e). split; [done|]. split; [intros Hin; by specialize (Hfailed Hin)|].
      split; [intros Hno; exfalso; apply Hno; right; by left|]. intros _.
      split; [|done]. intros flo remotepath Hin. by destruct (Hnoput flo remotepath).
  - destruct (Hnothing (Ok None)) as (new & r & Heq & Hfailed & ->).
    exists [], r. split; [done|]. split; [done|]. split; [done|]. by intros [=].
Qed.

(** X24: on an external server, the only file that
    [upload_to_remote] puts is the CSV text of the records of the frame,
    under the file name given, also when the name ends in [.csv.gpg]: the
    encrypted data that was prepared is not what is uploaded.  A result of
    [True] means that this file was put. *)
Theorem external_upload_is_plain_csv self output_df filename t :
  server_type self = Sftp.external_sftp →
  ∃ new r,
    upload_to_remote self output_df filename t = (t ++ new, r) ∧
    (∀ flo remotepath,
       PutFo flo remotepath ∈ new →
       flo = to_csv false (from_records (to_dict_records output_df)) ∧
       remotepath = filename) ∧
    (r = Ok (Some true) →
     PutFo (to_csv false (from_records (to_dict_records output_df))) filename ∈ new).
Proof.
  intros Hserver.
  destruct (upload_to_remote_outcome self output_df filename t)
    as (new & r & Heq & _ & _ & Hput).
  exists new, r. split; [done|]. by apply Hput.
Qed.

Lemma send_external_df_to_external_outcome self task_name external_df t :
  ∃ new r,
    send_external_df_to_external self task_name external_df t = (t ++ new, r) ∧
    (LogError EncryptionFailed ∈ new →
     (∃ results, r = Ok results) ∧ Forall (fun ev => delivers ev = false) new) ∧
    (server_type self ∉ [Sftp.quorum_sftp; Sftp.external_sftp] →
     Forall (fun ev => reaches_a_server ev = false) new) ∧
    (dry_run self = true →
     Forall (fun ev => reaches_a_server ev = false) new ∧
     (∀ results, r = Ok results → results = DryRunSuccess) ∧
     (∀ line, LogError line ∈ new →
              r = Ok DryRunSuccess ∧ ∀ name data, WriteFile name data ∉ new)).
Proof.
  unfold Uploader.send_external_df_to_external.
  destruct (all_tasks self !! task_name) as [task|].
  2:{ exists [], (Raise KeyError). rewrite app_nil_r. split; [done|].
      split; [by intros ?%elem_of_nil|]. split; [by intros _; constructor|]. intros _.
      split; [by constructor|]. split; [by intros ? [=]|]. by intros ? ?%elem_of_nil. }
  cbv zeta.
  set (filename := if contains "{{datetime}}" (sftp_file_name task) then _ else _).
  destruct (dry_run self) eqn:Hdry.
  - destruct (save_dataframe_locally_outcome self external_df filename t)
      as (new & r & Heq & Hquiet & Hlog).
    rewrite (bind_outcome _ _ _ _ _ Heq).
    exists new, (match r with Ok _ => Ok DryRunSuccess | Raise e => Raise e end).
    split; [by destruct r|].
    assert (Forall (fun ev => delivers ev = false) new) as Hkept.
    { eapply Forall_impl; [exact Hquiet|]. by intros [] ?. }
    split.
    { intros Hin. destruct (Hlog _ Hin) as [-> _]. split; [by eexists|done]. }
    split; [done|]. intros _. split; [done|]. split.
    { intros results. destruct r; by intros [= <-]. }
    intros line Hin. destruct (Hlog _ Hin) as [-> Hwrite]. by split.
  - set (df := if bool_decide _ then _ else _).
    destruct (upload_to_remote_outcome self df filename t)
      as (new & r & Heq & Hfailed & Hother & _).
    rewrite (bind_outcome _ _ _ _ _ Heq).
    exists new, (match r with Ok results => Ok (Uploaded results) | Raise e => Raise e end).
    split; [by destruct r|]. split.
    { intros Hin. destruct (Hfailed Hin) as [-> Hkept]. split; [by eexists|done]. }
    split; [|done]. intros Hno. rewrite (Hother Hno). by constructor.
Qed.

(** X25: in a dry run, [send_external_df_to_external] reaches no
    server and returns the success list whenever it returns, also when the
    local save logged an error and wrote no file. *)
Theorem dry_run_send_stays_local self task_name external_df t :
  dry_run self = true →
  ∃ new r,
    send_external_df_to_external self task_name external_df t = (t ++ new, r) ∧
    Forall (fun ev => reaches_a_server ev = false) new ∧
    (∀ results, r = Ok results → results = DryRunSuccess) ∧
    (∀ line, LogError line ∈ new →
             r = Ok DryRunSuccess ∧ ∀ name data, WriteFile name data ∉ new).
Proof.
  intros Hdry.
  destruct (send_external_df_to_external_outcome self task_name external_df t)
    as (new & r & Heq & _ & _ & Hlocal).
  exists new, r. split; [done|]. by apply Hlocal.
Qed.

(** X26: [run_task_from_quorum_to_external_crm] returns [False]
    exactly when Quorum gave nothing to export.  It returns [True] without a
    file having been delivered when the encryption failed, and for a server
    type other than the two file servers it reaches no server at all. *)
Theorem export_success_is_not_delivery self task_name t :
  ∃ new r,
    run_task_from_quorum_to_external_crm self task_name t = (t ++ new, r) ∧
    (r = Ok false ↔ new = [GetDfFromQuorum task_name; LogWarningNoResults task_name]) ∧
    (LogError EncryptionFailed ∈ new →
     r = Ok true ∧ Forall (fun ev => delivers ev = false) new) ∧
    (server_type self ∉ [Sftp.quorum_sftp; Sftp.external_sftp] →
     Forall (fun ev => reaches_a_server ev = false) new).
Proof.
  unfold Uploader.run_task_from_quorum_to_external_crm.
  unfold bind at 1. unfold ask at 1.
  assert (∃ new r,
            (let* _ := emit (LogWarningNoResults task_name) in ret false)%py
              (t ++ [GetDfFromQuorum task_name]) = (t ++ new, r) ∧
            (r = Ok false ↔ new = [GetDfFromQuorum task_name; LogWarningNoResults task_name]) ∧
            (LogError EncryptionFailed ∈ new →
             r = Ok true ∧ Forall (fun ev => delivers ev = false) new) ∧
            (server_type self ∉ [Sftp.quorum_sftp; Sftp.external_sftp] →
             Forall (fun ev => reaches_a_server ev = false) new)) as Hnothing.
  { exists [GetDfFromQuorum task_name; LogWarningNoResults task_name], (Ok false).
    split; [unfold bind, emit, ret; by rewrite <- app_assoc|]. split; [done|].
    split; [intros Hin; in_list Hin|]. intros _. by repeat constructor. }
  destruct (get_df_from_quorum o t task_name) as [[quorum_df|]|e]; [|done|].
  2:{ exists [GetDfFromQuorum task_name], (Raise e). split; [done|].
      split; [split; intros [=]|]. split; [intros Hin; in_list Hin|].
      intros _. by repeat constructor. }
  destruct (Preprocess.empty quorum_df); [done|].
  unfold convert_quorum_df_to_external_df.
  destruct (all_tasks self !! task_name) as [task|] eqn:Htask.
  2:{ exists [GetDfFromQuorum task_name], (Raise AttributeError). split; [done|].
      split; [split; intros [=]|]. split; [intros Hin; in_list Hin|].
      intros _. by repeat constructor. }
  unfold bind at 1. unfold ask at 1.
  destruct (clean_df_columns o (t ++ [GetDfFromQuorum task_name]) quorum_df
              (fields_mapping task)) as [external_df|e].
  2:{ exists [GetDfFromQuorum task_name; CleanDfColumns quorum_df], (Raise e).
      split; [by rewrite <- app_assoc|].
      split; [split; intros [=]|]. split; [intros Hin; in_list Hin|].
      intros _. by repeat constructor. }
  destruct (send_external_df_to_external_outcome self task_name external_df
              ((t ++ [GetDfFromQuorum task_name]) ++ [CleanDfColumns quorum_df]))
    as (new & r & Heq & Hfailed & Hother & _).
  rewrite (bind_outcome _ _ _ _ _ Heq).
  exists (GetDfFromQuorum task_name :: CleanDfColumns quorum_df :: new).
  exists (match r with Ok _ => Ok true | Raise e => Raise e end).
  split; [destruct r; unfold ret; by rewrite <- !app_assoc|].
  split; [split; [by destruct r|intros [=]]|]. split.
  - intros Hin. apply elem_of_cons in Hin as [?|Hin]; [done|].
    apply elem_of_cons in Hin as [?|Hin]; [done|].
    destruct (Hfailed Hin) as [[results ->] Hkept]. split; [done|]. by repeat constructor.
  - intros Hno. specialize (Hother Hno). by repeat constructor.
Qed.

End Exports.
End UploaderFacts.

Module FileImportFacts.
Import PyStr Query Ask Preprocess FileImport RunFacts AskFacts.

(** X27: when the first load of the file fails with an exception
    that is not a Unicode error, [get_external_df_from_external] logs it and
    raises [UnboundLocalError] instead, [dataframe] never having been bound;
    when it fails with a Unicode error, the file is loaded once more with the
    encoding that was detected, and the outcome of that load is the
    result. *)
Theorem failed_load_raises_unbound_local (tools : file_tools) (self : NewSFTPIntegration)
    (task_name : string) (task : task) (filepath extension_key : string) (c : ascii)
    (rest : string) (e : exn) (t : list load_event) :
  all_tasks self !! task_name = Some task →
  sftp_delimiter task = Some (String c rest) →
  rewrite_file tools t (current_local_filepath self) = Ok filepath →
  get_file_extension tools (t ++ [RewriteFile (current_local_filepath self)]) filepath
  = Ok extension_key →
  let found := t ++ [RewriteFile (current_local_filepath self); GetFileExtension filepath] in
  load_spreadsheet_as_dataframe tools found filepath extension_key (String c rest) "UTF-8"
  = Raise e →
  let first_try := LoadSpreadsheet filepath extension_key (String c rest) "UTF-8" (Raise e) in
  (is_unicode_error e = false →
   get_external_df_from_external tools self task_name t
   = (found ++ [first_try; LogErrorFailedToLoad e], Raise UnboundLocalError)) ∧
  (is_unicode_error e = true →
   ∀ encoding,
     find_csv_encoding tools (found ++ [first_try; LogWarningNotUtf8 e]) filepath
     = Ok encoding →
     let second :=
       load_spreadsheet_as_dataframe tools
         (found ++ [first_try; LogWarningNotUtf8 e; FindCsvEncoding filepath])
         filepath extension_key (String c rest) encoding in
     get_external_df_from_external tools self task_name t
     = (found ++ [first_try; LogWarningNotUtf8 e; FindCsvEncoding filepath;
                  LoadSpreadsheet filepath extension_key (String c rest) encoding second],
        second)).
Proof.
  intros Htask Hdelimiter Hrewrite Hextension found Hload first_try.
  assert (get_external_df_from_external tools self task_name t
          = (if is_unicode_error e then
               let* _ := emit (LogWarningNotUtf8 e) in
               let* encoding := ask (FindCsvEncoding filepath)
                                    (fun t => find_csv_encoding tools t filepath) in
               load tools filepath extension_key (String c rest) encoding
             else
               let* _ := emit (LogErrorFailedToLoad e) in
               raise UnboundLocalError)%py (found ++ [first_try])) as ->.
  { unfold get_external_df_from_external. rewrite Htask.
    unfold bind at 1. unfold ask at 1. rewrite Hrewrite.
    unfold bind at 1. unfold ask at 1. rewrite Hextension.
    rewrite Hdelimiter. unfold bind at 1. unfold ret at 1.
    unfold try_except. unfold load at 1. unfold ask_recorded at 1.
    replace ((t ++ [RewriteFile (current_local_filepath self)])
               ++ [GetFileExtension filepath])
      with found by (subst found; by rewrite <- app_assoc).
    by rewrite Hload. }
  split.
  - intros ->. unfold bind, emit, raise. by rewrite <- !app_assoc.
  - intros -> encoding Hencoding second. unfold bind at 1. unfold emit at 1.
    unfold bind at 1. unfold ask at 1.
    replace ((found ++ [first_try]) ++ [LogWarningNotUtf8 e])
      with (found ++ [first_try; LogWarningNotUtf8 e]) by (by rewrite <- app_assoc).
    rewrite Hencoding. unfold load, ask_recorded.
    replace ((found ++ [first_try; LogWarningNotUtf8 e]) ++ [FindCsvEncoding filepath])
      with (found ++ [first_try; LogWarningNotUtf8 e; FindCsvEncoding filepath])
      by (by rewrite <- app_assoc).
    subst second. by rewrite <- app_assoc.
Qed.

End FileImportFacts.

(** ** The further properties on concrete inputs *)

Module CaseFacts.
Import Scenarios Cases Notions.

Lemma where_clauses_cover_candidates_witness :
  ∃ groups,
    Forall (fun g => g ≠ []) groups ∧
    mjoin groups = clauses_of plain_repr crossed_mapping ([crossed_record] ++ [crossed_record]) ∧
    WhereClauses._sf_build_where_clauses plain_repr WhereClauses.MAX_WHERE_CLAUSE
      ([crossed_record] ++ [crossed_record]) crossed_mapping
    = String.concat " OR " <$> groups.
Proof.
  apply (BuilderFacts.where_clauses_cover_candidates plain_repr WhereClauses.MAX_WHERE_CLAUSE
           [crossed_record] crossed_record crossed_mapping).
  by vm_compute.
Defined.

Lemma trailing_blank_record_drops_chunk_witness :
  WhereClauses._sf_build_where_clauses plain_repr WhereClauses.MAX_WHERE_CLAUSE
    ([crossed_record] ++ [blank_record]) crossed_mapping
  = [].
Proof.
  apply (BuilderFacts.trailing_blank_record_drops_chunk plain_repr
           WhereClauses.MAX_WHERE_CLAUSE [crossed_record] blank_record crossed_mapping).
  - reflexivity.
  - vm_compute. lia.
Defined.

Lemma tests_in_progress_sends_nothing_witness :
  Query.query_sf quiet plain_repr true in_order as_objects "Contact" ["Id"] None None
    (Some ["Name = 'A'"]) false true []
  = ([], Ok Query.empty_frame).
Proof.
  apply (ReaderFacts.tests_in_progress_sends_nothing quiet plain_repr in_order as_objects).
  intros futures. reflexivity.
Defined.

Lemma normalize_keeps_shape_witness :
  Normalizer.columns (one_column "Id" [VNone]) = Normalizer.columns (one_column "Id" [VInt 0]) ∧
  ∀ g, length (Normalizer.column (one_column "Id" [VNone]) g)
       = length (Normalizer.column (one_column "Id" [VInt 0]) g).
Proof.
  apply (ShapeFacts.normalize_keeps_shape plain_repr schema (one_column "Id" [VInt 0])
           (one_column "Id" [VNone]) "Contact" [] [Called (Describe "Contact")]).
  by vm_compute.
Defined.

Lemma date_cells_formatted_witness :
  Normalizer.column (one_column "Birthdate" [VStr "2024-01-01"; VNone]) "Birthdate"
  = Normalizer.format_date (negb (String.eqb "date" "date"))
      <$> Normalizer.column (one_column "Birthdate" [VDate new_year; VStr "soon"]) "Birthdate" ∧
  ∀ v, v ∈ Normalizer.column (one_column "Birthdate" [VDate new_year; VStr "soon"]) "Birthdate" →
       is_date v = false →
       (∃ msgs,
          LogError (ErrorsOnTheRun msgs)
          ∈ [Called (Describe "Contact");
             LogError (ErrorsOnTheRun [NotDates "Birthdate" [VStr "soon"]])] ∧
          NotDates "Birthdate"
            (Normalizer.reported_nondates
               (Normalizer.column (one_column "Birthdate" [VDate new_year; VStr "soon"])
                  "Birthdate")) ∈ msgs) ∧
       (∃ v',
          v' ∈ Normalizer.reported_nondates
                 (Normalizer.column (one_column "Birthdate" [VDate new_year; VStr "soon"])
                    "Birthdate") ∧
          Normalizer.key_of v' = Normalizer.key_of (Normalizer.empty_to_none v)).
Proof.
  apply (ShapeFacts.date_cells_formatted plain_repr dated
           (one_column "Birthdate" [VDate new_year; VStr "soon"])
           (one_column "Birthdate" [VStr "2024-01-01"; VNone]) "Contact"
           [plain_field "Birthdate" "date" 0] []
           [Called (Describe "Contact");
            LogError (ErrorsOnTheRun [NotDates "Birthdate" [VStr "soon"]])]
           "Birthdate" (Normalizer.field_definition_of (plain_field "Birthdate" "date" 0))).
  - vm_compute. apply NoDup_singleton.
  - reflexivity.
  - vm_compute. left.
  - by vm_compute.
  - left. reflexivity.
  - by vm_compute.
Defined.

Lemma field_definitions_last_wins_witness :
  ∃ field_def_dict,
    Normalizer.get_sf_field_definition_dict schema "Contact" []
    = ([] ++ [Called (Describe "Contact")], Ok field_def_dict) ∧
    field_def_dict !! "Id"
    = Normalizer.field_definition_of
        <$> last (filter (fun mf => mf_name mf = "Id") contact_description).
Proof.
  apply (SchemaFacts.field_definitions_last_wins schema "Contact" contact_description [] "Id").
  reflexivity.
Defined.

Lemma list_cell_is_type_error_witness :
  ∃ t',
    Normalizer.normalize_sf_field_types plain_repr schema (one_column "Id" [VList [VInt 1]])
      "Contact" []
    = (t', Raise TypeError).
Proof.
  apply (SchemaFacts.list_cell_is_type_error plain_repr schema (one_column "Id" [VList [VInt 1]])
           "Contact" contact_description [] "Id"
           (Normalizer.field_definition_of (plain_field "Id" "id" 18)) (VInt 1) []).
  - vm_compute. apply NoDup_singleton.
  - reflexivity.
  - vm_compute. left.
  - by vm_compute.
  - vm_compute. left.
Defined.

Lemma stale_outcome_reported_witness :
  Upsert._run_upsert_chunk one_note plain_repr plain_repr "ContentNote"
    [content_note; other_note] "Id" []
  = ([] ++ [Called (Update "ContentNote" ("Id/" +:+ unicode plain_repr (VStr "069"))
                      (delete "Id" (delete "quorum_side_primary_key" content_note)));
            Called (Update "ContentNote" ("Id/" +:+ unicode plain_repr (VStr "070"))
                      (delete "Id" (delete "quorum_side_primary_key" other_note)))],
     Ok [Upsert.mk_outcome true (dict_get "quorum_side_primary_key" content_note) (VStr "069");
         Upsert.mk_outcome true (dict_get "quorum_side_primary_key" other_note) (VStr "069")]).
Proof.
  apply (OneAtATimeFacts.stale_outcome_reported one_note plain_repr plain_repr content_note
           other_note (VStr "069") (VStr "070") (VInt 404) []).
  - by vm_compute.
  - reflexivity.
  - by vm_compute.
  - reflexivity.
  - reflexivity.
  - reflexivity.
  - discriminate.
Defined.

Lemma import_without_filter_reads_nothing_witness :
  Importer.get_external_df_from_external quiet plain_repr false in_order as_objects no_date
    (first_import []) "contacts" []
  = ([], Ok Query.empty_frame).
Proof.
  apply (ImportRunFacts.import_without_filter_reads_nothing quiet plain_repr false in_order as_objects
           no_date ltac:(intros futures; reflexivity) (first_import []) "contacts"
           (contacts_import []) []).
  - by vm_compute.
  - repeat constructor.
  - reflexivity.
Defined.

Lemma updated_after_gives_two_conditions_witness :
  length ["LastModifiedDate >= '2024-01-01'"; "updated_after='2024-01-01'"]
  = S (length (Importer.external_filter (contacts_import [("updated_after", VStr "2024-01-01")]))) ∧
  "updated_after='" +:+ unicode plain_repr (VStr "2024-01-01") +:+ "'"
  ∈ ["LastModifiedDate >= '2024-01-01'"; "updated_after='2024-01-01'"] ∧
  ∃ condition,
    head ["LastModifiedDate >= '2024-01-01'"; "updated_after='2024-01-01'"] = Some condition ∧
    String.prefix "LastModifiedDate >= '" condition = true.
Proof.
  apply (ImporterFacts.updated_after_gives_two_conditions plain_repr
           (first_import [("updated_after", VStr "2024-01-01")]) "contacts"
           (contacts_import [("updated_after", VStr "2024-01-01")])
           "SELECT Name FROM Contact WHERE LastModifiedDate >= '2024-01-01' AND updated_after='2024-01-01'"
           "Contact" ["Name"] ["LastModifiedDate >= '2024-01-01'"; "updated_after='2024-01-01'"]
           (VStr "2024-01-01")).
  - by vm_compute.
  - by vm_compute.
  - left.
Defined.

Lemma first_run_raises_key_error_witness :
  Importer.run_task_from_external_crm_to_quorum quiet plain_repr false in_order as_objects no_date
    passive obliging (first_import [("updated_after", VStr "Last Successful Run")])
    "contacts" []
  = ([], Raise KeyError).
Proof.
  apply (ImportTaskFacts.first_run_raises_key_error quiet plain_repr false in_order as_objects no_date
           passive obliging (first_import [("updated_after", VStr "Last Successful Run")])
           "contacts" (contacts_import [("updated_after", VStr "Last Successful Run")])
           (VStr "Last Successful Run") []).
  - by vm_compute.
  - reflexivity.
  - reflexivity.
  - reflexivity.
Defined.

Lemma live_import_reports_the_delivery_witness :
  ∃ new r,
    Importer.run_task_from_external_crm_to_quorum quiet plain_repr false in_order as_objects no_date
      passive obliging (first_import []) "contacts" []
    = ([] ++ new, r) ∧
    (∀ name, Importer.LogWarningNoChanges name ∉ new) ∧
    match r with
    | Ok Importer.ImportSucceeded => live_pass "contacts" new (VBool true)
    | Ok (Importer.ImportFailed errors some_change) =>
        some_change = true ∧
        ∃ result, result ≠ VBool true ∧ errors = [Importer.SendResult result] ∧
                  live_pass "contacts" new result
    | Ok (Importer.DryRunResults _) => False
    | Raise _ => True
    end.
Proof.
  apply (ImportTaskFacts.live_import_reports_the_delivery quiet plain_repr false in_order as_objects
           no_date passive obliging (first_import []) "contacts" []).
  reflexivity.
Defined.

Lemma existing_file_is_not_overwritten_witness :
  ∃ new r,
    Uploader.upload_fo_to_ftp idle (Uploader.StringIO "a,b") "contacts.csv" (VStr "host")
      (VStr "user") (VStr "secret") VNone (VBool false) []
    = ([] ++ new, r) ∧
    (∀ flo remotepath,
       Uploader.PutFo flo remotepath ∈ new →
       remotepath = "contacts.csv" ∧ Uploader.IsFile "contacts.csv" (Ok false) ∈ new) ∧
    (Uploader.IsFile "contacts.csv" (Ok true) ∈ new →
     r = Raise ValueError ∧ ∀ flo remotepath, Uploader.PutFo flo remotepath ∉ new).
Proof.
  apply (UploaderFacts.existing_file_is_not_overwritten idle (Uploader.StringIO "a,b")
           "contacts.csv" (VStr "host") (VStr "user") (VStr "secret") VNone (VBool false) []).
  reflexivity.
Defined.

Lemma external_upload_is_plain_csv_witness :
  ∃ new,
    Uploader.upload_to_remote gpg_ready marked_csv no_records no_frame plain_json
      (encrypted_export Sftp.external_sftp) Query.empty_frame "contacts.csv.gpg" []
    = ([] ++ new, Ok (Some true)) ∧
    Uploader.ReadFile "tmp" ∈ new ∧
    (∀ flo remotepath,
       Uploader.PutFo flo remotepath ∈ new →
       flo = "plain csv" ∧ remotepath = "contacts.csv.gpg") ∧
    Uploader.PutFo "plain csv" "contacts.csv.gpg" ∈ new.
Proof.
  destruct (UploaderFacts.external_upload_is_plain_csv gpg_ready marked_csv no_records no_frame
              plain_json (encrypted_export Sftp.external_sftp) Query.empty_frame
              "contacts.csv.gpg" [] eq_refl) as (new & r & Heq & Hall & Hput).
  assert (Uploader.upload_to_remote gpg_ready marked_csv no_records no_frame plain_json
            (encrypted_export Sftp.external_sftp) Query.empty_frame "contacts.csv.gpg" []
          = ([Uploader.NamedTemporaryFile "public key";
              Uploader.SubprocessCall ["gpg"; "--import"; "tmp"];
              Uploader.NamedTemporaryFile EmptyString;
              Uploader.Communicate
                ["gpg"; "--encrypt"; "--trust-model"; "always"; "--yes";
                 "--recipient"; "ops@example.org"; "--output"; "tmp"; "-"]
                "quoted csv";
              Uploader.ReadFile "tmp"; Uploader.OsRemove "tmp";
              Uploader.OsRemove "tmp"; Uploader.GetSsmParam "path";
              Uploader.Connect (VStr "host") (VStr "user") (VStr "secret");
              Uploader.IsFile "contacts.csv.gpg" (Ok false);
              Uploader.PutFo "plain csv" "contacts.csv.gpg"],
             Ok (Some true))) as Hrun by (by vm_compute).
  rewrite Hrun in Heq. simpl in Heq. injection Heq as <- <-.
  eexists. split; [exact Hrun|]. split; [|split; [exact Hall | exact (Hput eq_refl)]].
  do 4 right. left.
Defined.

Lemma dry_run_send_stays_local_witness :
  ∃ new r,
    Uploader.send_external_df_to_external idle plain_csv no_records no_frame plain_json
      "2024_01_01" "2024_01_01_00_00" (contacts_export true Sftp.external_sftp) "contacts"
      Query.empty_frame []
    = ([] ++ new, r) ∧
    Forall (fun ev => Uploader.reaches_a_server ev = false) new ∧
    (∀ results, r = Ok results → results = Uploader.DryRunSuccess) ∧
    (∀ line, Uploader.LogError line ∈ new →
             r = Ok Uploader.DryRunSuccess ∧ ∀ name data, Uploader.WriteFile name data ∉ new).
Proof.
  apply (UploaderFacts.dry_run_send_stays_local idle plain_csv no_records no_frame plain_json
           "2024_01_01" "2024_01_01_00_00" (contacts_export true Sftp.external_sftp)
           "contacts" Query.empty_frame []).
  reflexivity.
Defined.

Lemma failed_load_raises_unbound_local_witness :
  FileImport.get_external_df_from_external (unreadable ValueError) file_import "contacts" []
  = (([] ++ [FileImport.RewriteFile "f.csv"; FileImport.GetFileExtension "f.csv"])
       ++ [FileImport.LoadSpreadsheet "f.csv" "csv" "," "UTF-8" (Raise ValueError);
           FileImport.LogErrorFailedToLoad ValueError],
     Raise UnboundLocalError).
Proof.
  apply (FileImportFacts.failed_load_raises_unbound_local (unreadable ValueError) file_import
           "contacts" comma_task "f.csv" "csv" ","%char EmptyString ValueError []);
    reflexivity.
Defined.

End CaseFacts.
